(** * Book recommendation engine: popularity, collaborative, content and
      hybrid recommenders, the facade that dispatches between them, and
      the loader that cleans the tables they are built from.

    The development embeds [src/popularity_recommender.py],
    [src/collaborative_recommender.py], [src/content_recommender.py],
    [src/hybrid_recommender.py], [src/recommendation_system.py] and the
    cleaning steps of [src/data_loader.py].

    Conventions of the embedding.
    - A pandas [DataFrame] is a list of rows in positional order together
      with its column names; a [Series] is a list of (label, value) pairs.
    - Python floats are idealised as rationals ([Q]); the similarity matrices
      are finite numbers, so no NaN occurs among the scores that are sorted.
    - A missing cell (NaN) is [None].
    - [n], the number of recommendations, is a count ([nat]).
    - A call either returns a value or raises: [outcome].

    Not embedded: the reading of the CSV files ([load_data], whose result
    is an argument of [process_all]), the conversion of a text to a number
    inside [pd.to_numeric] and the regular-expression search inside
    [recommend_by_title], which are arguments as well, and the
    command-line scripts. *)

From Stdlib Require Import String List ZArith QArith Bool Arith Lia Lqa.
From Stdlib Require Import Permutation Sorted Qround.
Import ListNotations.

Close Scope Q_scope.
Close Scope Z_scope.
Open Scope string_scope.
Open Scope list_scope.
Open Scope nat_scope.

(** ** Exceptions and results *)

Inductive exn : Type :=
| ValueError (msg : string)
| TypeError (msg : string)
| KeyError (msg : string)
| RuntimeError (msg : string)
| IndexError (msg : string).

Inductive outcome (A : Type) : Type :=
| Returned (a : A)
| Raised (e : exn).

Arguments Returned {A} a.
Arguments Raised {A} e.

Definition bind {A B : Type} (c : outcome A) (k : A -> outcome B) : outcome B :=
  match c with
  | Returned a => k a
  | Raised e => Raised e
  end.

Notation "x <- c ;; k" := (bind c (fun x => k))
  (at level 61, c at next level, right associativity).

(** ** Tables *)

(** One row of [books_with_rating] (the catalog), with the columns that
    [DataLoader.create_books_with_rating] selects, and the cell of the
    derived [Content] column, which is [None] as long as the table has no
    such column. *)
Record Book : Type := mkBook {
  ISBN : string;
  Book_Title : option string;
  Book_Author : option string;
  Average_Rating : Q;
  Year_Of_Publication : Q;
  Publisher : option string;
  Image_URL_S : option string;
  Image_URL_M : option string;
  Image_URL_L : option string;
  Content : option string
}.

(** One row of a rating log ([book_rating_merged], [filtered_ratings]); only
    the three rating columns are read by the recommenders. *)
Record Rating : Type := mkRating {
  rt_User_ID : Z;
  rt_ISBN : string;
  rt_Book_Rating : Z
}.

(** A square labelled matrix: [pd.DataFrame(similarity, index=labels,
    columns=labels)], as both [_build_model] methods construct it. *)
Record SimilarityFrame : Type := mkSim {
  sim_index : list string;
  sim_values : list (list Q)
}.

(** A row of a frame returned by a recommender.  The frame's [columns] say
    which cells exist; a cell of an absent column, or a NaN, is [None]. *)
Record Row : Type := mkRow {
  r_ISBN : option string;
  r_Book_Title : option string;
  r_Book_Author : option string;
  r_Average_Rating : option Q;
  r_Similarity_Score : option Q;
  r_Hybrid_Score : option Q;
  r_Rating_Count : option Z;
  r_Publisher : option string
}.

Record DataFrame : Type := mkFrame {
  columns : list string;
  rows : list Row
}.

(** [pd.DataFrame()] *)
Definition empty_DataFrame : DataFrame := {| columns := []; rows := [] |}.

(** [df.empty]: some axis has length 0. *)
Definition empty (df : DataFrame) : bool :=
  match columns df, rows df with
  | [], _ => true
  | _, [] => true
  | _, _ => false
  end.

(** [df.head(n)] *)
Definition head (n : nat) (df : DataFrame) : DataFrame :=
  {| columns := columns df; rows := firstn n (rows df) |}.

Definition Series : Type := list (string * Q).

(** ** Choices the libraries leave open

    [Series.sort_values] and single-column [DataFrame.sort_values] use
    NumPy's default sort kind, which orders equal keys in an unspecified
    way; iterating a Python [set] of strings visits it in an unspecified
    order.  An [Implementation] fixes both, and supplies the two
    scikit-learn routines that compute the numbers of the matrices
    ([cosine_similarity], and [TfidfVectorizer(...).fit_transform]), which
    either return a matrix or raise.  What is known of the first two is
    [Lawful]: the sort returns a descending rearrangement of its input, and
    the iteration visits every element once. *)

Definition descending {A : Type} (key : A -> Q) (x y : A) : Prop :=
  (key y <= key x)%Q.

Record Implementation : Type := mkImpl {
  sort_values_desc : forall A : Type, (A -> Q) -> list A -> list A;
  set_iter : list (option string) -> list (option string);
  cosine_similarity : list (list Q) -> outcome (list (list Q));
  tfidf_fit_transform : list string -> outcome (list (list Q))
}.

Arguments sort_values_desc _ {A} key l.

Class Lawful (I : Implementation) : Prop := {
  sort_values_desc_perm :
    forall (A : Type) (key : A -> Q) (l : list A),
      Permutation (sort_values_desc I key l) l;
  sort_values_desc_sorted :
    forall (A : Type) (key : A -> Q) (l : list A),
      StronglySorted (descending key) (sort_values_desc I key l);
  set_iter_NoDup : forall l, NoDup (set_iter I l);
  set_iter_In : forall l x, In x (set_iter I l) <-> In x l
}.

(** ** A stable descending sort

    Python's [sorted(..., reverse=True)] keeps equal elements in their
    original order; so does pandas' multi-column [sort_values]. *)

Section StableSort.
Context {A : Type} (lt : A -> A -> bool).

(** [lt x y]: [x] must come strictly after [y]. *)
Fixpoint insert_stable (x : A) (l : list A) : list A :=
  match l with
  | [] => [x]
  | y :: ys => if lt x y then y :: insert_stable x ys else x :: y :: ys
  end.

Definition stable_sort (l : list A) : list A :=
  fold_right insert_stable [] l.
End StableSort.

Definition Qltb (a b : Q) : bool := negb (Qle_bool b a).

(** Stable sort by one numeric key, largest first. *)
Definition sorted_desc {A : Type} (key : A -> Q) (l : list A) : list A :=
  stable_sort (fun x y => Qltb (key x) (key y)) l.

(** Stable sort of labels, smallest first (the order of a [groupby] or
    [pivot_table] axis). *)
Definition sorted_asc {A : Type} (leb : A -> A -> bool) (l : list A) : list A :=
  stable_sort (fun x y => negb (leb x y)) l.

Definition option_string_dec (a b : option string) : {a = b} + {a <> b}.
Proof. decide equality. apply string_dec. Defined.

(** The distinct elements of a list in the order of their first
    occurrence. *)
Definition first_seen (l : list (option string)) : list (option string) :=
  rev (nodup option_string_dec (rev l)).

(** One implementation, used to run the recommenders on examples: the
    stable sort, first-seen set order, and stand-ins for the numeric
    routines (an all-ones similarity, one unit feature per document). *)
Definition reference : Implementation :=
  {| sort_values_desc := @sorted_desc;
     set_iter := first_seen;
     cosine_similarity := fun m => Returned (map (fun _ => map (fun _ => 1%Q) m) m);
     tfidf_fit_transform := fun docs => Returned (map (fun _ => [1%Q]) docs) |}.

(** ** pandas operations used by the recommenders *)

Definition isin (x : string) (l : list string) : bool :=
  existsb (String.eqb x) l.

(** Membership of a catalog ISBN in a list of keys that may hold NaN: a
    string never equals NaN. *)
Definition isin_keys (x : string) (l : list (option string)) : bool :=
  existsb (fun k => match k with Some y => String.eqb x y | None => false end) l.

(** Positions of a label on an axis. *)
Fixpoint locate_from (i : nat) (x : string) (l : list string) : list nat :=
  match l with
  | [] => []
  | y :: ys =>
      if String.eqb y x then i :: locate_from (S i) x ys
      else locate_from (S i) x ys
  end.

Definition locate (x : string) (l : list string) : list nat :=
  locate_from 0 x l.

Definition entry (m : SimilarityFrame) (i j : nat) : Q :=
  nth j (nth i (sim_values m) []) 0%Q.

(** Column number [j] of the matrix, as a Series over the row labels. *)
Definition column (m : SimilarityFrame) (j : nat) : Series :=
  map (fun il => (snd il, entry m (fst il) j))
      (combine (seq 0 (length (sim_index m))) (sim_index m)).

(** [m[isbn].sort_values(ascending=False)] up to the sort itself: with one
    column of that label the selection is a Series; with several it is a
    DataFrame, on which [sort_values] without [by] raises [TypeError]. *)
Definition getitem_column (m : SimilarityFrame) (isbn : string) : outcome Series :=
  match locate isbn (sim_index m) with
  | [] => Raised (KeyError isbn)
  | [j] => Returned (column m j)
  | _ :: _ :: _ =>
      Raised (TypeError "sort_values() missing 1 required positional argument: 'by'")
  end.

(** [s[labels]] for a list of labels each of which occurs in [s]: for every
    label in turn, the entries carrying it. *)
Definition getitem_labels (s : Series) (labels : list string) : Series :=
  flat_map (fun lab => filter (fun e => String.eqb (fst e) lab) s) labels.

(** [frame[col] = values] for an array of values: positional.  A frame with
    no rows takes its index from a non-empty array, every existing column
    becoming NaN; otherwise the lengths must agree. *)
Definition setitem_values {A : Type} (frame : list A) (values : list Q)
  : outcome (list (option A * Q)) :=
  match frame, values with
  | [], _ :: _ => Returned (map (fun v => (None, v)) values)
  | _, _ =>
      if length values =? length frame
      then Returned (combine (map Some frame) values)
      else Raised (ValueError "Length of values does not match length of index")
  end.

Definition similarity_columns : list string :=
  ["ISBN"; "Book-Title"; "Book-Author"; "Average-Rating"; "Similarity-Score"; "Publisher"].

Definition hybrid_columns : list string :=
  ["ISBN"; "Book-Title"; "Book-Author"; "Average-Rating"; "Hybrid-Score"; "Publisher"].

Definition popularity_columns : list string :=
  ["ISBN"; "Book-Title"; "Book-Author"; "Average-Rating"; "Rating-Count"; "Publisher"].

Definition cell {A B : Type} (f : A -> option B) (r : option A) : option B :=
  match r with
  | Some a => f a
  | None => None
  end.

Definition similarity_row (r : option Book * Q) : Row :=
  {| r_ISBN := option_map ISBN (fst r);
     r_Book_Title := cell Book_Title (fst r);
     r_Book_Author := cell Book_Author (fst r);
     r_Average_Rating := option_map Average_Rating (fst r);
     r_Similarity_Score := Some (snd r);
     r_Hybrid_Score := None;
     r_Rating_Count := None;
     r_Publisher := cell Publisher (fst r) |}.

Definition hybrid_row (r : option Book * Q) : Row :=
  {| r_ISBN := option_map ISBN (fst r);
     r_Book_Title := cell Book_Title (fst r);
     r_Book_Author := cell Book_Author (fst r);
     r_Average_Rating := option_map Average_Rating (fst r);
     r_Similarity_Score := None;
     r_Hybrid_Score := Some (snd r);
     r_Rating_Count := None;
     r_Publisher := cell Publisher (fst r) |}.

Definition popularity_row (r : Book * Z) : Row :=
  {| r_ISBN := Some (ISBN (fst r));
     r_Book_Title := Book_Title (fst r);
     r_Book_Author := Book_Author (fst r);
     r_Average_Rating := Some (Average_Rating (fst r));
     r_Similarity_Score := None;
     r_Hybrid_Score := None;
     r_Rating_Count := Some (snd r);
     r_Publisher := Publisher (fst r) |}.

(** ** The similarity query shared by the two engines

    [CollaborativeRecommender.recommend] and [ContentRecommender.recommend]
    have the same body; they differ in the matrix they read
    ([item_similarity_df], [content_similarity_df]). *)
Definition recommend_similar (I : Implementation) (similarity_df : SimilarityFrame)
    (books_with_rating : list Book) (isbn : string) (n : nat) : outcome DataFrame :=
  if negb (isin isbn (sim_index similarity_df)) then Returned empty_DataFrame
  else
    col <- getitem_column similarity_df isbn ;;
    let similar_books := sort_values_desc I snd col in
    let similar_books :=
      filter (fun e => negb (String.eqb (fst e) isbn)) similar_books in
    let top_similar_isbns := map fst (firstn n similar_books) in
    let recommendations :=
      filter (fun b => isin (ISBN b) top_similar_isbns) books_with_rating in
    let similarity_scores :=
      map snd (getitem_labels similar_books top_similar_isbns) in
    scored <- setitem_values recommendations similarity_scores ;;
    let recommendations := sort_values_desc I snd scored in
    Returned {| columns := similarity_columns;
                rows := map similarity_row recommendations |}.

(** The stages of [recommend_similar], named for the statements below:
    the sorted Series without the seed, and the labels of its first [n]
    entries. *)
Definition similar_books (I : Implementation) (col : Series) (isbn : string) : Series :=
  filter (fun e => negb (String.eqb (fst e) isbn)) (sort_values_desc I snd col).

Definition top_similar_isbns (I : Implementation) (col : Series) (isbn : string)
    (n : nat) : list string :=
  map fst (firstn n (similar_books I col isbn)).

(** The catalog has exactly one row for every ISBN of an index. *)
Definition one_row_per_ISBN (books_with_rating : list Book) (index : list string) : Prop :=
  forall i, In i index ->
    length (filter (fun b => String.eqb (ISBN b) i) books_with_rating) = 1.

(** The items of an index other than the seed. *)
Definition others (index : list string) (isbn : string) : list string :=
  filter (fun y => negb (String.eqb y isbn)) index.

(** The entry of a similarity matrix for a pair of labels, each of which
    labels one row (and column). *)
Definition similarity (m : SimilarityFrame) (a b : string) : option Q :=
  match locate a (sim_index m), locate b (sim_index m) with
  | [i], [j] => Some (entry m i j)
  | _, _ => None
  end.

(** No two of the keys are equal numbers. *)
Fixpoint distinct_keys (l : list Q) : bool :=
  match l with
  | [] => true
  | q :: qs => forallb (fun q' => negb (Qeq_bool q q')) qs && distinct_keys qs
  end.

(** ** PopularityRecommender *)

Module PopularityRecommender.

Record self : Type := mkSelf {
  books_with_rating : list Book;
  book_rating_merged : list Rating
}.

(** [groupby('ISBN')['Book-Rating'].count().reset_index()], the count column
    then renamed to [Rating-Count]: one row per distinct ISBN, keys sorted. *)
Definition rating_counts (log : list Rating) : list (string * Z) :=
  map (fun k =>
         (k, Z.of_nat (length (filter (fun r => String.eqb (rt_ISBN r) k) log))))
      (sorted_asc String.leb (nodup string_dec (map rt_ISBN log))).

(** [pd.merge(books, counts, on='ISBN')]: inner join in the order of the
    left rows. *)
Definition merge_on_ISBN (books : list Book) (counts : list (string * Z))
  : list (Book * Z) :=
  flat_map (fun b =>
              map (fun kc => (b, snd kc))
                  (filter (fun kc => String.eqb (fst kc) (ISBN b)) counts))
           books.

(** [x] sorts strictly after [y] under
    [by=['Average-Rating', 'Rating-Count'], ascending=[False, False]]. *)
Definition sorts_after (x y : Book * Z) : bool :=
  Qltb (Average_Rating (fst x)) (Average_Rating (fst y))
  || (Qeq_bool (Average_Rating (fst x)) (Average_Rating (fst y))
      && Z.ltb (snd x) (snd y)).

Definition recommend (s : self) (n : nat) (min_ratings : Z) : DataFrame :=
  let rating_counts := rating_counts (book_rating_merged s) in
  let popular_books := merge_on_ISBN (books_with_rating s) rating_counts in
  let popular_books :=
    filter (fun r => Z.leb min_ratings (snd r)) popular_books in
  let popular_books := stable_sort sorts_after popular_books in
  head n {| columns := popularity_columns;
            rows := map popularity_row popular_books |}.

End PopularityRecommender.

(** The order of the ranking, said on the pairs themselves:
    [(average_rating, rating_count)] of the first is lexicographically
    greater than or equal to that of the second. *)
Definition popularity_ge (a1 : Q) (c1 : Z) (a2 : Q) (c2 : Z) : Prop :=
  (a2 < a1)%Q \/ ((a1 == a2)%Q /\ (c2 <= c1)%Z).

Definition row_popularity_ge (r1 r2 : Row) : Prop :=
  exists a1 c1 a2 c2,
    r_Average_Rating r1 = Some a1 /\ r_Rating_Count r1 = Some c1 /\
    r_Average_Rating r2 = Some a2 /\ r_Rating_Count r2 = Some c2 /\
    popularity_ge a1 c1 a2 c2.

(** The number of rows of a rating log that rate a given ISBN. *)
Definition number_of_ratings (log : list Rating) (isbn : string) : Z :=
  Z.of_nat (count_occ string_dec (map rt_ISBN log) isbn).

(** ** CollaborativeRecommender *)

Record UserItemMatrix : Type := mkPivot {
  uim_index : list string;
  uim_columns : list Z;
  uim_values : list (list Q)
}.

Definition Qsum (l : list Q) : Q := fold_right Qplus 0%Q l.

Module CollaborativeRecommender.

Record self : Type := mkSelf {
  filtered_ratings : list Rating;
  books_with_rating : list Book;
  user_item_matrix : UserItemMatrix;
  item_similarity_df : SimilarityFrame
}.

(** One cell of the pivot: the mean of the ratings of the pair, 0 when the
    pair has none ([fill_value=0]). *)
Definition pivot_cell (log : list Rating) (i : string) (u : Z) : Q :=
  let rs := filter (fun r => String.eqb (rt_ISBN r) i && Z.eqb (rt_User_ID r) u) log in
  match rs with
  | [] => 0%Q
  | _ :: _ =>
      (Qsum (map (fun r => inject_Z (rt_Book_Rating r)) rs)
       / inject_Z (Z.of_nat (length rs)))%Q
  end.

(** [pivot_table(index='ISBN', columns='User-ID', values='Book-Rating',
    fill_value=0)] *)
Definition pivot_table (log : list Rating) : UserItemMatrix :=
  let index := sorted_asc String.leb (nodup string_dec (map rt_ISBN log)) in
  let users := sorted_asc Z.leb (nodup Z.eq_dec (map rt_User_ID log)) in
  {| uim_index := index;
     uim_columns := users;
     uim_values := map (fun i => map (pivot_cell log i) users) index |}.

Definition _build_model (I : Implementation) (filtered_ratings : list Rating)
    (books_with_rating : list Book) : outcome self :=
  let user_item_matrix := pivot_table filtered_ratings in
  item_similarity <- cosine_similarity I (uim_values user_item_matrix) ;;
  Returned {| filtered_ratings := filtered_ratings;
              books_with_rating := books_with_rating;
              user_item_matrix := user_item_matrix;
              item_similarity_df :=
                {| sim_index := uim_index user_item_matrix;
                   sim_values := item_similarity |} |}.

Definition recommend (I : Implementation) (s : self) (isbn : string) (n : nat)
  : outcome DataFrame :=
  recommend_similar I (item_similarity_df s) (books_with_rating s) isbn n.

End CollaborativeRecommender.

(** ** ContentRecommender *)

Definition fillna (s : option string) : string :=
  match s with
  | Some x => x
  | None => ""
  end.

Module ContentRecommender.

Record self : Type := mkSelf {
  books_with_rating : list Book;
  tfidf_matrix : list (list Q);
  content_similarity_df : SimilarityFrame
}.

(** The text of the derived [Content] column for one row:
    [Book-Author.fillna('') + ' ' + Publisher.fillna('') + ' ' +
    Book-Title.fillna('')]. *)
Definition content_text (b : Book) : string :=
  fillna (Book_Author b) ++ " " ++ fillna (Publisher b) ++ " " ++ fillna (Book_Title b).

(** [books_with_rating['Content'] = ...]: the rows with their [Content]
    cells set. *)
Definition setitem_Content (books_with_rating : list Book) : list Book :=
  map (fun b =>
         mkBook (ISBN b) (Book_Title b) (Book_Author b) (Average_Rating b)
                (Year_Of_Publication b) (Publisher b)
                (Image_URL_S b) (Image_URL_M b) (Image_URL_L b)
                (Some (content_text b)))
      books_with_rating.

(** [_build_model] as a function of the rows of the table it is given; the
    engine holds the table with its [Content] column. *)
Definition _build_model (I : Implementation) (books_with_rating : list Book)
  : outcome self :=
  let books_with_rating := setitem_Content books_with_rating in
  tfidf_matrix <-
    tfidf_fit_transform I (map (fun b => fillna (Content b)) books_with_rating) ;;
  content_similarity <- cosine_similarity I tfidf_matrix ;;
  Returned {| books_with_rating := books_with_rating;
              tfidf_matrix := tfidf_matrix;
              content_similarity_df :=
                {| sim_index := map ISBN books_with_rating;
                   sim_values := content_similarity |} |}.

Definition recommend (I : Implementation) (s : self) (isbn : string) (n : nat)
  : outcome DataFrame :=
  recommend_similar I (content_similarity_df s) (books_with_rating s) isbn n.

End ContentRecommender.

(** ** HybridRecommender *)

Definition key_eqb (a b : option string) : bool :=
  match a, b with
  | Some x, Some y => String.eqb x y
  | None, None => true
  | _, _ => false
  end.

(** [frame[frame['ISBN'] == k]['Similarity-Score'].values[0]] guarded by
    [k in frame['ISBN'].values]: the score of the first row carrying ISBN
    [k], and nothing when the column does not hold [k].  A missing value is
    found in a column that holds one, but it equals no cell, itself
    included: the selection is then empty and taking its first value raises
    [IndexError]. *)
Definition listed_score (k : option string) (frame : DataFrame) : outcome (option Q) :=
  if existsb (key_eqb k) (map r_ISBN (rows frame)) then
    match k with
    | Some i =>
        match find (fun r => key_eqb (r_ISBN r) (Some i)) (rows frame) with
        | Some r => Returned (r_Similarity_Score r)
        | None => Raised (IndexError "index 0 is out of bounds for axis 0 with size 0")
        end
    | None => Raised (IndexError "index 0 is out of bounds for axis 0 with size 0")
    end
  else Returned None.

Definition score_or_0 (s : option Q) : Q :=
  match s with
  | Some q => q
  | None => 0%Q
  end.

(** [hybrid_scores[isbn]] *)
Definition dict_get (d : list (option string * Q)) (isbn : string) : outcome Q :=
  match find (fun kv => key_eqb (fst kv) (Some isbn)) d with
  | Some kv => Returned (snd kv)
  | None => Raised (KeyError isbn)
  end.

Fixpoint traverse {A B : Type} (f : A -> outcome B) (l : list A) : outcome (list B) :=
  match l with
  | [] => Returned []
  | x :: xs =>
      y <- f x ;;
      ys <- traverse f xs ;;
      Returned (y :: ys)
  end.

Module HybridRecommender.

Record self : Type := mkSelf {
  collab_recommender : CollaborativeRecommender.self;
  content_recommender : ContentRecommender.self
}.

(** The body of the loop over [all_isbns]: the weighted score of one
    candidate. *)
Definition hybrid_score (collab_recs content_recs : DataFrame)
    (collab_weight content_weight : Q) (rec_isbn : option string) : outcome Q :=
  collab_score <- listed_score rec_isbn collab_recs ;;
  content_score <- listed_score rec_isbn content_recs ;;
  Returned (collab_weight * score_or_0 collab_score
            + content_weight * score_or_0 content_score)%Q.

(** The dictionary [hybrid_scores], in insertion order; the loop that fills
    it stops at the first candidate whose lookup raises. *)
Definition hybrid_scores (I : Implementation) (collab_recs content_recs : DataFrame)
    (collab_weight content_weight : Q) : outcome (list (option string * Q)) :=
  let all_isbns :=
    set_iter I (map r_ISBN (rows collab_recs) ++ map r_ISBN (rows content_recs)) in
  traverse (fun rec_isbn =>
              hybrid_score <-
                hybrid_score collab_recs content_recs collab_weight content_weight
                             rec_isbn ;;
              Returned (rec_isbn, hybrid_score))
           all_isbns.

Definition recommend (I : Implementation) (s : self) (isbn : string) (n : nat)
    (collab_weight content_weight : Q) : outcome DataFrame :=
  collab_recs <- CollaborativeRecommender.recommend I (collab_recommender s) isbn (n * 2) ;;
  content_recs <- ContentRecommender.recommend I (content_recommender s) isbn (n * 2) ;;
  if empty collab_recs then Returned (head n content_recs)
  else if empty content_recs then Returned (head n collab_recs)
  else
    hybrid_scores <-
      hybrid_scores I collab_recs content_recs collab_weight content_weight ;;
    let sorted_isbns := sorted_desc snd hybrid_scores in
    let top_isbns := map fst (firstn n sorted_isbns) in
    let recommendations :=
      filter (fun b => isin_keys (ISBN b) top_isbns)
             (CollaborativeRecommender.books_with_rating (collab_recommender s)) in
    scores <- traverse (fun b => dict_get hybrid_scores (ISBN b)) recommendations ;;
    scored <- setitem_values recommendations scores ;;
    let recommendations := sort_values_desc I snd scored in
    Returned {| columns := hybrid_columns;
                rows := map hybrid_row recommendations |}.

End HybridRecommender.

(** What it means for a candidate list to list a score for a candidate,
    said without the code's lookup: [lists frame i q] when the first row of
    [frame] whose ISBN is [i] carries Similarity-Score [q]; [absent frame i]
    when no row does.  The score the fusion is to use is the listed one, or
    0 for an absent candidate. *)
Definition lists (frame : DataFrame) (i : string) (q : Q) : Prop :=
  exists pre r post,
    rows frame = pre ++ r :: post /\
    (forall r', In r' pre -> r_ISBN r' <> Some i) /\
    r_ISBN r = Some i /\
    r_Similarity_Score r = Some q.

Definition absent (frame : DataFrame) (i : string) : Prop :=
  forall r, In r (rows frame) -> r_ISBN r <> Some i.

Definition candidate_score (frame : DataFrame) (i : string) (q : Q) : Prop :=
  lists frame i q \/ (absent frame i /\ q = 0%Q).

(** The candidates of the merge: the ISBN cells of the two lists. *)
Definition candidates (collab_recs content_recs : DataFrame) : list (option string) :=
  map r_ISBN (rows collab_recs) ++ map r_ISBN (rows content_recs).

(** The dictionary that the loop of the fusion builds when every
    candidate is an ISBN, said as a function: [listed] is the lookup in one
    list, [weighted_score] the score of one candidate, [weighted_scores]
    the dictionary. *)
Definition listed (k : option string) (frame : DataFrame) : option Q :=
  match k with
  | None => None
  | Some i =>
      match find (fun r => key_eqb (r_ISBN r) (Some i)) (rows frame) with
      | Some r => r_Similarity_Score r
      | None => None
      end
  end.

Definition weighted_score (collab_recs content_recs : DataFrame)
    (collab_weight content_weight : Q) (rec_isbn : option string) : Q :=
  (collab_weight * score_or_0 (listed rec_isbn collab_recs)
   + content_weight * score_or_0 (listed rec_isbn content_recs))%Q.

Definition weighted_scores (I : Implementation) (collab_recs content_recs : DataFrame)
    (collab_weight content_weight : Q) : list (option string * Q) :=
  map (fun rec_isbn =>
         (rec_isbn,
          weighted_score collab_recs content_recs collab_weight content_weight rec_isbn))
      (set_iter I (candidates collab_recs content_recs)).

(** The keys of the first [n] entries of the sorted dictionary. *)
Definition top_isbns (I : Implementation) (collab_recs content_recs : DataFrame)
    (collab_weight content_weight : Q) (n : nat) : list (option string) :=
  map fst (firstn n (sorted_desc snd
    (weighted_scores I collab_recs content_recs collab_weight content_weight))).

(** ** BookRecommendationSystem *)

(** Defaults of the keyword arguments ([config.py] repeats them). *)
Definition DEFAULT_MIN_RATINGS : Z := 50%Z.
Definition COLLAB_WEIGHT : Q := (1 # 2)%Q.
Definition CONTENT_WEIGHT : Q := (1 # 2)%Q.

(** [frame['ISBN'].isin(strings)] for one cell. *)
Definition cell_isin (k : option string) (l : list string) : bool :=
  match k with
  | Some x => isin x l
  | None => false
  end.

(** [pd.concat(frames, ignore_index=True)]: the rows in order, under the
    union of the columns in order of first appearance. *)
Definition concat (frames : list DataFrame) : DataFrame :=
  {| columns := rev (nodup string_dec (rev (flat_map columns frames)));
     rows := flat_map rows frames |}.

(** [drop_duplicates(subset='ISBN')]: the first row of every ISBN value;
    missing values count as one value. *)
Fixpoint drop_duplicates_from (seen : list (option string)) (l : list Row) : list Row :=
  match l with
  | [] => []
  | r :: rs =>
      if existsb (key_eqb (r_ISBN r)) seen then drop_duplicates_from seen rs
      else r :: drop_duplicates_from (r_ISBN r :: seen) rs
  end.

Definition drop_duplicates (df : DataFrame) : DataFrame :=
  {| columns := columns df; rows := drop_duplicates_from [] (rows df) |}.

Module BookRecommendationSystem.

Record self : Type := mkSelf {
  popularity_recommender : PopularityRecommender.self;
  collaborative_recommender : CollaborativeRecommender.self;
  content_recommender : ContentRecommender.self;
  hybrid_recommender : HybridRecommender.self;
  books_with_rating : list Book;
  filtered_ratings : list Rating
}.

Definition get_popular_books (s : self) (n : nat) (min_ratings : Z) : DataFrame :=
  PopularityRecommender.recommend (popularity_recommender s) n min_ratings.

Definition recommend_by_isbn (I : Implementation) (s : self) (isbn : string)
    (n : nat) (method : string) : outcome DataFrame :=
  if String.eqb method "popularity" then
    Returned (PopularityRecommender.recommend (popularity_recommender s) n DEFAULT_MIN_RATINGS)
  else if String.eqb method "collaborative" then
    CollaborativeRecommender.recommend I (collaborative_recommender s) isbn n
  else if String.eqb method "content" then
    ContentRecommender.recommend I (content_recommender s) isbn n
  else if String.eqb method "hybrid" then
    HybridRecommender.recommend I (hybrid_recommender s) isbn n COLLAB_WEIGHT CONTENT_WEIGHT
  else Raised (ValueError ("Unknown method: " ++ method)).

(** The loop over [top_user_books]: the non-empty frames, in order. *)
Fixpoint all_recommendations (I : Implementation) (s : self) (n : nat)
    (method : string) (top_user_books : list string) : outcome (list DataFrame) :=
  match top_user_books with
  | [] => Returned []
  | isbn :: rest =>
      recs <-
        (if String.eqb method "collaborative" then
           CollaborativeRecommender.recommend I (collaborative_recommender s) isbn n
         else if String.eqb method "content" then
           ContentRecommender.recommend I (content_recommender s) isbn n
         else
           HybridRecommender.recommend I (hybrid_recommender s) isbn n
             COLLAB_WEIGHT CONTENT_WEIGHT) ;;
      more <- all_recommendations I s n method rest ;;
      Returned (if empty recs then more else recs :: more)
  end.

Definition recommend_for_user (I : Implementation) (s : self) (user_id : Z)
    (n : nat) (method : string) : outcome DataFrame :=
  let user_ratings :=
    filter (fun r => Z.eqb (rt_User_ID r) user_id) (filtered_ratings s) in
  let user_rated_books := map rt_ISBN user_ratings in
  match user_rated_books with
  | [] =>
      Returned (PopularityRecommender.recommend (popularity_recommender s) n DEFAULT_MIN_RATINGS)
  | _ :: _ =>
      let user_ratings :=
        sort_values_desc I (fun r => inject_Z (rt_Book_Rating r)) user_ratings in
      let top_user_books := map rt_ISBN (firstn 3 user_ratings) in
      if String.eqb method "popularity" then
        Returned (PopularityRecommender.recommend (popularity_recommender s) n DEFAULT_MIN_RATINGS)
      else
        frames <- all_recommendations I s n method top_user_books ;;
        match frames with
        | [] => Returned empty_DataFrame
        | _ :: _ =>
            let combined := concat frames in
            let combined :=
              {| columns := columns combined;
                 rows := filter (fun r => negb (cell_isin (r_ISBN r) user_rated_books))
                                (rows combined) |} in
            let combined := drop_duplicates combined in
            Returned (head n combined)
        end
  end.

End BookRecommendationSystem.

(** [DataLoader.get_filtered_ratings]: the rows of the merged log whose book
    has at least [min_book_ratings] rows and whose user has at least
    [min_user_ratings] rows. *)
Definition get_filtered_ratings (book_rating_merged : list Rating)
    (min_book_ratings min_user_ratings : Z) : list Rating :=
  let book_count i :=
    Z.of_nat (length (filter (fun r => String.eqb (rt_ISBN r) i) book_rating_merged)) in
  let user_count u :=
    Z.of_nat (length (filter (fun r => Z.eqb (rt_User_ID r) u) book_rating_merged)) in
  filter (fun r => Z.leb min_book_ratings (book_count (rt_ISBN r))
                   && Z.leb min_user_ratings (user_count (rt_User_ID r)))
         book_rating_merged.

(** ** DataLoader: cleaning the tables

    The three tables as [load_data] reads them from the CSV files, and the
    steps of [process_all].  Of the rating table and of the merged rating
    log only the three rating columns are kept, the only ones that are
    read afterwards.  Each step is the function from the tables it reads
    to the table it stores; inside [process_all] the guards of the steps
    against a table that is still [None] cannot fire. *)

(** A cell of the [Year-Of-Publication] column as [read_csv] delivers it:
    the column mixes numbers and text. *)
Inductive YearCell : Type :=
| YearNumber (y : Q)
| YearText (s : string)
| YearMissing.

(** One row of the books table; [Year] is the type of the cells of its
    [Year-Of-Publication] column, which changes when the column is
    converted. *)
Record BookRecord (Year : Type) : Type := mkBookRecord {
  bk_ISBN : string;
  bk_Book_Title : option string;
  bk_Book_Author : option string;
  bk_Year_Of_Publication : Year;
  bk_Publisher : option string;
  bk_Image_URL_S : option string;
  bk_Image_URL_M : option string;
  bk_Image_URL_L : option string
}.

Arguments mkBookRecord {Year}.
Arguments bk_ISBN {Year}.
Arguments bk_Book_Title {Year}.
Arguments bk_Book_Author {Year}.
Arguments bk_Year_Of_Publication {Year}.
Arguments bk_Publisher {Year}.
Arguments bk_Image_URL_S {Year}.
Arguments bk_Image_URL_M {Year}.
Arguments bk_Image_URL_L {Year}.

(** One row of the users table. *)
Record User : Type := mkUser {
  us_User_ID : Z;
  us_Location : option string;
  us_Age : option Q
}.

Definition notna {A : Type} (c : option A) : bool :=
  match c with
  | Some _ => true
  | None => false
  end.

(** [pd.to_numeric(column, errors="coerce")] for one cell: a number stays,
    a text becomes the number it spells or NaN.  [parse] is the reading of
    a text as a number. *)
Definition to_numeric (parse : string -> option Q) (c : YearCell) : option Q :=
  match c with
  | YearNumber y => Some y
  | YearText s => parse s
  | YearMissing => None
  end.

(** The row with another cell in its year column. *)
Definition with_year {Y Y' : Type} (b : BookRecord Y) (y : Y') : BookRecord Y' :=
  mkBookRecord (bk_ISBN b) (bk_Book_Title b) (bk_Book_Author b) y (bk_Publisher b)
               (bk_Image_URL_S b) (bk_Image_URL_M b) (bk_Image_URL_L b).

(** [(year >= 1900) & (year <= 2025) & (year != 0)] *)
Definition valid_year (y : Q) : bool :=
  Qle_bool 1900 y && Qle_bool y 2025 && negb (Qeq_bool y 0).

(** [(age >= 15) & (age <= 100) & (age != 0)] *)
Definition valid_age (a : Q) : bool :=
  Qle_bool 15 a && Qle_bool a 100 && negb (Qeq_bool a 0).

(** [groupby(...)[...].mean()] of one group, which is never empty. *)
Definition mean (l : list Z) : Q :=
  (Qsum (map inject_Z l) / inject_Z (Z.of_nat (length l)))%Q.

(** [numpy.rint]: the nearest integer, the even one of two equally near. *)
Definition rint (q : Q) : Z :=
  let z := Qfloor q in
  match Qcompare (q - inject_Z z) (1 # 2) with
  | Lt => z
  | Gt => (z + 1)%Z
  | Eq => if Z.even z then z else (z + 1)%Z
  end.

(** [.round(1)]: scale by 10, round to an integer, scale back. *)
Definition round_1 (q : Q) : Q := (inject_Z (rint (q * 10)) / 10)%Q.

(** [drop_duplicates(subset=['ISBN'])] on the table of averages: the first
    row of every ISBN. *)
Fixpoint drop_duplicate_keys_from (seen : list string) (l : list (string * Q))
  : list (string * Q) :=
  match l with
  | [] => []
  | kv :: rest =>
      if isin (fst kv) seen then drop_duplicate_keys_from seen rest
      else kv :: drop_duplicate_keys_from (fst kv :: seen) rest
  end.

Module DataLoader.

Record self : Type := mkSelf {
  books : list (BookRecord Q);
  users : list User;
  ratings : list Rating;
  books_with_rating : list Book;
  book_rating_merged : list Rating
}.

Definition preprocess_books (parse : string -> option Q)
    (books : list (BookRecord YearCell)) : list (BookRecord Q) :=
  let books :=
    filter (fun b => notna (bk_Book_Author b) && notna (bk_Publisher b)
                     && notna (bk_Image_URL_L b))
           books in
  let books :=
    map (fun b => with_year b (to_numeric parse (bk_Year_Of_Publication b))) books in
  (* the mask: a comparison with NaN is false, so the rows that pass have a
     number as year *)
  flat_map (fun b =>
              match bk_Year_Of_Publication b with
              | Some y => if valid_year y then [with_year b y] else []
              | None => []
              end)
           books.

Definition preprocess_users (users : list User) : list User :=
  let users := filter (fun u => notna (us_Age u)) users in
  filter (fun u =>
            match us_Age u with
            | Some a => valid_age a
            | None => false
            end)
         users.

(** [pd.merge(ratings, books, on="ISBN")]: inner join in the order of the
    rating rows, one row for every books row of the same ISBN. *)
Definition preprocess_ratings (ratings : list Rating) (books : list (BookRecord Q))
  : list Rating :=
  flat_map (fun r =>
              map (fun _ => r)
                  (filter (fun b => String.eqb (rt_ISBN r) (bk_ISBN b)) books))
           ratings.

Definition create_books_with_rating (books : list (BookRecord Q))
    (book_rating_merged : list Rating) : list Book :=
  let average_rating :=
    map (fun k =>
           (k, round_1
                 (mean (map rt_Book_Rating
                          (filter (fun r => String.eqb (rt_ISBN r) k)
                                  book_rating_merged)))))
        (sorted_asc String.leb (nodup string_dec (map rt_ISBN book_rating_merged))) in
  let average_rating_unique := drop_duplicate_keys_from [] average_rating in
  flat_map (fun b =>
              map (fun ka =>
                     mkBook (bk_ISBN b) (bk_Book_Title b) (bk_Book_Author b) (snd ka)
                            (bk_Year_Of_Publication b) (bk_Publisher b)
                            (bk_Image_URL_S b) (bk_Image_URL_M b) (bk_Image_URL_L b)
                            None)
                  (filter (fun ka => String.eqb (fst ka) (bk_ISBN b))
                          average_rating_unique))
           books.

(** [process_all], given what [load_data] read: nothing when it reported
    failure, and then [process_all] reports failure as well; else the
    loader with its five tables. *)
Definition process_all (parse : string -> option Q)
    (load_data : option (list (BookRecord YearCell) * list User * list Rating))
  : option self :=
  match load_data with
  | None => None
  | Some (books, users, ratings) =>
      let books := preprocess_books parse books in
      let users := preprocess_users users in
      let book_rating_merged := preprocess_ratings ratings books in
      let books_with_rating := create_books_with_rating books book_rating_merged in
      Some {| books := books;
              users := users;
              ratings := ratings;
              books_with_rating := books_with_rating;
              book_rating_merged := book_rating_merged |}
  end.

End DataLoader.

(** ** Recommendations by title

    [recommend_by_title] selects the catalog rows whose title contains
    [book_title], read by pandas as a regular expression and searched
    ignoring case ([str.contains(book_title, case=False, na=False)]).  The
    search of the compiled pattern in one title is the argument [search]:
    the function below is [recommend_by_title] for a [book_title] that
    compiles, [search] being [re.compile(book_title, re.IGNORECASE).search]
    seen as a test. *)

(** One cell of the mask: a missing title does not match ([na=False]). *)
Definition str_contains (search : string -> bool) (title : option string) : bool :=
  match title with
  | Some t => search t
  | None => false
  end.

Definition recommend_by_title (I : Implementation) (s : BookRecommendationSystem.self)
    (search : string -> bool) (n : nat) (method : string) : outcome DataFrame :=
  let matching_books :=
    filter (fun b => str_contains search (Book_Title b))
           (BookRecommendationSystem.books_with_rating s) in
  match matching_books with
  | [] => Returned empty_DataFrame
  | first :: _ =>
      let isbn := ISBN first in
      BookRecommendationSystem.recommend_by_isbn I s isbn n method
  end.

(** ** The object store

    The recommenders hold their tables by reference, and one catalog table
    is shared by all of them.  The store makes this explicit: every
    DataFrame and matrix is an object at a location; an operation that
    returns a new frame allocates, and an in-place operation
    ([frame[col] = ...], [rename(..., inplace=True)]) overwrites the object
    at its location.  Series, arrays, lists and dictionaries that live only
    inside one call are values.  The functions below follow the Python
    methods statement by statement; [stored_*] lemmas relate them to the
    functions on values above. *)

Module Store.

Definition loc : Type := nat.

(** A table with the catalog's columns, and the derived columns named in
    [extra_columns]. *)
Record Table : Type := mkTable {
  extra_columns : list string;
  table_rows : list Book
}.

(** A copy of catalog rows to which a score column has been added. *)
Record ScoredTable : Type := mkScored {
  scored_columns : list string;
  scored_rows : list (option Book * Q)
}.

Inductive object : Type :=
| OTable (t : Table)
| OScored (t : ScoredTable)
| OCounts (count_column : string) (counts : list (string * Z))
| OCounted (rows : list (Book * Z))
| ORatings (log : list Rating)
| OPivot (m : UserItemMatrix)
| OMatrix (m : list (list Q))
| OSimilarity (m : SimilarityFrame)
| OFrame (df : DataFrame).

Definition heap : Type := list object.

(** A computation on the store: it returns or raises, and leaves a store. *)
Definition M (A : Type) : Type := heap -> outcome A * heap.

Definition ret {A : Type} (a : A) : M A := fun h => (Returned a, h).

Definition raise {A : Type} (e : exn) : M A := fun h => (Raised e, h).

Definition lift {A : Type} (o : outcome A) : M A := fun h => (o, h).

Definition bindM {A B : Type} (m : M A) (k : A -> M B) : M B :=
  fun h =>
    match m h with
    | (Returned a, h') => k a h'
    | (Raised e, h') => (Raised e, h')
    end.

Notation "x <<- c ;; k" := (bindM c (fun x => k))
  (at level 61, c at next level, right associativity).

Notation "c ;;; k" := (bindM c (fun _ => k))
  (at level 61, right associativity).

Definition alloc (o : object) : M loc :=
  fun h => (Returned (length h), h ++ [o]).

Fixpoint update (l : loc) (o : object) (h : heap) : heap :=
  match h, l with
  | [], _ => []
  | _ :: rest, 0 => o :: rest
  | x :: rest, S l' => x :: update l' o rest
  end.

Definition write (l : loc) (o : object) : M unit :=
  fun h => (Returned tt, update l o h).

Definition read (l : loc) : M object :=
  fun h =>
    match nth_error h l with
    | Some o => (Returned o, h)
    | None => (Raised (RuntimeError "no object at this location"), h)
    end.

Definition read_table (l : loc) : M Table :=
  o <<- read l ;;
  match o with
  | OTable t => ret t
  | _ => raise (TypeError "not a catalog table")
  end.

Definition read_scored (l : loc) : M ScoredTable :=
  o <<- read l ;;
  match o with
  | OScored t => ret t
  | _ => raise (TypeError "not a scored table")
  end.

Definition read_counts (l : loc) : M (list (string * Z)) :=
  o <<- read l ;;
  match o with
  | OCounts _ counts => ret counts
  | _ => raise (TypeError "not a table of counts")
  end.

Definition read_ratings (l : loc) : M (list Rating) :=
  o <<- read l ;;
  match o with
  | ORatings log => ret log
  | _ => raise (TypeError "not a rating log")
  end.

Definition read_similarity (l : loc) : M SimilarityFrame :=
  o <<- read l ;;
  match o with
  | OSimilarity m => ret m
  | _ => raise (TypeError "not a similarity matrix")
  end.

Definition read_frame (l : loc) : M DataFrame :=
  o <<- read l ;;
  match o with
  | OFrame df => ret df
  | _ => raise (TypeError "not a result frame")
  end.

(** [frame.copy()] *)
Definition copy (l : loc) : M loc :=
  o <<- read l ;;
  alloc o.

(** [frame[frame['ISBN'].isin(keys)]], a new table. *)
Definition select_rows (l : loc) (keep : Book -> bool) : M loc :=
  t <<- read_table l ;;
  alloc (OTable {| extra_columns := extra_columns t;
                   table_rows := filter keep (table_rows t) |}).

(** [frame[name] = values], in place. *)
Definition setitem_score (l : loc) (name : string) (values : list Q) : M unit :=
  t <<- read_table l ;;
  scored <<- lift (setitem_values (table_rows t) values) ;;
  write l (OScored {| scored_columns := extra_columns t ++ [name];
                      scored_rows := scored |}).

(** [frame.sort_values(score_column, ascending=False)], a new table. *)
Definition sort_values (I : Implementation) (l : loc) : M loc :=
  t <<- read_scored l ;;
  alloc (OScored {| scored_columns := scored_columns t;
                    scored_rows := sort_values_desc I snd (scored_rows t) |}).

(** [frame[[...six columns...]]], a new frame. *)
Definition getitem_columns (l : loc) (names : list string)
    (row : option Book * Q -> Row) : M loc :=
  t <<- read_scored l ;;
  alloc (OFrame {| columns := names; rows := map row (scored_rows t) |}).

(** The body shared by the two engines' [recommend]. *)
Definition recommend_similar (I : Implementation)
    (similarity_df books_with_rating : loc) (isbn : string) (n : nat) : M loc :=
  sim <<- read_similarity similarity_df ;;
  if negb (isin isbn (sim_index sim)) then alloc (OFrame empty_DataFrame)
  else
    col <<- lift (getitem_column sim isbn) ;;
    let similar_books := sort_values_desc I snd col in
    let similar_books :=
      filter (fun e => negb (String.eqb (fst e) isbn)) similar_books in
    let top_similar_isbns := map fst (firstn n similar_books) in
    selected <<- select_rows books_with_rating
                   (fun b => isin (ISBN b) top_similar_isbns) ;;
    recommendations <<- copy selected ;;
    let similarity_scores :=
      map snd (getitem_labels similar_books top_similar_isbns) in
    setitem_score recommendations "Similarity-Score" similarity_scores ;;;
    recommendations <<- sort_values I recommendations ;;
    getitem_columns recommendations similarity_columns similarity_row.

(** *** PopularityRecommender *)

Definition read_counted (l : loc) : M (list (Book * Z)) :=
  o <<- read l ;;
  match o with
  | OCounted rows => ret rows
  | _ => raise (TypeError "not a table with counts")
  end.

(** [counts.rename(columns={...: name}, inplace=True)] *)
Definition rename (l : loc) (name : string) : M unit :=
  counts <<- read_counts l ;;
  write l (OCounts name counts).

(** [pd.merge(books, counts, on='ISBN')], a new table. *)
Definition merge (books counts : loc) : M loc :=
  t <<- read_table books ;;
  c <<- read_counts counts ;;
  alloc (OCounted (PopularityRecommender.merge_on_ISBN (table_rows t) c)).

Module Popularity.

Record self : Type := mkSelf {
  books_with_rating : loc;
  book_rating_merged : loc
}.

Definition __init__ (books_with_rating book_rating_merged : loc) : M self :=
  ret {| books_with_rating := books_with_rating;
         book_rating_merged := book_rating_merged |}.

Definition recommend (s : self) (n : nat) (min_ratings : Z) : M loc :=
  log <<- read_ratings (book_rating_merged s) ;;
  rating_counts <<-
    alloc (OCounts "Book-Rating" (PopularityRecommender.rating_counts log)) ;;
  rename rating_counts "Rating-Count" ;;;
  popular_books <<- merge (books_with_rating s) rating_counts ;;
  rows <<- read_counted popular_books ;;
  popular_books <<-
    alloc (OCounted (filter (fun r => Z.leb min_ratings (snd r)) rows)) ;;
  rows <<- read_counted popular_books ;;
  popular_books <<-
    alloc (OCounted (stable_sort PopularityRecommender.sorts_after rows)) ;;
  rows <<- read_counted popular_books ;;
  selected <<-
    alloc (OFrame {| columns := popularity_columns;
                     rows := map popularity_row rows |}) ;;
  df <<- read_frame selected ;;
  alloc (OFrame (head n df)).

End Popularity.

(** *** CollaborativeRecommender *)

Module Collaborative.

Record self : Type := mkSelf {
  filtered_ratings : loc;
  books_with_rating : loc;
  user_item_matrix : loc;
  item_similarity_df : loc
}.

(** [_build_model] returns the locations it stores in
    [self.user_item_matrix] and [self.item_similarity_df]. *)
Definition _build_model (I : Implementation) (filtered_ratings : loc) : M (loc * loc) :=
  log <<- read_ratings filtered_ratings ;;
  user_item_matrix <<- alloc (OPivot (CollaborativeRecommender.pivot_table log)) ;;
  item_similarity <<-
    lift (cosine_similarity I (uim_values (CollaborativeRecommender.pivot_table log))) ;;
  item_similarity_df <<-
    alloc (OSimilarity
             {| sim_index := uim_index (CollaborativeRecommender.pivot_table log);
                sim_values := item_similarity |}) ;;
  ret (user_item_matrix, item_similarity_df).

Definition __init__ (I : Implementation) (filtered_ratings books_with_rating : loc)
  : M self :=
  built <<- _build_model I filtered_ratings ;;
  ret {| filtered_ratings := filtered_ratings;
         books_with_rating := books_with_rating;
         user_item_matrix := fst built;
         item_similarity_df := snd built |}.

Definition recommend (I : Implementation) (s : self) (isbn : string) (n : nat) : M loc :=
  recommend_similar I (item_similarity_df s) (books_with_rating s) isbn n.

End Collaborative.

(** *** ContentRecommender *)

Module Content.

Record self : Type := mkSelf {
  books_with_rating : loc;
  tfidf_matrix : loc;
  content_similarity_df : loc
}.

(** A table after [table['Content'] = ...]: the column is appended unless
    it is there already, and every row gets its cell. *)
Definition with_Content (t : Table) : Table :=
  {| extra_columns :=
       if isin "Content" (extra_columns t) then extra_columns t
       else extra_columns t ++ ["Content"];
     table_rows := ContentRecommender.setitem_Content (table_rows t) |}.

(** [self.books_with_rating['Content'] = ...]: the table the engine was
    given is changed where it is. *)
Definition setitem_Content (l : loc) : M unit :=
  t <<- read_table l ;;
  write l (OTable (with_Content t)).

(** [_build_model] returns the locations it stores in [self.tfidf_matrix]
    and [self.content_similarity_df]. *)
Definition _build_model (I : Implementation) (books_with_rating : loc) : M (loc * loc) :=
  setitem_Content books_with_rating ;;;
  t <<- read_table books_with_rating ;;
  matrix <<-
    lift (tfidf_fit_transform I (map (fun b => fillna (Content b)) (table_rows t))) ;;
  tfidf_matrix <<- alloc (OMatrix matrix) ;;
  content_similarity <<- lift (cosine_similarity I matrix) ;;
  content_similarity_df <<-
    alloc (OSimilarity {| sim_index := map ISBN (table_rows t);
                          sim_values := content_similarity |}) ;;
  ret (tfidf_matrix, content_similarity_df).

Definition __init__ (I : Implementation) (books_with_rating : loc) : M self :=
  built <<- _build_model I books_with_rating ;;
  ret {| books_with_rating := books_with_rating;
         tfidf_matrix := fst built;
         content_similarity_df := snd built |}.

Definition recommend (I : Implementation) (s : self) (isbn : string) (n : nat) : M loc :=
  recommend_similar I (content_similarity_df s) (books_with_rating s) isbn n.

End Content.

(** *** HybridRecommender *)

Module Hybrid.

Record self : Type := mkSelf {
  collab_recommender : Collaborative.self;
  content_recommender : Content.self
}.

Definition __init__ (collaborative_recommender : Collaborative.self)
    (content_recommender : Content.self) : M self :=
  ret {| collab_recommender := collaborative_recommender;
         content_recommender := content_recommender |}.

Definition recommend (I : Implementation) (s : self) (isbn : string) (n : nat)
    (collab_weight content_weight : Q) : M loc :=
  collab <<- Collaborative.recommend I (collab_recommender s) isbn (n * 2) ;;
  content <<- Content.recommend I (content_recommender s) isbn (n * 2) ;;
  collab_recs <<- read_frame collab ;;
  content_recs <<- read_frame content ;;
  if empty collab_recs then alloc (OFrame (head n content_recs))
  else if empty content_recs then alloc (OFrame (head n collab_recs))
  else
    hybrid_scores <<-
      lift (HybridRecommender.hybrid_scores I collab_recs content_recs
              collab_weight content_weight) ;;
    let sorted_isbns := sorted_desc snd hybrid_scores in
    let top_isbns := map fst (firstn n sorted_isbns) in
    selected <<- select_rows (Collaborative.books_with_rating (collab_recommender s))
                   (fun b => isin_keys (ISBN b) top_isbns) ;;
    recommendations <<- copy selected ;;
    t <<- read_table recommendations ;;
    scores <<- lift (traverse (fun b => dict_get hybrid_scores (ISBN b)) (table_rows t)) ;;
    setitem_score recommendations "Hybrid-Score" scores ;;;
    recommendations <<- sort_values I recommendations ;;
    getitem_columns recommendations hybrid_columns hybrid_row.

End Hybrid.

(** *** BookRecommendationSystem *)

Module System.

Record self : Type := mkSelf {
  popularity_recommender : Popularity.self;
  collaborative_recommender : Collaborative.self;
  content_recommender : Content.self;
  hybrid_recommender : Hybrid.self;
  books_with_rating : loc;
  filtered_ratings : loc
}.

(** [initialize], given what [DataLoader.process_all] produced: nothing
    when it reported failure, else the locations of [books_with_rating] and
    [book_rating_merged]. *)
Definition initialize (I : Implementation) (loaded : option (loc * loc))
    (min_book_ratings min_user_ratings : Z) : M self :=
  match loaded with
  | None => raise (RuntimeError "Failed to load or preprocess data")
  | Some (books_with_rating, book_rating_merged) =>
      log <<- read_ratings book_rating_merged ;;
      filtered_ratings <<-
        alloc (ORatings (get_filtered_ratings log min_book_ratings min_user_ratings)) ;;
      popularity <<- Popularity.__init__ books_with_rating book_rating_merged ;;
      collaborative <<- Collaborative.__init__ I filtered_ratings books_with_rating ;;
      content <<- Content.__init__ I books_with_rating ;;
      hybrid <<- Hybrid.__init__ collaborative content ;;
      ret {| popularity_recommender := popularity;
             collaborative_recommender := collaborative;
             content_recommender := content;
             hybrid_recommender := hybrid;
             books_with_rating := books_with_rating;
             filtered_ratings := filtered_ratings |}
  end.

End System.

(** [keeps b m Q]: started on a store of at least [b] objects, [m] leaves
    the first [b] objects as they are, does not shrink the store, and
    returns only values that satisfy [Q]. *)
Definition keeps {A : Type} (b : nat) (m : M A) (Q : A -> Prop) : Prop :=
  forall h, b <= length h ->
    firstn b (snd (m h)) = firstn b h /\
    length h <= length (snd (m h)) /\
    forall a, fst (m h) = Returned a -> Q a.

(** A location that is not among the first [b]. *)
Definition fresh (b : nat) (l : loc) : Prop := b <= l.

Definition anything {A : Type} (_ : A) : Prop := True.

End Store.

(** The columns a catalog row has before any derived column is added. *)
Definition same_catalog_columns (b b' : Book) : Prop :=
  ISBN b = ISBN b' /\ Book_Title b = Book_Title b' /\
  Book_Author b = Book_Author b' /\ Average_Rating b = Average_Rating b' /\
  Year_Of_Publication b = Year_Of_Publication b' /\ Publisher b = Publisher b' /\
  Image_URL_S b = Image_URL_S b' /\ Image_URL_M b = Image_URL_M b' /\
  Image_URL_L b = Image_URL_L b'.

(** ** Orders on result rows

    Row [r1] may stand before row [r2] in a frame sorted by a score column,
    largest first: both rows show a score, and that of [r2] is not the
    larger. *)
Definition similarity_score_ge (r1 r2 : Row) : Prop :=
  exists q1 q2,
    r_Similarity_Score r1 = Some q1 /\ r_Similarity_Score r2 = Some q2 /\
    (q2 <= q1)%Q.


(** The books that [PopularityRecommender.recommend] ranks: those with at
    least one row in the rating log (the merge is an inner join) and at
    least [min_ratings] of them. *)
Definition ranked (log : list Rating) (min_ratings : Z) (b : Book) : bool :=
  Z.leb 1 (number_of_ratings log (ISBN b))
  && Z.leb min_ratings (number_of_ratings log (ISBN b)).

(** The ratings that a rating log holds for a book. *)
Definition ratings_for (log : list Rating) (isbn : string) : list Z :=
  map rt_Book_Rating (filter (fun r => String.eqb (rt_ISBN r) isbn) log).

(** The rows of a rating log that a user wrote. *)
Definition ratings_of (log : list Rating) (user_id : Z) : list Rating :=
  filter (fun r => Z.eqb (rt_User_ID r) user_id) log.

(** ** Example data

    A catalog of three books, a small rating log, and two similarity
    matrices over the three ISBNs; the catalog lists the books in the order
    A, B, C while C is the book most similar to A. *)

Definition example_book (isbn title : string) (average_rating : Q) : Book :=
  mkBook isbn (Some title) (Some "Author") average_rating 2001%Q (Some "Press")
         None None None None.

Definition example_books : list Book :=
  [example_book "A" "Alpha" (75 # 10)%Q;
   example_book "B" "Beta" 9%Q;
   example_book "C" "Gamma" (25 # 10)%Q].

Definition example_ratings : list Rating :=
  [mkRating 1%Z "A" 8%Z; mkRating 2%Z "A" 7%Z; mkRating 1%Z "B" 9%Z;
   mkRating 3%Z "C" 5%Z; mkRating 2%Z "C" 0%Z].

Definition example_content_similarity : SimilarityFrame :=
  mkSim ["A"; "B"; "C"]
        [[1%Q; (1 # 10)%Q; (9 # 10)%Q];
         [(1 # 10)%Q; 1%Q; (1 # 2)%Q];
         [(9 # 10)%Q; (1 # 2)%Q; 1%Q]].

Definition example_item_similarity : SimilarityFrame :=
  mkSim ["A"; "B"; "C"]
        [[1%Q; (3 # 5)%Q; (4 # 5)%Q];
         [(3 # 5)%Q; 1%Q; 0%Q];
         [(4 # 5)%Q; 0%Q; 1%Q]].

Definition example_content : ContentRecommender.self :=
  ContentRecommender.mkSelf example_books
    [[1%Q; 0%Q]; [0%Q; 1%Q]; [(1 # 2)%Q; (1 # 2)%Q]]
    example_content_similarity.

Definition example_collaborative : CollaborativeRecommender.self :=
  CollaborativeRecommender.mkSelf example_ratings example_books
    (CollaborativeRecommender.pivot_table example_ratings)
    example_item_similarity.

(** A collaborative engine whose index lacks book A (as when A has too few
    ratings to pass the filter). *)
Definition example_collaborative_without_A : CollaborativeRecommender.self :=
  let ratings := filter (fun r => negb (String.eqb (rt_ISBN r) "A")) example_ratings in
  CollaborativeRecommender.mkSelf ratings example_books
    (CollaborativeRecommender.pivot_table ratings)
    (mkSim ["B"; "C"] [[1%Q; 0%Q]; [0%Q; 1%Q]]).

Definition example_hybrid : HybridRecommender.self :=
  HybridRecommender.mkSelf example_collaborative example_content.

Definition example_hybrid_without_A : HybridRecommender.self :=
  HybridRecommender.mkSelf example_collaborative_without_A example_content.

Definition example_system : BookRecommendationSystem.self :=
  BookRecommendationSystem.mkSelf
    (PopularityRecommender.mkSelf example_books example_ratings)
    example_collaborative example_content example_hybrid
    example_books example_ratings.

(** The three tables as read from files: of the books, D has a publisher's
    name where its year should be, E has year 0, F has no author, and G is
    rated by nobody; of the users, one has no age and two have an age out
    of range; the rating table is the example log and two ratings of books
    that do not pass. *)
Definition example_parse (s : string) : option Q :=
  if String.eqb s "2001" then Some 2001%Q else None.

Definition example_raw_book (isbn title : string) (year : YearCell)
  : BookRecord YearCell :=
  mkBookRecord isbn (Some title) (Some "Author") year (Some "Press")
               None None (Some "http://images/large").

Definition example_raw_books : list (BookRecord YearCell) :=
  [example_raw_book "A" "Alpha" (YearNumber 2001%Q);
   example_raw_book "B" "Beta" (YearText "2001");
   example_raw_book "C" "Gamma" (YearNumber 1999%Q);
   example_raw_book "D" "Delta" (YearText "DK Publishing Inc");
   example_raw_book "E" "Epsilon" (YearNumber 0%Q);
   mkBookRecord "F" (Some "Phi") None (YearNumber 2000%Q) (Some "Press")
                None None (Some "http://images/large");
   example_raw_book "G" "Eta" (YearNumber 2005%Q)].

Definition example_users : list User :=
  [mkUser 1%Z (Some "Lisbon") (Some 30%Q); mkUser 2%Z None None;
   mkUser 3%Z (Some "Oslo") (Some 12%Q); mkUser 4%Z (Some "Lima") (Some 101%Q)].

Definition example_rating_table : list Rating :=
  example_ratings ++ [mkRating 1%Z "D" 5%Z; mkRating 4%Z "Z" 3%Z].

(** A store holding the example catalog and the example rating log, as the
    data loader leaves them. *)
Definition example_store : Store.heap :=
  [Store.OTable {| Store.extra_columns := []; Store.table_rows := example_books |};
   Store.ORatings example_ratings].

(** * Properties *)

(** ** The stable sort *)

Section StableSortFacts.
Context {A : Type} (lt : A -> A -> bool).

Lemma insert_stable_perm (x : A) (l : list A) :
  Permutation (insert_stable lt x l) (x :: l).
Proof.
  induction l as [|y ys IH]; simpl.
  - reflexivity.
  - destruct (lt x y).
    + rewrite IH. apply perm_swap.
    + reflexivity.
Qed.

Lemma stable_sort_perm (l : list A) : Permutation (stable_sort lt l) l.
Proof.
  induction l as [|x xs IH]; simpl.
  - constructor.
  - rewrite insert_stable_perm. now constructor.
Qed.

Lemma stable_sort_length (l : list A) : length (stable_sort lt l) = length l.
Proof. apply Permutation_length, stable_sort_perm. Qed.

Lemma stable_sort_In (l : list A) (x : A) : In x (stable_sort lt l) <-> In x l.
Proof.
  split; apply Permutation_in; [|symmetry]; apply stable_sort_perm.
Qed.

(** When "not strictly after" is transitive and total enough, the result is
    ordered by it. *)
Lemma stable_sort_sorted (R : A -> A -> Prop) :
  (forall x y, lt x y = true -> R y x) ->
  (forall x y, lt x y = false -> R x y) ->
  (forall x y z, R x y -> R y z -> R x z) ->
  forall l, StronglySorted R (stable_sort lt l).
Proof.
  intros Hlt Hge Htrans l.
  induction l as [|x xs IH]; simpl; [constructor|].
  set (s := stable_sort lt xs) in *. clearbody s.
  induction IH as [|y ys Hs IHs Hall]; simpl.
  - repeat constructor.
  - destruct (lt x y) eqn:E.
    + constructor; [exact IHs|].
      eapply Permutation_Forall; [symmetry; apply insert_stable_perm|].
      constructor; auto.
    + constructor; [constructor; assumption|].
      constructor; [auto|].
      eapply Forall_impl; [|exact Hall].
      intros z Hz. eapply Htrans; eauto.
Qed.

End StableSortFacts.

Lemma Qltb_true (a b : Q) : Qltb a b = true -> (a <= b)%Q.
Proof.
  unfold Qltb. intros H. apply negb_true_iff in H.
  destruct (Qlt_le_dec a b) as [Hl|Hl]; [now apply Qlt_le_weak|].
  apply Qle_bool_iff in Hl. congruence.
Qed.

Lemma Qltb_false (a b : Q) : Qltb a b = false -> (b <= a)%Q.
Proof.
  unfold Qltb. intros H. apply negb_false_iff in H. now apply Qle_bool_iff.
Qed.

Lemma sorted_desc_perm {A : Type} (key : A -> Q) (l : list A) :
  Permutation (sorted_desc key l) l.
Proof. apply stable_sort_perm. Qed.

Lemma sorted_desc_sorted {A : Type} (key : A -> Q) (l : list A) :
  StronglySorted (descending key) (sorted_desc key l).
Proof.
  apply stable_sort_sorted; unfold descending.
  - intros x y. apply Qltb_true.
  - intros x y. apply Qltb_false.
  - intros x y z Hxy Hyz. eapply Qle_trans; eauto.
Qed.

Lemma first_seen_NoDup (l : list (option string)) : NoDup (first_seen l).
Proof. apply NoDup_rev, NoDup_nodup. Qed.

Lemma first_seen_In (l : list (option string)) (x : option string) :
  In x (first_seen l) <-> In x l.
Proof.
  unfold first_seen. rewrite <- in_rev, nodup_In, <- in_rev. reflexivity.
Qed.

(** The reference implementation is lawful. *)
Lemma reference_lawful : Lawful reference.
Proof.
  constructor.
  - intros A key l. apply sorted_desc_perm.
  - intros A key l. apply sorted_desc_sorted.
  - apply first_seen_NoDup.
  - apply first_seen_In.
Qed.

(** ** The recommenders on the example data *)

Example popular_books_of_example :
  map r_ISBN (rows (PopularityRecommender.recommend
                      (PopularityRecommender.mkSelf example_books example_ratings)
                      2 1%Z))
  = [Some "B"; Some "A"].
Proof. reflexivity. Qed.

Example popular_books_with_two_ratings :
  map (fun r => (r_ISBN r, r_Average_Rating r, r_Rating_Count r))
      (rows (PopularityRecommender.recommend
               (PopularityRecommender.mkSelf example_books example_ratings)
               5 2%Z))
  = [(Some "A", Some (75 # 10)%Q, Some 2%Z); (Some "C", Some (25 # 10)%Q, Some 2%Z)].
Proof. reflexivity. Qed.

Example pivot_table_of_example :
  CollaborativeRecommender.pivot_table example_ratings
  = {| uim_index := ["A"; "B"; "C"];
       uim_columns := [1%Z; 2%Z; 3%Z];
       uim_values := [[8%Q; 7%Q; 0%Q]; [9%Q; 0%Q; 0%Q]; [0%Q; 0%Q; 5%Q]] |}.
Proof. vm_compute. reflexivity. Qed.

Example hybrid_of_example :
  option_map (fun df => map (fun r => (r_ISBN r, r_Hybrid_Score r)) (rows df))
    match HybridRecommender.recommend reference example_hybrid "A" 2
            COLLAB_WEIGHT CONTENT_WEIGHT with
    | Returned df => Some df
    | Raised _ => None
    end
  = Some [(Some "B", Some (170 # 200)%Q); (Some "C", Some (70 # 200)%Q)].
Proof. vm_compute. reflexivity. Qed.

Example recommend_for_user_of_example :
  option_map (fun df => map (fun r => (r_ISBN r, r_Similarity_Score r)) (rows df))
    match BookRecommendationSystem.recommend_for_user reference example_system
            1%Z 2 "content" with
    | Returned df => Some df
    | Raised _ => None
    end
  = Some [(Some "C", Some (1 # 10)%Q)].
Proof. vm_compute. reflexivity. Qed.

Example initialize_example_store :
  fst (Store.System.initialize reference (Some (0, 1)) 1%Z 1%Z example_store)
  = Returned
      {| Store.System.popularity_recommender := Store.Popularity.mkSelf 0 1;
         Store.System.collaborative_recommender := Store.Collaborative.mkSelf 2 0 3 4;
         Store.System.content_recommender := Store.Content.mkSelf 0 5 6;
         Store.System.hybrid_recommender :=
           Store.Hybrid.mkSelf (Store.Collaborative.mkSelf 2 0 3 4)
                               (Store.Content.mkSelf 0 5 6);
         Store.System.books_with_rating := 0;
         Store.System.filtered_ratings := 2 |}.
Proof. vm_compute. reflexivity. Qed.

(** ** Membership tests *)

Lemma isin_In (x : string) (l : list string) : isin x l = true <-> In x l.
Proof.
  unfold isin. rewrite existsb_exists. split.
  - intros [y [Hy E]]. apply String.eqb_eq in E. now subst.
  - intros H. exists x. split; [assumption|apply String.eqb_refl].
Qed.

Lemma isin_false (x : string) (l : list string) : isin x l = false <-> ~ In x l.
Proof.
  rewrite <- isin_In. destruct (isin x l); split; congruence.
Qed.

Lemma isin_keys_In (x : string) (l : list (option string)) :
  isin_keys x l = true <-> In (Some x) l.
Proof.
  unfold isin_keys. rewrite existsb_exists. split.
  - intros [[y|] [Hy E]]; [|discriminate].
    apply String.eqb_eq in E. now subst.
  - intros H. exists (Some x). split; [assumption|apply String.eqb_refl].
Qed.

Lemma key_eqb_eq (a b : option string) : key_eqb a b = true <-> a = b.
Proof.
  destruct a as [x|], b as [y|]; simpl; try (split; congruence).
  rewrite String.eqb_eq. split; congruence.
Qed.

(** ** Selecting a column of the similarity matrix *)

Lemma locate_from_length (i : nat) (x : string) (l : list string) :
  length (locate_from i x l) = count_occ string_dec l x.
Proof.
  revert i. induction l as [|y ys IH]; intros i; simpl; [reflexivity|].
  destruct (String.eqb_spec y x) as [E|E]; destruct (string_dec y x);
    simpl; rewrite ?IH; congruence.
Qed.

Lemma locate_unique (x : string) (l : list string) :
  NoDup l -> In x l -> exists j, locate x l = [j].
Proof.
  intros Hnd Hin.
  pose proof (locate_from_length 0 x l) as Hlen.
  apply (count_occ_In string_dec) in Hin.
  pose proof (proj1 (NoDup_count_occ string_dec l) Hnd x) as Hle.
  unfold locate. destruct (locate_from 0 x l) as [|j [|k r]]; simpl in Hlen.
  - lia.
  - now exists j.
  - lia.
Qed.

Lemma combine_seq_snd {A : Type} (l : list A) (k : nat) :
  map snd (combine (seq k (length l)) l) = l.
Proof.
  revert k. induction l as [|x xs IH]; intros k; simpl; [reflexivity|].
  now rewrite IH.
Qed.

Lemma column_labels (m : SimilarityFrame) (j : nat) :
  map fst (column m j) = sim_index m.
Proof.
  unfold column. rewrite map_map. simpl. apply combine_seq_snd.
Qed.

Lemma getitem_column_labels (m : SimilarityFrame) (isbn : string) (col : Series) :
  getitem_column m isbn = Returned col -> map fst col = sim_index m.
Proof.
  unfold getitem_column.
  destruct (locate isbn (sim_index m)) as [|j [|k r]]; try discriminate.
  intros H. injection H as <-. apply column_labels.
Qed.

(** ** Attaching a column of values *)

Lemma combine_snd {A B : Type} (l : list A) (vs : list B) :
  length l = length vs -> map snd (combine l vs) = vs.
Proof.
  revert l. induction vs as [|v vs IH]; intros [|x l] E; simpl in *;
    try lia; try reflexivity.
  f_equal. apply IH. lia.
Qed.

Lemma combine_fst {A B : Type} (l : list A) (vs : list B) :
  length l = length vs -> map fst (combine l vs) = l.
Proof.
  revert vs. induction l as [|x l IH]; intros [|v vs] E; simpl in *;
    try lia; try reflexivity.
  f_equal. apply IH. lia.
Qed.

Lemma setitem_values_length {A : Type} (frame : list A) (values : list Q)
    (scored : list (option A * Q)) :
  setitem_values frame values = Returned scored ->
  length scored = length values.
Proof.
  unfold setitem_values.
  destruct frame as [|a frame], values as [|v values]; simpl.
  - intros H. now injection H as <-.
  - intros H. injection H as <-. simpl. now rewrite length_map.
  - discriminate.
  - destruct (length values =? length frame) eqn:E; [|discriminate].
    apply Nat.eqb_eq in E.
    intros H. injection H as <-. simpl.
    rewrite length_combine, length_map. lia.
Qed.

Lemma setitem_values_scores {A : Type} (frame : list A) (values : list Q)
    (scored : list (option A * Q)) :
  setitem_values frame values = Returned scored ->
  map snd scored = values.
Proof.
  unfold setitem_values.
  destruct frame as [|a frame], values as [|v values]; simpl.
  - intros H. now injection H as <-.
  - intros H. injection H as <-. simpl. rewrite map_map. simpl. now rewrite map_id.
  - discriminate.
  - destruct (length values =? length frame) eqn:E; [|discriminate].
    apply Nat.eqb_eq in E.
    intros H. injection H as <-. simpl. f_equal.
    apply combine_snd. rewrite length_map. lia.
Qed.

Lemma setitem_values_rows {A : Type} (frame : list A) (values : list Q)
    (scored : list (option A * Q)) :
  setitem_values frame values = Returned scored ->
  forall r, In r scored ->
  fst r = None \/ exists a, fst r = Some a /\ In a frame.
Proof.
  unfold setitem_values.
  destruct frame as [|a frame], values as [|v values]; simpl.
  - intros H. injection H as <-. contradiction.
  - intros H. injection H as <-. intros r [<-|Hr]; [now left|].
    apply in_map_iff in Hr. destruct Hr as [w [<- _]]. now left.
  - discriminate.
  - destruct (length values =? length frame); [|discriminate].
    intros H. injection H as <-. intros r Hr. right.
    destruct r as [o q]. simpl in Hr. destruct Hr as [Hr|Hr].
    + injection Hr as <- <-. exists a. simpl. auto.
    + apply in_combine_l in Hr. apply in_map_iff in Hr.
      destruct Hr as [b [<- Hb]]. exists b. simpl. auto.
Qed.

Lemma setitem_values_same_length {A : Type} (frame : list A) (values : list Q) :
  length values = length frame ->
  setitem_values frame values = Returned (combine (map Some frame) values).
Proof.
  intros E. unfold setitem_values.
  destruct frame as [|a frame], values as [|v values]; simpl in *; try lia.
  - reflexivity.
  - replace (length values =? length frame) with true; [reflexivity|].
    symmetry. apply Nat.eqb_eq. lia.
Qed.

(** ** Prefixes *)

Lemma firstn_incl {A : Type} (n : nat) (l : list A) (x : A) :
  In x (firstn n l) -> In x l.
Proof.
  intros H. rewrite <- (firstn_skipn n l). apply in_or_app. now left.
Qed.

Lemma firstn_NoDup {A : Type} (n : nat) (l : list A) :
  NoDup l -> NoDup (firstn n l).
Proof.
  intros H. rewrite <- (firstn_skipn n l) in H.
  now apply NoDup_app_remove_r in H.
Qed.

Lemma filter_none {A : Type} (p : A -> bool) (l : list A) :
  (forall x, In x l -> p x = false) -> filter p l = [].
Proof.
  induction l as [|x xs IH]; intros H; simpl; [reflexivity|].
  rewrite (H x (or_introl eq_refl)). apply IH. intros y Hy. apply H. now right.
Qed.

Lemma filter_or_length {A : Type} (p q : A -> bool) (l : list A) :
  (forall x, In x l -> p x = true -> q x = false) ->
  length (filter (fun x => p x || q x) l)
  = length (filter p l) + length (filter q l).
Proof.
  induction l as [|x xs IH]; intros H; [reflexivity|].
  assert (IH' := IH (fun y Hy => H y (or_intror Hy))).
  cbn [filter]. destruct (p x) eqn:Ep.
  - rewrite (H x (or_introl eq_refl) Ep). cbn [orb length]. lia.
  - destruct (q x); cbn [orb length]; lia.
Qed.

(** ** The similarity query, stage by stage *)

Lemma recommend_similar_absent (I : Implementation) (sim : SimilarityFrame)
    (books : list Book) (isbn : string) (n : nat) :
  ~ In isbn (sim_index sim) ->
  recommend_similar I sim books isbn n = Returned empty_DataFrame.
Proof.
  intros H. unfold recommend_similar.
  apply isin_false in H. now rewrite H.
Qed.

Lemma recommend_similar_inv (I : Implementation) (sim : SimilarityFrame)
    (books : list Book) (isbn : string) (n : nat) (df : DataFrame) :
  recommend_similar I sim books isbn n = Returned df ->
  (~ In isbn (sim_index sim) /\ df = empty_DataFrame)
  \/ (In isbn (sim_index sim) /\
      exists col scored,
        getitem_column sim isbn = Returned col /\
        setitem_values
          (filter (fun b => isin (ISBN b) (top_similar_isbns I col isbn n)) books)
          (map snd (getitem_labels (similar_books I col isbn)
                                   (top_similar_isbns I col isbn n)))
        = Returned scored /\
        df = {| columns := similarity_columns;
                rows := map similarity_row (sort_values_desc I snd scored) |}).
Proof.
  unfold recommend_similar.
  destruct (isin isbn (sim_index sim)) eqn:Hin; simpl.
  - intros H. right. split; [now apply isin_In|].
    destruct (getitem_column sim isbn) as [col|e]; [|discriminate].
    simpl in H.
    fold (similar_books I col isbn) in H.
    fold (top_similar_isbns I col isbn n) in H.
    destruct (setitem_values _ _) as [scored|e] eqn:Hs; [|discriminate].
    simpl in H. injection H as <-.
    exists col, scored. auto.
  - intros H. injection H as <-. left. split; [now apply isin_false|reflexivity].
Qed.

Lemma similar_books_not_seed (I : Implementation) {L : Lawful I} (col : Series) (isbn : string)
    (e : string * Q) :
  In e (similar_books I col isbn) -> fst e <> isbn /\ In e col.
Proof.
  unfold similar_books. rewrite filter_In. intros [Hin Hne]. split.
  - apply negb_true_iff in Hne. now apply String.eqb_neq.
  - eapply Permutation_in; [apply sort_values_desc_perm|exact Hin].
Qed.

Lemma top_similar_isbns_spec (I : Implementation) {L : Lawful I} (col : Series) (isbn : string)
    (n : nat) (i : string) :
  In i (top_similar_isbns I col isbn n) -> i <> isbn /\ In i (map fst col).
Proof.
  unfold top_similar_isbns. intros H.
  apply in_map_iff in H. destruct H as [e [<- He]].
  apply firstn_incl in He. apply (similar_books_not_seed I col isbn) in He.
  destruct He as [Hne Hin]. split; [assumption|now apply in_map].
Qed.

(** Every row of a frame returned by the similarity query either has no
    ISBN (the all-NaN rows of the index-less assignment) or shows a
    catalog book that is not the seed and is labelled in the matrix. *)
Lemma recommend_similar_rows (I : Implementation) {L : Lawful I} (sim : SimilarityFrame)
    (books : list Book) (isbn : string) (n : nat) (df : DataFrame) :
  recommend_similar I sim books isbn n = Returned df ->
  forall r, In r (rows df) ->
  (exists q, r_Similarity_Score r = Some q) /\
  (r_ISBN r = None \/
   exists b, In b books /\ r_ISBN r = Some (ISBN b) /\ ISBN b <> isbn
             /\ In (ISBN b) (sim_index sim)).
Proof.
  intros H r Hr.
  apply recommend_similar_inv in H.
  destruct H as [[_ ->]|[_ [col [scored [Hcol [Hset ->]]]]]]; [contradiction|].
  simpl in Hr. apply in_map_iff in Hr. destruct Hr as [p [<- Hp]].
  split; [now exists (snd p)|].
  eapply Permutation_in in Hp; [|apply sort_values_desc_perm].
  destruct (setitem_values_rows _ _ _ Hset p Hp) as [Hn|[b [Hb Hin]]].
  - left. unfold similarity_row. simpl. now rewrite Hn.
  - right. exists b. apply filter_In in Hin. destruct Hin as [Hin Htop].
    apply isin_In in Htop. apply (top_similar_isbns_spec I) in Htop.
    destruct Htop as [Hne Hlab].
    rewrite (getitem_column_labels _ _ _ Hcol) in Hlab.
    unfold similarity_row. simpl. rewrite Hb. simpl. auto.
Qed.

(** ** The fusion *)

Lemma traverse_map {A B : Type} (f : A -> outcome B) (g : A -> B) (l : list A) :
  (forall a, In a l -> f a = Returned (g a)) ->
  traverse f l = Returned (map g l).
Proof.
  induction l as [|x xs IH]; intros H; simpl; [reflexivity|].
  rewrite (H x (or_introl eq_refl)). simpl.
  rewrite IH; [reflexivity|]. intros a Ha. apply H. now right.
Qed.

Lemma traverse_inv {A B : Type} (f : A -> outcome B) (l : list A) (r : list B) :
  traverse f l = Returned r ->
  length r = length l /\
  forall a b, In (a, b) (combine l r) -> f a = Returned b.
Proof.
  revert r. induction l as [|x xs IH]; intros r; simpl.
  - intros H. injection H as <-. split; [reflexivity|contradiction].
  - destruct (f x) as [y|e] eqn:Hx; [|discriminate]. simpl.
    destruct (traverse f xs) as [ys|e]; [|discriminate]. simpl.
    intros H. injection H as <-.
    destruct (IH ys eq_refl) as [Hlen Hall]. split; [simpl; congruence|].
    intros a b [Hab|Hab]; [injection Hab as <- <-; assumption|now apply Hall].
Qed.

Lemma existsb_key_eqb (k : option string) (seen : list (option string)) :
  existsb (key_eqb k) seen = true <-> In k seen.
Proof.
  rewrite existsb_exists. split.
  - intros [x [Hx E]]. apply key_eqb_eq in E. now subst.
  - intros H. exists k. split; [exact H|now apply key_eqb_eq].
Qed.

Lemma weighted_scores_keys (I : Implementation) (collab_recs content_recs : DataFrame)
    (cw ctw : Q) :
  map fst (weighted_scores I collab_recs content_recs cw ctw)
  = set_iter I (candidates collab_recs content_recs).
Proof.
  unfold weighted_scores. rewrite map_map. simpl. apply map_id.
Qed.

Lemma weighted_scores_In (I : Implementation) {L : Lawful I} (collab_recs content_recs : DataFrame)
    (cw ctw : Q) (kv : option string * Q) :
  In kv (weighted_scores I collab_recs content_recs cw ctw) ->
  In (fst kv) (candidates collab_recs content_recs) /\
  snd kv = weighted_score collab_recs content_recs cw ctw (fst kv).
Proof.
  unfold weighted_scores. intros H.
  apply in_map_iff in H. destruct H as [k [<- Hk]].
  apply (proj1 (set_iter_In _ _)) in Hk. simpl. auto.
Qed.

(** Looking a candidate up in the dictionary gives the score computed for
    it in the loop. *)
Lemma dict_get_weighted_scores (I : Implementation) {L : Lawful I} (collab_recs content_recs : DataFrame)
    (cw ctw : Q) (i : string) :
  In (Some i) (candidates collab_recs content_recs) ->
  dict_get (weighted_scores I collab_recs content_recs cw ctw) i
  = Returned (weighted_score collab_recs content_recs cw ctw (Some i)).
Proof.
  intros Hin. unfold dict_get.
  destruct (find _ _) as [kv|] eqn:Hf.
  - apply find_some in Hf. destruct Hf as [Hkv Hk].
    apply key_eqb_eq in Hk. apply (weighted_scores_In I) in Hkv.
    destruct Hkv as [_ ->]. now rewrite Hk.
  - exfalso.
    assert (Hk : In (Some i)
      (map fst (weighted_scores I collab_recs content_recs cw ctw))).
    { rewrite weighted_scores_keys. now apply (proj2 (set_iter_In _ _)). }
    apply in_map_iff in Hk. destruct Hk as [kv [Hk Hkv]].
    pose proof (find_none _ _ Hf kv Hkv) as Hno.
    simpl in Hno. rewrite Hk in Hno. simpl in Hno.
    now rewrite String.eqb_refl in Hno.
Qed.

Lemma find_first {A : Type} (p : A -> bool) (pre post : list A) (r : A) :
  (forall x, In x pre -> p x = false) -> p r = true ->
  find p (pre ++ r :: post) = Some r.
Proof.
  intros Hpre Hr. induction pre as [|x xs IH]; simpl.
  - now rewrite Hr.
  - rewrite (Hpre x (or_introl eq_refl)). apply IH.
    intros y Hy. apply Hpre. now right.
Qed.

Lemma listed_lists (frame : DataFrame) (i : string) (q : Q) :
  lists frame i q -> listed (Some i) frame = Some q.
Proof.
  intros [pre [r [post [Hrows [Hpre [Hi Hq]]]]]].
  unfold listed. rewrite Hrows.
  rewrite (find_first _ pre post r); [assumption| |now apply key_eqb_eq].
  intros x Hx. destruct (key_eqb (r_ISBN x) (Some i)) eqn:E; [|reflexivity].
  apply key_eqb_eq in E. now apply Hpre in Hx.
Qed.

Lemma listed_absent (frame : DataFrame) (i : string) :
  absent frame i -> listed (Some i) frame = None.
Proof.
  intros Habs. unfold listed.
  destruct (find _ _) as [r|] eqn:Hf; [|reflexivity].
  apply find_some in Hf. destruct Hf as [Hr E].
  apply key_eqb_eq in E. now apply Habs in Hr.
Qed.

Lemma candidate_score_lookup (frame : DataFrame) (i : string) (q : Q) :
  candidate_score frame i q -> score_or_0 (listed (Some i) frame) = q.
Proof.
  intros [H|[H ->]].
  - now rewrite (listed_lists _ _ _ H).
  - now rewrite (listed_absent _ _ H).
Qed.

(** The code's lookup: for an ISBN it never fails, and gives what [listed]
    says; for a missing value it fails as soon as the list holds one. *)
Lemma listed_score_Some (frame : DataFrame) (i : string) :
  listed_score (Some i) frame = Returned (listed (Some i) frame).
Proof.
  unfold listed_score, listed.
  destruct (existsb (key_eqb (Some i)) (map r_ISBN (rows frame))) eqn:E;
    destruct (find _ (rows frame)) as [r|] eqn:F; try reflexivity; exfalso.
  - apply existsb_key_eqb, in_map_iff in E. destruct E as [r [Er Hr]].
    pose proof (find_none _ _ F r Hr) as Hno. simpl in Hno.
    rewrite Er in Hno. simpl in Hno. now rewrite String.eqb_refl in Hno.
  - apply find_some in F. destruct F as [Hr Er]. apply key_eqb_eq in Er.
    assert (H : existsb (key_eqb (Some i)) (map r_ISBN (rows frame)) = true).
    { apply existsb_key_eqb. rewrite <- Er. now apply in_map. }
    congruence.
Qed.

Lemma hybrid_score_Some (collab_recs content_recs : DataFrame) (cw ctw : Q)
    (i : string) :
  HybridRecommender.hybrid_score collab_recs content_recs cw ctw (Some i)
  = Returned (weighted_score collab_recs content_recs cw ctw (Some i)).
Proof.
  unfold HybridRecommender.hybrid_score. now rewrite !listed_score_Some.
Qed.

Lemma hybrid_score_None (collab_recs content_recs : DataFrame) (cw ctw : Q) :
  In None (candidates collab_recs content_recs) ->
  HybridRecommender.hybrid_score collab_recs content_recs cw ctw None
  = Raised (IndexError "index 0 is out of bounds for axis 0 with size 0").
Proof.
  intros Hin. unfold HybridRecommender.hybrid_score, listed_score.
  destruct (existsb (key_eqb None) (map r_ISBN (rows collab_recs))) eqn:Ec;
    [reflexivity|]. simpl.
  assert (Et : existsb (key_eqb None) (map r_ISBN (rows content_recs)) = true).
  { apply existsb_key_eqb. unfold candidates in Hin. apply in_app_or in Hin.
    destruct Hin as [Hin|Hin]; [|exact Hin].
    apply existsb_key_eqb in Hin. congruence. }
  now rewrite Et.
Qed.

Lemma traverse_raises {A B : Type} (f : A -> outcome B) (e : exn) (l : list A) :
  (forall a, In a l -> f a = Raised e \/ exists b, f a = Returned b) ->
  (exists a, In a l /\ f a = Raised e) ->
  traverse f l = Raised e.
Proof.
  induction l as [|x xs IH]; intros Hall [a [Ha Hf]]; [contradiction|].
  simpl. destruct (Hall x (or_introl eq_refl)) as [Hx|[b Hx]]; rewrite Hx; simpl.
  - reflexivity.
  - destruct Ha as [->|Ha]; [congruence|].
    rewrite IH; [reflexivity| |exists a; auto].
    intros a' Ha'. apply Hall. now right.
Qed.

(** The loop of the fusion: it fills the dictionary when every candidate is
    an ISBN, and raises [IndexError] when a candidate is a missing value. *)
Lemma hybrid_scores_run (I : Implementation) {L : Lawful I}
    (collab_recs content_recs : DataFrame) (cw ctw : Q) :
  (~ In None (candidates collab_recs content_recs) ->
   HybridRecommender.hybrid_scores I collab_recs content_recs cw ctw
   = Returned (weighted_scores I collab_recs content_recs cw ctw))
  /\ (In None (candidates collab_recs content_recs) ->
      HybridRecommender.hybrid_scores I collab_recs content_recs cw ctw
      = Raised (IndexError "index 0 is out of bounds for axis 0 with size 0")).
Proof.
  unfold HybridRecommender.hybrid_scores, weighted_scores.
  fold (candidates collab_recs content_recs). split; intros Hn.
  - apply traverse_map. intros k Hk. apply (proj1 (set_iter_In _ _)) in Hk.
    destruct k as [i|]; [|contradiction]. now rewrite hybrid_score_Some.
  - apply traverse_raises.
    + intros [i|] Hk.
      * right. rewrite hybrid_score_Some. simpl. eexists. reflexivity.
      * left. now rewrite hybrid_score_None.
    + exists None. split; [now apply (proj2 (set_iter_In _ _))|].
      now rewrite hybrid_score_None.
Qed.

Lemma in_combine_map {A B : Type} (g : A -> B) (l : list A) (o : option A) (b : B) :
  In (o, b) (combine (map Some l) (map g l)) ->
  exists a, o = Some a /\ In a l /\ b = g a.
Proof.
  induction l as [|x xs IH]; simpl; [contradiction|].
  intros [H|H].
  - injection H as <- <-. exists x. auto.
  - destruct (IH H) as [a [Ho [Ha Hb]]]. exists a. auto.
Qed.

Lemma top_isbns_candidates (I : Implementation) {L : Lawful I} (collab_recs content_recs : DataFrame)
    (cw ctw : Q) (n : nat) (k : option string) :
  In k (top_isbns I collab_recs content_recs cw ctw n) ->
  In k (candidates collab_recs content_recs).
Proof.
  unfold top_isbns. intros H.
  apply in_map_iff in H. destruct H as [kv [<- Hkv]].
  apply firstn_incl in Hkv.
  eapply Permutation_in in Hkv; [|apply sorted_desc_perm].
  now apply (weighted_scores_In I) in Hkv.
Qed.

(** The merge branch, once both lists are there, neither is empty and
    every row of theirs carries an ISBN. *)
Lemma hybrid_recommend_merge (I : Implementation) {L : Lawful I} (s : HybridRecommender.self)
    (isbn : string) (n : nat) (cw ctw : Q) (collab_recs content_recs : DataFrame) :
  CollaborativeRecommender.recommend I (HybridRecommender.collab_recommender s)
    isbn (n * 2) = Returned collab_recs ->
  ContentRecommender.recommend I (HybridRecommender.content_recommender s)
    isbn (n * 2) = Returned content_recs ->
  empty collab_recs = false ->
  empty content_recs = false ->
  ~ In None (candidates collab_recs content_recs) ->
  let recommendations :=
    filter (fun b => isin_keys (ISBN b) (top_isbns I collab_recs content_recs cw ctw n))
      (CollaborativeRecommender.books_with_rating (HybridRecommender.collab_recommender s)) in
  HybridRecommender.recommend I s isbn n cw ctw
  = Returned
      {| columns := hybrid_columns;
         rows := map hybrid_row (sort_values_desc I snd
           (combine (map Some recommendations)
              (map (fun b => weighted_score collab_recs content_recs
                               cw ctw (Some (ISBN b)))
                   recommendations))) |}.
Proof.
  intros Hc Ht Ec Et Hn recs.
  unfold HybridRecommender.recommend. rewrite Hc, Ht. simpl. rewrite Ec, Et.
  rewrite (proj1 (hybrid_scores_run I collab_recs content_recs cw ctw) Hn). simpl.
  fold (top_isbns I collab_recs content_recs cw ctw n). fold recs.
  rewrite (traverse_map _ (fun b => weighted_score collab_recs
                                     content_recs cw ctw (Some (ISBN b)))).
  - simpl. rewrite setitem_values_same_length by apply length_map. reflexivity.
  - intros b Hb. apply (dict_get_weighted_scores I).
    unfold recs in Hb. apply filter_In in Hb. destruct Hb as [_ Hb].
    apply isin_keys_In in Hb. now apply (top_isbns_candidates I) in Hb.
Qed.

(** The merge branch when a row of one of the lists carries no ISBN. *)
Lemma hybrid_recommend_merge_raises (I : Implementation) {L : Lawful I}
    (s : HybridRecommender.self) (isbn : string) (n : nat) (cw ctw : Q)
    (collab_recs content_recs : DataFrame) :
  CollaborativeRecommender.recommend I (HybridRecommender.collab_recommender s)
    isbn (n * 2) = Returned collab_recs ->
  ContentRecommender.recommend I (HybridRecommender.content_recommender s)
    isbn (n * 2) = Returned content_recs ->
  empty collab_recs = false ->
  empty content_recs = false ->
  In None (candidates collab_recs content_recs) ->
  HybridRecommender.recommend I s isbn n cw ctw
  = Raised (IndexError "index 0 is out of bounds for axis 0 with size 0").
Proof.
  intros Hc Ht Ec Et Hn.
  unfold HybridRecommender.recommend. rewrite Hc, Ht. simpl. rewrite Ec, Et.
  now rewrite (proj2 (hybrid_scores_run I collab_recs content_recs cw ctw) Hn).
Qed.

(** The degenerate branches. *)
Lemma hybrid_recommend_collab_empty (I : Implementation) (s : HybridRecommender.self)
    (isbn : string) (n : nat) (cw ctw : Q) (collab_recs content_recs : DataFrame) :
  CollaborativeRecommender.recommend I (HybridRecommender.collab_recommender s)
    isbn (n * 2) = Returned collab_recs ->
  ContentRecommender.recommend I (HybridRecommender.content_recommender s)
    isbn (n * 2) = Returned content_recs ->
  empty collab_recs = true ->
  HybridRecommender.recommend I s isbn n cw ctw = Returned (head n content_recs).
Proof.
  intros Hc Ht Ec. unfold HybridRecommender.recommend.
  rewrite Hc, Ht. simpl. now rewrite Ec.
Qed.

Lemma hybrid_recommend_content_empty (I : Implementation) (s : HybridRecommender.self)
    (isbn : string) (n : nat) (cw ctw : Q) (collab_recs content_recs : DataFrame) :
  CollaborativeRecommender.recommend I (HybridRecommender.collab_recommender s)
    isbn (n * 2) = Returned collab_recs ->
  ContentRecommender.recommend I (HybridRecommender.content_recommender s)
    isbn (n * 2) = Returned content_recs ->
  empty collab_recs = false ->
  empty content_recs = true ->
  HybridRecommender.recommend I s isbn n cw ctw = Returned (head n collab_recs).
Proof.
  intros Hc Ht Ec Et. unfold HybridRecommender.recommend.
  rewrite Hc, Ht. simpl. now rewrite Ec, Et.
Qed.

Lemma hybrid_recommend_inv (I : Implementation) (s : HybridRecommender.self)
    (isbn : string) (n : nat) (cw ctw : Q) (df : DataFrame) :
  HybridRecommender.recommend I s isbn n cw ctw = Returned df ->
  exists collab_recs content_recs,
    CollaborativeRecommender.recommend I (HybridRecommender.collab_recommender s)
      isbn (n * 2) = Returned collab_recs /\
    ContentRecommender.recommend I (HybridRecommender.content_recommender s)
      isbn (n * 2) = Returned content_recs.
Proof.
  unfold HybridRecommender.recommend.
  destruct (CollaborativeRecommender.recommend _ _ _ _) as [c|e]; [|discriminate].
  destruct (ContentRecommender.recommend _ _ _ _) as [t|e]; [|discriminate].
  intros _. now exists c, t.
Qed.

(** No row of the fused result shows the seed. *)
Lemma hybrid_recommend_rows (I : Implementation) {L : Lawful I} (s : HybridRecommender.self)
    (isbn : string) (n : nat) (cw ctw : Q) (df : DataFrame) :
  HybridRecommender.recommend I s isbn n cw ctw = Returned df ->
  forall r, In r (rows df) -> r_ISBN r <> Some isbn.
Proof.
  intros H r Hr.
  destruct (hybrid_recommend_inv _ _ _ _ _ _ _ H) as [c [t [Hc Ht]]].
  assert (Hrows : forall f x, (f = c \/ f = t) -> In x (rows f) -> r_ISBN x <> Some isbn).
  { intros f x Hf Hx.
    assert (Hx' : (exists q, r_Similarity_Score x = Some q) /\
                  (r_ISBN x = None \/
                   exists b, r_ISBN x = Some (ISBN b) /\ ISBN b <> isbn)).
    { destruct Hf as [-> | ->].
      - destruct (recommend_similar_rows _ _ _ _ _ _ Hc x Hx) as [Hq [Hn|[b Hb]]];
          (split; [exact Hq|]); [now left|right; exists b; tauto].
      - destruct (recommend_similar_rows _ _ _ _ _ _ Ht x Hx) as [Hq [Hn|[b Hb]]];
          (split; [exact Hq|]); [now left|right; exists b; tauto]. }
    destruct Hx' as [_ [Hn|[b [Hb Hne]]]]; [rewrite Hn; discriminate|].
    rewrite Hb. congruence. }
  destruct (empty c) eqn:Ec.
  - rewrite (hybrid_recommend_collab_empty _ _ _ _ _ _ _ _ Hc Ht Ec) in H.
    injection H as <-. simpl in Hr. apply firstn_incl in Hr.
    apply (Hrows t r); auto.
  - destruct (empty t) eqn:Et.
    + rewrite (hybrid_recommend_content_empty _ _ _ _ _ _ _ _ Hc Ht Ec Et) in H.
      injection H as <-. simpl in Hr. apply firstn_incl in Hr.
      apply (Hrows c r); auto.
    + destruct (in_dec option_string_dec None (candidates c t)) as [Hn|Hn].
      { rewrite (hybrid_recommend_merge_raises _ _ _ _ _ _ _ _ Hc Ht Ec Et Hn) in H.
        discriminate. }
      rewrite (hybrid_recommend_merge _ _ _ _ _ _ _ _ Hc Ht Ec Et Hn) in H.
      injection H as <-. simpl in Hr.
      apply in_map_iff in Hr. destruct Hr as [[o q] [<- Hbq]].
      eapply Permutation_in in Hbq; [|apply sort_values_desc_perm].
      apply in_combine_map in Hbq. destruct Hbq as [b [-> [Hbq _]]].
      apply filter_In in Hbq. destruct Hbq as [_ Hb].
      apply isin_keys_In in Hb. apply (top_isbns_candidates I) in Hb.
      unfold candidates in Hb. simpl. intros E. injection E as E. rewrite E in Hb.
      apply in_app_or in Hb. destruct Hb as [Hb|Hb];
        apply in_map_iff in Hb; destruct Hb as [x [Hx Hin]].
      * apply (Hrows c x); auto.
      * apply (Hrows t x); auto.
Qed.

(** Every candidate has a score in the sense of [candidate_score], provided
    the rows of the list carry scores (those of the engines do). *)
Lemma candidate_score_total (frame : DataFrame) (i : string) :
  (forall r, In r (rows frame) -> exists q, r_Similarity_Score r = Some q) ->
  exists q, candidate_score frame i q.
Proof.
  destruct frame as [cols rs]. unfold candidate_score, lists, absent. simpl.
  induction rs as [|r rs IH]; intros Hq.
  - exists 0%Q. right. split; [intros r []|reflexivity].
  - destruct (option_string_dec (r_ISBN r) (Some i)) as [E|E].
    + destruct (Hq r (or_introl eq_refl)) as [q Hr].
      exists q. left. exists [], r, rs. repeat split; auto; intros r' [].
    + destruct IH as [q [[pre [x [post [Hrows [Hpre [Hi Hx]]]]]]|[Habs ->]]].
      * intros x Hx. apply Hq. now right.
      * exists q. left. exists (r :: pre), x, post. repeat split; auto.
        -- simpl. now rewrite Hrows.
        -- intros r' [<-|Hr']; auto.
      * exists 0%Q. right. split; [|reflexivity].
        intros r' [<-|Hr']; auto.
Qed.

(** ** How many rows the similarity query returns *)

Lemma remove_label_length (x : string) (l : list string) :
  NoDup l -> In x l ->
  length (filter (fun y => negb (String.eqb y x)) l) = length l - 1.
Proof.
  induction 1 as [|y ys Hy Hnd IH]; intros Hin; [contradiction|].
  simpl. destruct (String.eqb_spec y x) as [E|E]; simpl.
  - subst y. rewrite Nat.sub_0_r.
    clear IH Hin. induction ys as [|z zs IHz]; simpl; [reflexivity|].
    destruct (String.eqb_spec z x) as [E|E].
    + subst z. exfalso. apply Hy. now left.
    + simpl. f_equal. apply IHz.
      * intros H. apply Hy. now right.
      * now inversion Hnd.
  - destruct Hin as [Hin|Hin]; [congruence|].
    rewrite (IH Hin). destruct ys; [contradiction|simpl; lia].
Qed.

Lemma similar_books_labels (I : Implementation) (col : Series) (isbn : string) :
  map fst (similar_books I col isbn)
  = filter (fun y => negb (String.eqb y isbn)) (map fst (sort_values_desc I snd col)).
Proof.
  unfold similar_books. symmetry.
  apply (filter_map_swap (fun y => negb (String.eqb y isbn)) fst).
Qed.

Lemma similar_books_NoDup (I : Implementation) {L : Lawful I} (col : Series) (isbn : string) :
  NoDup (map fst col) -> NoDup (map fst (similar_books I col isbn)).
Proof.
  intros H. rewrite similar_books_labels. apply NoDup_filter.
  eapply Permutation_NoDup; [|exact H].
  apply Permutation_map. symmetry. apply sort_values_desc_perm.
Qed.

Lemma similar_books_length (I : Implementation) {L : Lawful I} (col : Series) (isbn : string) :
  NoDup (map fst col) -> In isbn (map fst col) ->
  length (similar_books I col isbn) = length col - 1.
Proof.
  intros Hnd Hin.
  rewrite <- (length_map fst (similar_books I col isbn)), similar_books_labels.
  assert (Hp : Permutation (map fst (sort_values_desc I snd col)) (map fst col)).
  { apply Permutation_map, sort_values_desc_perm. }
  rewrite remove_label_length.
  - now rewrite (Permutation_length Hp), length_map.
  - eapply Permutation_NoDup; [symmetry; exact Hp|exact Hnd].
  - eapply Permutation_in; [symmetry; exact Hp|exact Hin].
Qed.

(** With distinct labels, selecting an entry's label selects that entry. *)
Lemma filter_unique_label (s : Series) (e : string * Q) :
  NoDup (map fst s) -> In e s ->
  filter (fun x => String.eqb (fst x) (fst e)) s = [e].
Proof.
  induction s as [|y ys IH]; intros Hnd Hin; [contradiction|].
  simpl in Hnd. inversion Hnd as [|? ? Hy Hys]; subst.
  simpl. destruct Hin as [->|Hin].
  - rewrite String.eqb_refl. f_equal.
    apply filter_none. intros x Hx.
    apply String.eqb_neq. intros E. apply Hy. rewrite <- E. now apply in_map.
  - destruct (String.eqb_spec (fst y) (fst e)) as [E|E].
    + exfalso. apply Hy. rewrite E. now apply in_map.
    + now apply IH.
Qed.

Lemma getitem_labels_prefix (s : Series) (n : nat) :
  NoDup (map fst s) ->
  getitem_labels s (map fst (firstn n s)) = firstn n s.
Proof.
  intros Hnd. unfold getitem_labels.
  assert (H : forall p, (forall e, In e p -> In e s) ->
            flat_map (fun lab => filter (fun e => String.eqb (fst e) lab) s) (map fst p) = p).
  { induction p as [|e p IH]; intros Hp; simpl; [reflexivity|].
    rewrite (filter_unique_label s e Hnd (Hp e (or_introl eq_refl))).
    simpl. f_equal. apply IH. intros x Hx. apply Hp. now right. }
  apply H. intros e. apply firstn_incl.
Qed.

(** Rows of the catalog selected by a duplicate-free list of ISBNs, each
    of which has exactly one row. *)
Lemma isin_filter_length (books : list Book) (top : list string) :
  NoDup top ->
  (forall i, In i top -> length (filter (fun b => String.eqb (ISBN b) i) books) = 1) ->
  length (filter (fun b => isin (ISBN b) top) books) = length top.
Proof.
  induction 1 as [|i top Hi Hnd IH]; intros Hone.
  - simpl. now rewrite filter_none.
  - cbn [length]. rewrite <- IH by (intros j Hj; apply Hone; now right).
    pose proof (Hone i (or_introl eq_refl)) as H1.
    change (filter (fun b => isin (ISBN b) (i :: top)) books)
      with (filter (fun b => String.eqb (ISBN b) i || isin (ISBN b) top) books).
    rewrite filter_or_length; [lia|].
    intros b _ E. apply String.eqb_eq in E. apply isin_false. now rewrite E.
Qed.

Lemma recommend_similar_length (I : Implementation) {L : Lawful I} (sim : SimilarityFrame)
    (books : list Book) (isbn : string) (n : nat) :
  NoDup (sim_index sim) ->
  In isbn (sim_index sim) ->
  one_row_per_ISBN books (sim_index sim) ->
  exists df,
    recommend_similar I sim books isbn n = Returned df /\
    length (rows df) = Nat.min n (length (others (sim_index sim) isbn)).
Proof.
  intros Hnd Hin Hone.
  destruct (locate_unique isbn (sim_index sim) Hnd Hin) as [j Hj].
  assert (Hcol : getitem_column sim isbn = Returned (column sim j)).
  { unfold getitem_column. now rewrite Hj. }
  set (col := column sim j) in *.
  assert (Hlab : map fst col = sim_index sim) by apply column_labels.
  assert (Hnd' : NoDup (map fst (similar_books I col isbn))).
  { apply (similar_books_NoDup I). now rewrite Hlab. }
  set (top := top_similar_isbns I col isbn n).
  assert (Htop : top = firstn n (map fst (similar_books I col isbn))).
  { unfold top, top_similar_isbns. symmetry. apply firstn_map. }
  assert (Hlen_top : length top = Nat.min n (length (others (sim_index sim) isbn))).
  { unfold top, top_similar_isbns. rewrite length_map, length_firstn.
    rewrite (similar_books_length I) by (rewrite Hlab; assumption).
    unfold others. rewrite remove_label_length by assumption.
    now rewrite <- Hlab, length_map. }
  assert (Hrecs : length (filter (fun b => isin (ISBN b) top) books) = length top).
  { apply isin_filter_length.
    - rewrite Htop. now apply firstn_NoDup.
    - intros i Hi. apply Hone. apply (top_similar_isbns_spec I) in Hi.
      rewrite <- Hlab. tauto. }
  assert (Hvals : getitem_labels (similar_books I col isbn) top
                  = firstn n (similar_books I col isbn)).
  { apply getitem_labels_prefix. exact Hnd'. }
  eexists. split.
  - unfold recommend_similar.
    rewrite (proj2 (isin_In _ _) Hin). simpl. rewrite Hcol. simpl.
    fold (similar_books I col isbn). fold (top_similar_isbns I col isbn n). fold top.
    rewrite setitem_values_same_length; [simpl; reflexivity|].
    rewrite Hvals, length_map, Hrecs. unfold top, top_similar_isbns.
    now rewrite length_map.
  - simpl. rewrite length_map.
    rewrite (Permutation_length (sort_values_desc_perm _ snd _)).
    rewrite length_combine, length_map, Hvals, length_map, Hrecs.
    unfold top, top_similar_isbns in *. rewrite length_map in *. lia.
Qed.

(** The index a collaborative engine is built with has no duplicate. *)
Lemma collaborative_index_NoDup (I : Implementation) (filtered : list Rating)
    (books : list Book) (c : CollaborativeRecommender.self) :
  CollaborativeRecommender._build_model I filtered books = Returned c ->
  NoDup (sim_index (CollaborativeRecommender.item_similarity_df c)).
Proof.
  unfold CollaborativeRecommender._build_model.
  destruct (cosine_similarity I _) as [m|e]; [|discriminate].
  simpl. intros H. injection H as <-. simpl.
  unfold sorted_asc. eapply Permutation_NoDup.
  - symmetry. apply stable_sort_perm.
  - apply NoDup_nodup.
Qed.

(** A content engine built over a catalog with one row per ISBN has a
    duplicate-free index, every item of which has exactly one catalog row. *)
Lemma content_index_one_row (I : Implementation) (books : list Book)
    (t : ContentRecommender.self) :
  ContentRecommender._build_model I books = Returned t ->
  NoDup (map ISBN books) ->
  NoDup (sim_index (ContentRecommender.content_similarity_df t)) /\
  one_row_per_ISBN (ContentRecommender.books_with_rating t)
                   (sim_index (ContentRecommender.content_similarity_df t)).
Proof.
  unfold ContentRecommender._build_model.
  destruct (tfidf_fit_transform I _) as [m|e]; [|discriminate]. simpl.
  destruct (cosine_similarity I _) as [m'|e]; [|discriminate]. simpl.
  intros H Hnd. injection H as <-. simpl.
  assert (E : map ISBN (ContentRecommender.setitem_Content books) = map ISBN books).
  { unfold ContentRecommender.setitem_Content. rewrite map_map. reflexivity. }
  rewrite E. split; [assumption|].
  clear m m' E. intros i Hi. unfold ContentRecommender.setitem_Content.
  rewrite filter_map_swap, length_map. cbn [ISBN].
  induction books as [|b bs IH]; [contradiction|].
  simpl in Hnd. inversion Hnd as [|? ? Hb Hbs]; subst. simpl.
  destruct (String.eqb_spec (ISBN b) i) as [E|E]; simpl.
  - f_equal. rewrite filter_none; [reflexivity|].
    intros x Hx. apply String.eqb_neq. intros E'. apply Hb.
    rewrite E, <- E'. now apply in_map.
  - apply IH; [assumption|]. destruct Hi as [Hi|Hi]; [congruence|assumption].
Qed.

(** ** The popularity ranking *)

Lemma Qltb_lt (a b : Q) : Qltb a b = true -> (a < b)%Q.
Proof.
  unfold Qltb. intros H. apply negb_true_iff in H.
  destruct (Qlt_le_dec a b) as [Hl|Hl]; [assumption|].
  apply Qle_bool_iff in Hl. congruence.
Qed.

Lemma popularity_ge_trans (a1 : Q) (c1 : Z) (a2 : Q) (c2 : Z) (a3 : Q) (c3 : Z) :
  popularity_ge a1 c1 a2 c2 -> popularity_ge a2 c2 a3 c3 ->
  popularity_ge a1 c1 a3 c3.
Proof.
  unfold popularity_ge. intros [H12|[E12 C12]] [H23|[E23 C23]].
  - left. eapply Qlt_trans; eauto.
  - left. now rewrite <- E23.
  - left. now rewrite E12.
  - right. split; [now rewrite E12|lia].
Qed.

Lemma sorts_after_true (x y : Book * Z) :
  PopularityRecommender.sorts_after x y = true ->
  popularity_ge (Average_Rating (fst y)) (snd y) (Average_Rating (fst x)) (snd x).
Proof.
  unfold PopularityRecommender.sorts_after, popularity_ge. intros H.
  apply orb_true_iff in H. destruct H as [H|H].
  - left. now apply Qltb_lt.
  - apply andb_true_iff in H. destruct H as [E C].
    apply Qeq_bool_iff in E. apply Z.ltb_lt in C.
    right. split; [now symmetry|lia].
Qed.

Lemma sorts_after_false (x y : Book * Z) :
  PopularityRecommender.sorts_after x y = false ->
  popularity_ge (Average_Rating (fst x)) (snd x) (Average_Rating (fst y)) (snd y).
Proof.
  unfold PopularityRecommender.sorts_after, popularity_ge. intros H.
  apply orb_false_iff in H. destruct H as [Hlt H].
  apply Qltb_false in Hlt.
  destruct (Qlt_le_dec (Average_Rating (fst y)) (Average_Rating (fst x))) as [L|L];
    [now left|].
  right. assert (E : (Average_Rating (fst x) == Average_Rating (fst y))%Q)
    by (now apply Qle_antisym).
  split; [exact E|].
  apply Qeq_bool_iff in E. rewrite E in H. simpl in H.
  apply Z.ltb_ge in H. exact H.
Qed.

Lemma StronglySorted_firstn {A : Type} (R : A -> A -> Prop) (n : nat) (l : list A) :
  StronglySorted R l -> StronglySorted R (firstn n l).
Proof.
  intros H. revert n. induction H as [|x l Hs IH Hall]; intros [|n]; simpl;
    try constructor.
  - apply IH.
  - apply Forall_forall. intros y Hy. apply firstn_incl in Hy.
    revert y Hy. now apply Forall_forall.
Qed.

Lemma StronglySorted_map {A B : Type} (R : A -> A -> Prop) (R' : B -> B -> Prop)
    (f : A -> B) (l : list A) :
  (forall x y, R x y -> R' (f x) (f y)) ->
  StronglySorted R l -> StronglySorted R' (map f l).
Proof.
  intros Hf H. induction H as [|x l Hs IH Hall]; simpl; constructor.
  - exact IH.
  - apply Forall_forall. intros y Hy. apply in_map_iff in Hy.
    destruct Hy as [z [<- Hz]]. apply Hf.
    revert z Hz. now apply Forall_forall.
Qed.

Lemma rating_counts_In (log : list Rating) (k : string) (c : Z) :
  In (k, c) (PopularityRecommender.rating_counts log) ->
  c = number_of_ratings log k.
Proof.
  unfold PopularityRecommender.rating_counts, number_of_ratings. intros H.
  apply in_map_iff in H. destruct H as [k' [E _]]. injection E as -> <-.
  f_equal. induction log as [|r rs IH]; simpl; [reflexivity|].
  destruct (String.eqb_spec (rt_ISBN r) k) as [E|E];
    destruct (string_dec (rt_ISBN r) k); simpl; congruence.
Qed.

Lemma merge_on_ISBN_In (books : list Book) (counts : list (string * Z))
    (b : Book) (c : Z) :
  In (b, c) (PopularityRecommender.merge_on_ISBN books counts) ->
  In b books /\ In (ISBN b, c) counts.
Proof.
  unfold PopularityRecommender.merge_on_ISBN. intros H.
  apply in_flat_map in H. destruct H as [b' [Hb H]].
  apply in_map_iff in H. destruct H as [[k c'] [E H]].
  simpl in E. injection E as -> ->.
  apply filter_In in H. destruct H as [H Ek]. simpl in Ek.
  apply String.eqb_eq in Ek. subst k. auto.
Qed.

(** ** Sorting distinct keys

    When no two keys are equal there is one descending arrangement, so every
    implementation sorts like the stable sort. *)

Lemma sorted_perm_unique {A : Type} (R : A -> A -> Prop) (l1 l2 : list A) :
  StronglySorted R l1 -> StronglySorted R l2 -> Permutation l1 l2 ->
  (forall x y, In x l1 -> In y l1 -> R x y -> R y x -> x = y) ->
  l1 = l2.
Proof.
  intros H1. revert l2. induction H1 as [|x xs Hs IH Hx]; intros l2 H2 Hp Hanti.
  - apply Permutation_nil in Hp. now subst.
  - destruct l2 as [|y ys]; [apply Permutation_sym, Permutation_nil in Hp; discriminate|].
    inversion H2 as [|? ? Hs2 Hy]; subst.
    assert (E : x = y).
    { assert (Hxin : In x (y :: ys))
        by (eapply Permutation_in; [exact Hp|now left]).
      assert (Hyin : In y (x :: xs))
        by (eapply Permutation_in; [symmetry; exact Hp|now left]).
      destruct Hxin as [->|Hxin]; [reflexivity|].
      destruct Hyin as [->|Hyin]; [reflexivity|].
      apply Hanti; [now left|now right| |].
      - rewrite Forall_forall in Hx. now apply Hx.
      - rewrite Forall_forall in Hy. now apply Hy. }
    subst y. f_equal. apply IH.
    + assumption.
    + now apply Permutation_cons_inv in Hp.
    + intros a b Ha Hb. apply Hanti; now right.
Qed.

Lemma distinct_keys_injective {A : Type} (key : A -> Q) (l : list A) :
  distinct_keys (map key l) = true ->
  forall x y, In x l -> In y l -> (key x == key y)%Q -> x = y.
Proof.
  induction l as [|a l IH]; simpl; [contradiction|].
  intros H x y Hx Hy E.
  apply andb_true_iff in H. destruct H as [Ha Hl].
  rewrite forallb_forall in Ha.
  assert (Hne : forall z, In z l -> ~ (key a == key z)%Q).
  { intros z Hz Ez. specialize (Ha (key z) (in_map key l z Hz)).
    apply negb_true_iff in Ha. apply Qeq_bool_iff in Ez. congruence. }
  destruct Hx as [<-|Hx], Hy as [<-|Hy].
  - reflexivity.
  - exfalso. now apply (Hne y).
  - exfalso. apply (Hne x Hx). now symmetry.
  - now apply IH.
Qed.

Lemma sort_values_desc_distinct (I : Implementation) {L : Lawful I} {A : Type} (key : A -> Q)
    (l : list A) :
  distinct_keys (map key l) = true ->
  sort_values_desc I key l = sorted_desc key l.
Proof.
  intros Hd.
  apply (sorted_perm_unique (descending key)).
  - apply sort_values_desc_sorted.
  - apply sorted_desc_sorted.
  - rewrite sort_values_desc_perm. symmetry. apply sorted_desc_perm.
  - intros x y Hx Hy Hxy Hyx.
    apply (distinct_keys_injective key l Hd).
    + eapply Permutation_in; [apply sort_values_desc_perm|exact Hx].
    + eapply Permutation_in; [apply sort_values_desc_perm|exact Hy].
    + unfold descending in *. now apply Qle_antisym.
Qed.

(** The query on the example data, for any implementation: the scores of
    the candidates are pairwise distinct at both sorts. *)
Lemma example_content_top2 (I : Implementation) {L : Lawful I} :
  recommend_similar I example_content_similarity example_books "A" 2
  = Returned
      {| columns := similarity_columns;
         rows := [mkRow (Some "B") (Some "Beta") (Some "Author") (Some 9%Q)
                        (Some (9 # 10)%Q) None None (Some "Press");
                  mkRow (Some "C") (Some "Gamma") (Some "Author") (Some (25 # 10)%Q)
                        (Some (1 # 10)%Q) None None (Some "Press")] |}.
Proof.
  unfold recommend_similar. simpl.
  rewrite (sort_values_desc_distinct I) by reflexivity. simpl.
  rewrite (sort_values_desc_distinct I) by reflexivity. reflexivity.
Qed.

Lemma example_content_top1 (I : Implementation) {L : Lawful I} :
  recommend_similar I example_content_similarity example_books "A" 1
  = Returned
      {| columns := similarity_columns;
         rows := [mkRow (Some "C") (Some "Gamma") (Some "Author") (Some (25 # 10)%Q)
                        (Some (9 # 10)%Q) None None (Some "Press")] |}.
Proof.
  unfold recommend_similar. simpl.
  rewrite (sort_values_desc_distinct I) by reflexivity. simpl.
  rewrite (sort_values_desc_distinct I) by reflexivity. reflexivity.
Qed.

Lemma example_collaborative_top2 (I : Implementation) {L : Lawful I} :
  recommend_similar I example_item_similarity example_books "A" 2
  = Returned
      {| columns := similarity_columns;
         rows := [mkRow (Some "B") (Some "Beta") (Some "Author") (Some 9%Q)
                        (Some (4 # 5)%Q) None None (Some "Press");
                  mkRow (Some "C") (Some "Gamma") (Some "Author") (Some (25 # 10)%Q)
                        (Some (3 # 5)%Q) None None (Some "Press")] |}.
Proof.
  unfold recommend_similar. simpl.
  rewrite (sort_values_desc_distinct I) by reflexivity. simpl.
  rewrite (sort_values_desc_distinct I) by reflexivity. reflexivity.
Qed.

(** ** The store: what a computation leaves untouched *)

Section Keeps.
Import Store.

Lemma update_length (l : loc) (o : object) (h : heap) :
  length (update l o h) = length h.
Proof.
  revert l. induction h as [|x h IH]; intros [|l]; simpl; auto.
Qed.

Lemma update_firstn (b : nat) (l : loc) (o : object) (h : heap) :
  b <= l -> firstn b (update l o h) = firstn b h.
Proof.
  revert b l. induction h as [|x h IH]; intros [|b] [|l] H; simpl; auto; try lia.
  f_equal. apply IH. lia.
Qed.

Lemma update_other (l l' : loc) (o : object) (h : heap) :
  l' <> l -> nth_error (update l o h) l' = nth_error h l'.
Proof.
  revert l l'. induction h as [|x h IH]; intros [|l] [|l'] H; simpl; auto; try lia.
Qed.

Lemma update_same (l : loc) (o : object) (h : heap) :
  l < length h -> nth_error (update l o h) l = Some o.
Proof.
  revert l. induction h as [|x h IH]; intros [|l] H; simpl in *; try lia; auto.
  apply IH. lia.
Qed.

Lemma keeps_ret {A : Type} (b : nat) (a : A) (Q : A -> Prop) :
  Q a -> keeps b (ret a) Q.
Proof.
  intros Ha h Hb. simpl. repeat split; auto.
  intros a' E. injection E as <-. exact Ha.
Qed.

Lemma keeps_raise {A : Type} (b : nat) (e : exn) (Q : A -> Prop) :
  keeps b (raise e) Q.
Proof.
  intros h Hb. simpl. repeat split; auto. discriminate.
Qed.

Lemma keeps_lift {A : Type} (b : nat) (o : outcome A) :
  keeps b (lift o) anything.
Proof.
  intros h Hb. simpl. repeat split; auto.
Qed.

Lemma keeps_alloc (b : nat) (o : object) : keeps b (alloc o) (fresh b).
Proof.
  intros h Hb. simpl. repeat split.
  - rewrite firstn_app. replace (b - length h) with 0 by lia.
    simpl. apply app_nil_r.
  - rewrite length_app. lia.
  - intros a E. injection E as <-. exact Hb.
Qed.

Lemma keeps_write (b : nat) (l : loc) (o : object) :
  fresh b l -> keeps b (write l o) anything.
Proof.
  intros Hl h Hb. simpl. repeat split.
  - now apply update_firstn.
  - rewrite update_length. lia.
Qed.

Lemma keeps_read (b : nat) (l : loc) : keeps b (read l) anything.
Proof.
  intros h Hb. unfold read. destruct (nth_error h l); simpl; repeat split; auto.
Qed.

Lemma keeps_bind {A B : Type} (b : nat) (m : M A) (k : A -> M B)
    (Q : A -> Prop) (Q' : B -> Prop) :
  keeps b m Q -> (forall a, Q a -> keeps b (k a) Q') -> keeps b (bindM m k) Q'.
Proof.
  intros Hm Hk h Hb. unfold bindM.
  destruct (Hm h Hb) as [Hf [Hl Hq]].
  destruct (m h) as [[a|e] h'] eqn:E; simpl in *.
  - destruct (Hk a (Hq a eq_refl) h') as [Hf' [Hl' Hq']]; [lia|].
    repeat split.
    + congruence.
    + lia.
    + exact Hq'.
  - repeat split; auto. discriminate.
Qed.

Lemma keeps_weaken {A : Type} (b : nat) (m : M A) (Q Q' : A -> Prop) :
  keeps b m Q -> (forall a, Q a -> Q' a) -> keeps b m Q'.
Proof.
  intros Hm Hq h Hb. destruct (Hm h Hb) as [Hf [Hl Ha]]. repeat split; auto.
Qed.

End Keeps.

Section KeepsOperations.
Import Store.

Ltac keeps_read_as :=
  eapply keeps_bind; [apply keeps_read|];
  intros [] _; first [apply keeps_ret; exact I | apply keeps_raise].

Lemma keeps_read_table (b : nat) (l : loc) : keeps b (read_table l) anything.
Proof. unfold read_table. keeps_read_as. Qed.

Lemma keeps_read_scored (b : nat) (l : loc) : keeps b (read_scored l) anything.
Proof. unfold read_scored. keeps_read_as. Qed.

Lemma keeps_read_counts (b : nat) (l : loc) : keeps b (read_counts l) anything.
Proof. unfold read_counts. keeps_read_as. Qed.

Lemma keeps_read_counted (b : nat) (l : loc) : keeps b (read_counted l) anything.
Proof. unfold read_counted. keeps_read_as. Qed.

Lemma keeps_read_ratings (b : nat) (l : loc) : keeps b (read_ratings l) anything.
Proof. unfold read_ratings. keeps_read_as. Qed.

Lemma keeps_read_similarity (b : nat) (l : loc) : keeps b (read_similarity l) anything.
Proof. unfold read_similarity. keeps_read_as. Qed.

Lemma keeps_read_frame (b : nat) (l : loc) : keeps b (read_frame l) anything.
Proof. unfold read_frame. keeps_read_as. Qed.

Lemma keeps_copy (b : nat) (l : loc) : keeps b (copy l) (fresh b).
Proof.
  unfold copy. eapply keeps_bind; [apply keeps_read|]. intros o _. apply keeps_alloc.
Qed.

Lemma keeps_select_rows (b : nat) (l : loc) (keep : Book -> bool) :
  keeps b (select_rows l keep) (fresh b).
Proof.
  unfold select_rows. eapply keeps_bind; [apply keeps_read_table|].
  intros t _. apply keeps_alloc.
Qed.

Lemma keeps_setitem_score (b : nat) (l : loc) (name : string) (values : list Q) :
  fresh b l -> keeps b (setitem_score l name values) anything.
Proof.
  intros Hl. unfold setitem_score.
  eapply keeps_bind; [apply keeps_read_table|]. intros t _.
  eapply keeps_bind; [apply keeps_lift|]. intros scored _.
  now apply keeps_write.
Qed.

Lemma keeps_sort_values (I : Implementation) (b : nat) (l : loc) :
  keeps b (sort_values I l) (fresh b).
Proof.
  unfold sort_values. eapply keeps_bind; [apply keeps_read_scored|].
  intros t _. apply keeps_alloc.
Qed.

Lemma keeps_getitem_columns (b : nat) (l : loc) (names : list string)
    (row : option Book * Q -> Row) :
  keeps b (getitem_columns l names row) (fresh b).
Proof.
  unfold getitem_columns. eapply keeps_bind; [apply keeps_read_scored|].
  intros t _. apply keeps_alloc.
Qed.

Lemma keeps_rename (b : nat) (l : loc) (name : string) :
  fresh b l -> keeps b (rename l name) anything.
Proof.
  intros Hl. unfold rename. eapply keeps_bind; [apply keeps_read_counts|].
  intros c _. now apply keeps_write.
Qed.

Lemma keeps_merge (b : nat) (books counts : loc) :
  keeps b (merge books counts) (fresh b).
Proof.
  unfold merge. eapply keeps_bind; [apply keeps_read_table|]. intros t _.
  eapply keeps_bind; [apply keeps_read_counts|]. intros c _. apply keeps_alloc.
Qed.

(** The query of the two engines writes only to the copy it makes. *)
Lemma keeps_recommend_similar (I : Implementation) (b : nat)
    (similarity_df books_with_rating : loc) (isbn : string) (n : nat) :
  keeps b (recommend_similar I similarity_df books_with_rating isbn n) (fresh b).
Proof.
  unfold recommend_similar.
  eapply keeps_bind; [apply keeps_read_similarity|]. intros sim _.
  destruct (negb (isin isbn (sim_index sim))); [apply keeps_alloc|].
  eapply keeps_bind; [apply keeps_lift|]. intros col _.
  eapply keeps_bind; [apply keeps_select_rows|]. intros selected _.
  eapply keeps_bind; [apply keeps_copy|]. intros recommendations Hfresh.
  eapply keeps_bind; [now apply keeps_setitem_score|]. intros _ _.
  eapply keeps_bind; [apply keeps_sort_values|]. intros sorted _.
  apply keeps_getitem_columns.
Qed.

Lemma keeps_popularity_recommend (b : nat) (s : Popularity.self) (n : nat)
    (min_ratings : Z) :
  keeps b (Popularity.recommend s n min_ratings) (fresh b).
Proof.
  unfold Popularity.recommend.
  eapply keeps_bind; [apply keeps_read_ratings|]. intros log _.
  eapply keeps_bind; [apply keeps_alloc|]. intros rating_counts Hfresh.
  eapply keeps_bind; [now apply keeps_rename|]. intros _ _.
  eapply keeps_bind; [apply keeps_merge|]. intros merged _.
  eapply keeps_bind; [apply keeps_read_counted|]. intros rows1 _.
  eapply keeps_bind; [apply keeps_alloc|]. intros kept _.
  eapply keeps_bind; [apply keeps_read_counted|]. intros rows2 _.
  eapply keeps_bind; [apply keeps_alloc|]. intros sorted _.
  eapply keeps_bind; [apply keeps_read_counted|]. intros rows3 _.
  eapply keeps_bind; [apply keeps_alloc|]. intros selected _.
  eapply keeps_bind; [apply keeps_read_frame|]. intros df _.
  apply keeps_alloc.
Qed.

Lemma keeps_hybrid_recommend (I : Implementation) (b : nat) (s : Hybrid.self)
    (isbn : string) (n : nat) (collab_weight content_weight : Q) :
  keeps b (Hybrid.recommend I s isbn n collab_weight content_weight) (fresh b).
Proof.
  unfold Hybrid.recommend, Collaborative.recommend, Content.recommend.
  eapply keeps_bind; [apply keeps_recommend_similar|]. intros collab _.
  eapply keeps_bind; [apply keeps_recommend_similar|]. intros content _.
  eapply keeps_bind; [apply keeps_read_frame|]. intros collab_recs _.
  eapply keeps_bind; [apply keeps_read_frame|]. intros content_recs _.
  destruct (empty collab_recs); [apply keeps_alloc|].
  destruct (empty content_recs); [apply keeps_alloc|].
  eapply keeps_bind; [apply keeps_lift|]. intros hybrid_scores _.
  eapply keeps_bind; [apply keeps_select_rows|]. intros selected _.
  eapply keeps_bind; [apply keeps_copy|]. intros recommendations Hfresh.
  eapply keeps_bind; [apply keeps_read_table|]. intros t _.
  eapply keeps_bind; [apply keeps_lift|]. intros scores _.
  eapply keeps_bind; [now apply keeps_setitem_score|]. intros _ _.
  eapply keeps_bind; [apply keeps_sort_values|]. intros sorted _.
  apply keeps_getitem_columns.
Qed.

(** What [keeps] at the size of the store says about the objects in it. *)
Lemma keeps_objects {A : Type} (m : M A) (Q : A -> Prop) (h : heap) :
  keeps (length h) m Q ->
  forall l, l < length h -> nth_error (snd (m h)) l = nth_error h l.
Proof.
  intros Hk l Hl. destruct (Hk h (le_n _)) as [Hf _].
  rewrite firstn_all in Hf.
  rewrite <- Hf at 2. rewrite nth_error_firstn.
  destruct (Nat.ltb_spec l (length h)); [reflexivity|lia].
Qed.

End KeepsOperations.

(** ** The store: running a computation *)

Section Running.
Import Store.

Lemma bindM_Returned {A B : Type} (m : M A) (k : A -> M B) (h h' : heap) (a : A) :
  m h = (Returned a, h') -> bindM m k h = k a h'.
Proof. intros E. unfold bindM. now rewrite E. Qed.

Lemma bindM_Raised {A B : Type} (m : M A) (k : A -> M B) (h h' : heap) (e : exn) :
  m h = (Raised e, h') -> bindM m k h = (Raised e, h').
Proof. intros E. unfold bindM. now rewrite E. Qed.

Lemma bindM_inv {A B : Type} (m : M A) (k : A -> M B) (h h2 : heap) (b : B) :
  bindM m k h = (Returned b, h2) ->
  exists a h1, m h = (Returned a, h1) /\ k a h1 = (Returned b, h2).
Proof.
  unfold bindM. destruct (m h) as [[a|e] h1]; [|discriminate].
  intros E. now exists a, h1.
Qed.

Lemma nth_error_old (h ext : heap) (l : loc) (o : object) :
  nth_error h l = Some o -> nth_error (h ++ ext) l = Some o.
Proof.
  intros E. rewrite nth_error_app1; [exact E|].
  apply nth_error_Some. congruence.
Qed.

Lemma nth_error_last (h : heap) (o : object) :
  nth_error (h ++ [o]) (length h) = Some o.
Proof.
  rewrite nth_error_app2 by lia. now rewrite Nat.sub_diag.
Qed.

Lemma update_last (h : heap) (o o' : object) :
  update (length h) o' (h ++ [o]) = h ++ [o'].
Proof.
  induction h as [|x h IH]; simpl; [reflexivity|]. now rewrite IH.
Qed.

Lemma read_at (h : heap) (l : loc) (o : object) :
  nth_error h l = Some o -> read l h = (Returned o, h).
Proof. intros E. unfold read. now rewrite E. Qed.

Lemma read_table_at (h : heap) (l : loc) (t : Table) :
  nth_error h l = Some (OTable t) -> read_table l h = (Returned t, h).
Proof.
  intros E. unfold read_table. now rewrite (bindM_Returned _ _ _ _ _ (read_at _ _ _ E)).
Qed.

Lemma read_scored_at (h : heap) (l : loc) (t : ScoredTable) :
  nth_error h l = Some (OScored t) -> read_scored l h = (Returned t, h).
Proof.
  intros E. unfold read_scored. now rewrite (bindM_Returned _ _ _ _ _ (read_at _ _ _ E)).
Qed.

Lemma read_counts_at (h : heap) (l : loc) (name : string) (c : list (string * Z)) :
  nth_error h l = Some (OCounts name c) -> read_counts l h = (Returned c, h).
Proof.
  intros E. unfold read_counts. now rewrite (bindM_Returned _ _ _ _ _ (read_at _ _ _ E)).
Qed.

Lemma read_counted_at (h : heap) (l : loc) (rows : list (Book * Z)) :
  nth_error h l = Some (OCounted rows) -> read_counted l h = (Returned rows, h).
Proof.
  intros E. unfold read_counted. now rewrite (bindM_Returned _ _ _ _ _ (read_at _ _ _ E)).
Qed.

Lemma read_ratings_at (h : heap) (l : loc) (log : list Rating) :
  nth_error h l = Some (ORatings log) -> read_ratings l h = (Returned log, h).
Proof.
  intros E. unfold read_ratings. now rewrite (bindM_Returned _ _ _ _ _ (read_at _ _ _ E)).
Qed.

Lemma read_similarity_at (h : heap) (l : loc) (m : SimilarityFrame) :
  nth_error h l = Some (OSimilarity m) -> read_similarity l h = (Returned m, h).
Proof.
  intros E. unfold read_similarity.
  now rewrite (bindM_Returned _ _ _ _ _ (read_at _ _ _ E)).
Qed.

Lemma read_frame_at (h : heap) (l : loc) (df : DataFrame) :
  nth_error h l = Some (OFrame df) -> read_frame l h = (Returned df, h).
Proof.
  intros E. unfold read_frame. now rewrite (bindM_Returned _ _ _ _ _ (read_at _ _ _ E)).
Qed.

(** Constructing the content engine: the table it is given gets the
    [Content] column, and the other objects of the store stay. *)
Lemma content_init_store (I : Implementation) (h : heap) (l : loc) (t : Table) :
  nth_error h l = Some (OTable t) ->
  exists r ext,
    Content.__init__ I l h
    = (r, update l (OTable (Content.with_Content t)) h ++ ext)
    /\ forall s, r = Returned s -> Content.books_with_rating s = l.
Proof.
  intros E.
  assert (Hl : l < length h) by (apply nth_error_Some; congruence).
  set (h1 := update l (OTable (Content.with_Content t)) h).
  assert (E1 : Content.setitem_Content l h = (Returned tt, h1)).
  { unfold Content.setitem_Content.
    now rewrite (bindM_Returned _ _ _ _ _ (read_table_at _ _ _ E)). }
  assert (E2 : read_table l h1 = (Returned (Content.with_Content t), h1)).
  { apply read_table_at. unfold h1. now apply update_same. }
  unfold Content.__init__, Content._build_model, bindM.
  rewrite E1, E2. unfold lift, alloc, ret.
  destruct (tfidf_fit_transform I _) as [m|e].
  - destruct (cosine_similarity I m) as [m'|e].
    + eexists. eexists. split; [rewrite <- app_assoc; reflexivity|].
      intros s Hs. injection Hs as <-. reflexivity.
    + eexists. eexists. split; [reflexivity|discriminate].
  - eexists. exists []. split; [now rewrite app_nil_r|discriminate].
Qed.

End Running.

Section Sharing.
Import Store.

Lemma with_Content_has_column (t : Table) :
  In "Content" (extra_columns (Content.with_Content t))
  /\ incl (extra_columns t) (extra_columns (Content.with_Content t)).
Proof.
  unfold Content.with_Content. simpl.
  destruct (isin "Content" (extra_columns t)) eqn:E.
  - split; [now apply isin_In|apply incl_refl].
  - split; [apply in_or_app; right; now left|now apply incl_appl, incl_refl].
Qed.

Lemma with_Content_rows (t : Table) :
  Forall2 (fun b b' => same_catalog_columns b b'
                       /\ Content b' = Some (ContentRecommender.content_text b))
          (table_rows t) (table_rows (Content.with_Content t)).
Proof.
  unfold Content.with_Content, ContentRecommender.setitem_Content. simpl.
  induction (table_rows t) as [|b bs IH]; simpl; constructor; [|exact IH].
  unfold same_catalog_columns. simpl. repeat split; reflexivity.
Qed.

Lemma keeps_collaborative_init (I : Implementation) (b : nat)
    (filtered_ratings books_with_rating : loc) :
  keeps b (Collaborative.__init__ I filtered_ratings books_with_rating)
        (fun s => Collaborative.books_with_rating s = books_with_rating).
Proof.
  unfold Collaborative.__init__, Collaborative._build_model.
  eapply keeps_bind.
  - eapply keeps_bind; [apply keeps_read_ratings|]. intros log _.
    eapply keeps_bind; [apply keeps_alloc|]. intros pivot _.
    eapply keeps_bind; [apply keeps_lift|]. intros m _.
    eapply keeps_bind; [apply keeps_alloc|]. intros sim _.
    apply (keeps_ret b _ anything). exact Logic.I.
  - intros built _. now apply keeps_ret.
Qed.

Lemma read_ratings_heap (l : loc) (h h' : heap) (r : outcome (list Rating)) :
  read_ratings l h = (r, h') -> h' = h.
Proof.
  unfold read_ratings, bindM, read.
  destruct (nth_error h l) as [[]|]; simpl; intros E; now injection E.
Qed.

(** What [initialize] leaves behind: every engine refers to the catalog it
    was given, that table has the [Content] column, and the other objects
    that were in the store are as before. *)
Lemma initialize_store (I : Implementation) (h h' : heap)
    (books_with_rating book_rating_merged : loc) (min_book min_user : Z)
    (t : Table) (sys : System.self) :
  nth_error h books_with_rating = Some (OTable t) ->
  System.initialize I (Some (books_with_rating, book_rating_merged))
    min_book min_user h = (Returned sys, h') ->
  (Popularity.books_with_rating (System.popularity_recommender sys) = books_with_rating
   /\ Collaborative.books_with_rating (System.collaborative_recommender sys)
      = books_with_rating
   /\ Content.books_with_rating (System.content_recommender sys) = books_with_rating
   /\ Collaborative.books_with_rating
        (Hybrid.collab_recommender (System.hybrid_recommender sys)) = books_with_rating
   /\ Content.books_with_rating
        (Hybrid.content_recommender (System.hybrid_recommender sys)) = books_with_rating
   /\ System.books_with_rating sys = books_with_rating)
  /\ nth_error h' books_with_rating = Some (OTable (Content.with_Content t))
  /\ forall l, l < length h -> l <> books_with_rating ->
               nth_error h' l = nth_error h l.
Proof.
  intros Ht Hinit. unfold System.initialize in Hinit.
  assert (Hlb : books_with_rating < length h) by (apply nth_error_Some; congruence).
  apply bindM_inv in Hinit. destruct Hinit as [log [h0 [Hlog Hinit]]].
  apply read_ratings_heap in Hlog. subst h0.
  apply bindM_inv in Hinit. destruct Hinit as [filtered [h1 [Hf Hinit]]].
  unfold alloc in Hf. injection Hf as <- <-.
  apply bindM_inv in Hinit. destruct Hinit as [p [h1 [Hp Hinit]]].
  unfold Popularity.__init__, ret in Hp. injection Hp as <- <-.
  apply bindM_inv in Hinit. destruct Hinit as [c [h2 [Hc Hinit]]].
  destruct (keeps_collaborative_init I (length h) (length h) books_with_rating
              (h ++ [ORatings (get_filtered_ratings log min_book min_user)]))
    as [Hfirst [Hlen Hfield]]; [rewrite length_app; lia|].
  rewrite Hc in Hfirst, Hlen, Hfield. simpl in Hfirst, Hlen, Hfield.
  rewrite firstn_app, firstn_all, Nat.sub_diag in Hfirst. simpl in Hfirst.
  rewrite app_nil_r in Hfirst. rewrite length_app in Hlen. simpl in Hlen.
  assert (Hold : forall l, l < length h -> nth_error h2 l = nth_error h l).
  { intros l Hl. rewrite <- Hfirst at 1. rewrite nth_error_firstn.
    destruct (Nat.ltb_spec l (length h)); [reflexivity|lia]. }
  assert (Ht2 : nth_error h2 books_with_rating = Some (OTable t))
    by (rewrite Hold; assumption).
  apply bindM_inv in Hinit. destruct Hinit as [k [h3 [Hk Hinit]]].
  destruct (content_init_store I h2 books_with_rating t Ht2) as [r [ext [Hrun Hkf]]].
  rewrite Hk in Hrun. injection Hrun as <- ->.
  apply bindM_inv in Hinit. destruct Hinit as [y [h4 [Hy Hinit]]].
  unfold Hybrid.__init__, ret in Hy. injection Hy as <- <-.
  unfold ret in Hinit. injection Hinit as <- <-. simpl.
  specialize (Hfield c eq_refl). specialize (Hkf k eq_refl).
  split; [repeat split; assumption|]. split.
  - apply nth_error_old. apply update_same. lia.
  - intros l Hl Hne. rewrite nth_error_app1 by (rewrite update_length; lia).
    rewrite update_other by assumption. now apply Hold.
Qed.

End Sharing.

(** ** The store: the queries compute what the functions on values do *)

Lemma bindM_alloc {B : Type} (o : Store.object) (k : Store.loc -> Store.M B)
    (h : Store.heap) :
  Store.bindM (Store.alloc o) k h = k (length h) (h ++ [o]).
Proof. reflexivity. Qed.

Lemma bindM_lift {A B : Type} (a : A) (k : A -> Store.M B) (h : Store.heap) :
  Store.bindM (Store.lift (Returned a)) k h = k a h.
Proof. reflexivity. Qed.

Lemma select_rows_at (h : Store.heap) (l : Store.loc) (t : Store.Table)
    (keep : Book -> bool) :
  nth_error h l = Some (Store.OTable t) ->
  Store.select_rows l keep h
  = (Returned (length h),
     h ++ [Store.OTable {| Store.extra_columns := Store.extra_columns t;
                           Store.table_rows := filter keep (Store.table_rows t) |}]).
Proof.
  intros E. unfold Store.select_rows.
  now rewrite (bindM_Returned _ _ _ _ _ (read_table_at _ _ _ E)).
Qed.

Lemma copy_last (h : Store.heap) (o : Store.object) :
  Store.copy (length h) (h ++ [o]) = (Returned (length (h ++ [o])), (h ++ [o]) ++ [o]).
Proof.
  unfold Store.copy.
  now rewrite (bindM_Returned _ _ _ _ _ (read_at _ _ _ (nth_error_last h o))).
Qed.

Lemma setitem_score_last (h : Store.heap) (t : Store.Table) (name : string)
    (values : list Q) :
  Store.setitem_score (length h) name values (h ++ [Store.OTable t])
  = match setitem_values (Store.table_rows t) values with
    | Returned scored =>
        (Returned tt,
         h ++ [Store.OScored
                 {| Store.scored_columns := Store.extra_columns t ++ [name];
                    Store.scored_rows := scored |}])
    | Raised e => (Raised e, h ++ [Store.OTable t])
    end.
Proof.
  unfold Store.setitem_score.
  rewrite (bindM_Returned _ _ _ _ _
             (read_table_at _ _ _ (nth_error_last h (Store.OTable t)))).
  unfold Store.bindM, Store.lift.
  destruct (setitem_values (Store.table_rows t) values); [|reflexivity].
  unfold Store.write. now rewrite update_last.
Qed.

Lemma sort_values_last (I : Implementation) (h : Store.heap) (t : Store.ScoredTable) :
  Store.sort_values I (length h) (h ++ [Store.OScored t])
  = (Returned (length (h ++ [Store.OScored t])),
     (h ++ [Store.OScored t])
     ++ [Store.OScored
           {| Store.scored_columns := Store.scored_columns t;
              Store.scored_rows := sort_values_desc I snd (Store.scored_rows t) |}]).
Proof.
  unfold Store.sort_values.
  now rewrite (bindM_Returned _ _ _ _ _
                 (read_scored_at _ _ _ (nth_error_last h (Store.OScored t)))).
Qed.

Lemma getitem_columns_last (h : Store.heap) (t : Store.ScoredTable)
    (names : list string) (row : option Book * Q -> Row) :
  Store.getitem_columns (length h) names row (h ++ [Store.OScored t])
  = (Returned (length (h ++ [Store.OScored t])),
     (h ++ [Store.OScored t])
     ++ [Store.OFrame {| columns := names; rows := map row (Store.scored_rows t) |}]).
Proof.
  unfold Store.getitem_columns.
  now rewrite (bindM_Returned _ _ _ _ _
                 (read_scored_at _ _ _ (nth_error_last h (Store.OScored t)))).
Qed.

(** The tail shared by the two engines and the fusion: copy the selected
    rows, attach the scores to the copy, sort, project. *)
Lemma stored_score_sort_project (I : Implementation) (h : Store.heap)
    (t : Store.Table) (name : string) (values : list Q) (names : list string)
    (row : option Book * Q -> Row) :
  match setitem_values (Store.table_rows t) values with
  | Returned scored =>
      exists ext,
        Store.bindM (Store.copy (length h)) (fun recommendations =>
          Store.bindM (Store.setitem_score recommendations name values) (fun _ =>
            Store.bindM (Store.sort_values I recommendations) (fun sorted =>
              Store.getitem_columns sorted names row)))
          (h ++ [Store.OTable t])
        = (Returned (length (h ++ ext)),
           (h ++ ext)
           ++ [Store.OFrame {| columns := names;
                               rows := map row (sort_values_desc I snd scored) |}])
  | Raised e =>
      exists ext,
        Store.bindM (Store.copy (length h)) (fun recommendations =>
          Store.bindM (Store.setitem_score recommendations name values) (fun _ =>
            Store.bindM (Store.sort_values I recommendations) (fun sorted =>
              Store.getitem_columns sorted names row)))
          (h ++ [Store.OTable t])
        = (Raised e, h ++ ext)
  end.
Proof.
  rewrite (bindM_Returned _ _ _ _ _ (copy_last h (Store.OTable t))).
  set (h1 := h ++ [Store.OTable t]).
  pose proof (setitem_score_last h1 t name values) as Hset.
  destruct (setitem_values (Store.table_rows t) values) as [scored|e].
  - rewrite (bindM_Returned _ _ _ _ _ Hset).
    rewrite (bindM_Returned _ _ _ _ _ (sort_values_last I h1 _)).
    rewrite getitem_columns_last. cbn [Store.scored_rows].
    exists [Store.OTable t;
            Store.OScored {| Store.scored_columns := Store.extra_columns t ++ [name];
                             Store.scored_rows := scored |};
            Store.OScored {| Store.scored_columns := Store.extra_columns t ++ [name];
                             Store.scored_rows := sort_values_desc I snd scored |}].
    unfold h1. cbn [Store.scored_columns]. rewrite <- !app_assoc. reflexivity.
  - rewrite (bindM_Raised _ _ _ _ _ Hset).
    exists [Store.OTable t; Store.OTable t].
    unfold h1. rewrite <- app_assoc. reflexivity.
Qed.

(** On a store whose objects at the two locations are a similarity matrix
    and a catalog table, the stored query returns the location of a new
    frame holding what the function on values returns, or raises what it
    raises; it only adds objects to the store. *)
Lemma stored_recommend_similar (I : Implementation) (h : Store.heap)
    (similarity_df books_with_rating : Store.loc) (sim : SimilarityFrame)
    (t : Store.Table) (isbn : string) (n : nat) :
  nth_error h similarity_df = Some (Store.OSimilarity sim) ->
  nth_error h books_with_rating = Some (Store.OTable t) ->
  match recommend_similar I sim (Store.table_rows t) isbn n with
  | Returned df =>
      exists ext,
        Store.recommend_similar I similarity_df books_with_rating isbn n h
        = (Returned (length (h ++ ext)), (h ++ ext) ++ [Store.OFrame df])
  | Raised e =>
      exists ext,
        Store.recommend_similar I similarity_df books_with_rating isbn n h
        = (Raised e, h ++ ext)
  end.
Proof.
  intros Hsim Hbooks.
  unfold Store.recommend_similar.
  rewrite (bindM_Returned _ _ _ _ _ (read_similarity_at _ _ _ Hsim)).
  unfold recommend_similar.
  destruct (negb (isin isbn (sim_index sim))).
  - exists []. rewrite app_nil_r. reflexivity.
  - destruct (getitem_column sim isbn) as [col|e]; cbn [bind].
    + rewrite bindM_lift.
      rewrite (bindM_Returned _ _ _ _ _ (select_rows_at h _ t _ Hbooks)).
      pose proof (stored_score_sort_project I h
        {| Store.extra_columns := Store.extra_columns t;
           Store.table_rows :=
             filter (fun b => isin (ISBN b)
                       (map fst (firstn n
                          (filter (fun e => negb (String.eqb (fst e) isbn))
                                  (sort_values_desc I snd col)))))
                    (Store.table_rows t) |}
        "Similarity-Score"
        (map snd (getitem_labels
                    (filter (fun e => negb (String.eqb (fst e) isbn))
                            (sort_values_desc I snd col))
                    (map fst (firstn n
                       (filter (fun e => negb (String.eqb (fst e) isbn))
                               (sort_values_desc I snd col))))))
        similarity_columns similarity_row) as H.
      cbn [Store.table_rows] in H.
      destruct (setitem_values _ _) as [scored|e]; cbn [bind]; exact H.
    + exists []. rewrite app_nil_r. reflexivity.
Qed.

(** The popularity ranking in the store. *)
Lemma stored_popularity_recommend (h : Store.heap) (s : Store.Popularity.self)
    (t : Store.Table) (log : list Rating) (n : nat) (min_ratings : Z) :
  nth_error h (Store.Popularity.books_with_rating s) = Some (Store.OTable t) ->
  nth_error h (Store.Popularity.book_rating_merged s) = Some (Store.ORatings log) ->
  exists ext,
    Store.Popularity.recommend s n min_ratings h
    = (Returned (length (h ++ ext)),
       (h ++ ext)
       ++ [Store.OFrame
             (PopularityRecommender.recommend
                {| PopularityRecommender.books_with_rating := Store.table_rows t;
                   PopularityRecommender.book_rating_merged := log |}
                n min_ratings)]).
Proof.
  intros Hbooks Hlog. unfold Store.Popularity.recommend.
  rewrite (bindM_Returned _ _ _ _ _ (read_ratings_at _ _ _ Hlog)).
  rewrite bindM_alloc.
  set (counts := PopularityRecommender.rating_counts log).
  assert (Hren : Store.rename (length h) "Rating-Count"
                   (h ++ [Store.OCounts "Book-Rating" counts])
                 = (Returned tt, h ++ [Store.OCounts "Rating-Count" counts])).
  { unfold Store.rename.
    rewrite (bindM_Returned _ _ _ _ _
               (read_counts_at _ _ _ _ (nth_error_last h _))).
    unfold Store.write. now rewrite update_last. }
  rewrite (bindM_Returned _ _ _ _ _ Hren).
  set (h1 := h ++ [Store.OCounts "Rating-Count" counts]).
  assert (Hmerge : Store.merge (Store.Popularity.books_with_rating s) (length h) h1
                   = (Returned (length h1),
                      h1 ++ [Store.OCounted
                               (PopularityRecommender.merge_on_ISBN
                                  (Store.table_rows t) counts)])).
  { unfold Store.merge, h1.
    rewrite (bindM_Returned _ _ _ _ _
               (read_table_at _ _ _ (nth_error_old h _ _ _ Hbooks))).
    now rewrite (bindM_Returned _ _ _ _ _
                   (read_counts_at _ _ _ _ (nth_error_last h _))). }
  rewrite (bindM_Returned _ _ _ _ _ Hmerge).
  rewrite (bindM_Returned _ _ _ _ _ (read_counted_at _ _ _ (nth_error_last h1 _))).
  set (h2 := h1 ++ [Store.OCounted _]).
  rewrite bindM_alloc.
  rewrite (bindM_Returned _ _ _ _ _ (read_counted_at _ _ _ (nth_error_last h2 _))).
  set (h3 := h2 ++ [Store.OCounted _]).
  rewrite bindM_alloc.
  rewrite (bindM_Returned _ _ _ _ _ (read_counted_at _ _ _ (nth_error_last h3 _))).
  set (h4 := h3 ++ [Store.OCounted _]).
  rewrite bindM_alloc.
  rewrite (bindM_Returned _ _ _ _ _ (read_frame_at _ _ _ (nth_error_last h4 _))).
  set (h5 := h4 ++ [Store.OFrame _]).
  unfold Store.alloc.
  exists (skipn (length h) h5).
  assert (E : h ++ skipn (length h) h5 = h5).
  { unfold h5, h4, h3, h2, h1. rewrite <- !app_assoc.
    rewrite skipn_app, skipn_all, Nat.sub_diag. reflexivity. }
  rewrite E. reflexivity.
Qed.

Lemma stored_setitem_sort_project (I : Implementation) (h : Store.heap)
    (t : Store.Table) (name : string) (values : list Q) (names : list string)
    (row : option Book * Q -> Row) :
  match setitem_values (Store.table_rows t) values with
  | Returned scored =>
      exists ext,
        Store.bindM (Store.setitem_score (length h) name values) (fun _ =>
          Store.bindM (Store.sort_values I (length h)) (fun sorted =>
            Store.getitem_columns sorted names row))
          (h ++ [Store.OTable t])
        = (Returned (length (h ++ ext)),
           (h ++ ext)
           ++ [Store.OFrame {| columns := names;
                               rows := map row (sort_values_desc I snd scored) |}])
  | Raised e =>
      exists ext,
        Store.bindM (Store.setitem_score (length h) name values) (fun _ =>
          Store.bindM (Store.sort_values I (length h)) (fun sorted =>
            Store.getitem_columns sorted names row))
          (h ++ [Store.OTable t])
        = (Raised e, h ++ ext)
  end.
Proof.
  pose proof (setitem_score_last h t name values) as Hset.
  destruct (setitem_values (Store.table_rows t) values) as [scored|e].
  - rewrite (bindM_Returned _ _ _ _ _ Hset).
    rewrite (bindM_Returned _ _ _ _ _ (sort_values_last I h _)).
    rewrite getitem_columns_last. cbn [Store.scored_rows Store.scored_columns].
    exists [Store.OScored {| Store.scored_columns := Store.extra_columns t ++ [name];
                             Store.scored_rows := scored |};
            Store.OScored {| Store.scored_columns := Store.extra_columns t ++ [name];
                             Store.scored_rows := sort_values_desc I snd scored |}].
    rewrite <- !app_assoc. reflexivity.
  - rewrite (bindM_Raised _ _ _ _ _ Hset). now exists [Store.OTable t].
Qed.

(** The fusion in the store, for engines whose matrices and catalog are in
    the store. *)
Lemma stored_hybrid_recommend (I : Implementation) (h : Store.heap)
    (s : Store.Hybrid.self) (v : HybridRecommender.self)
    (collab_table content_table : Store.Table)
    (isbn : string) (n : nat) (cw ctw : Q) :
  nth_error h (Store.Collaborative.item_similarity_df (Store.Hybrid.collab_recommender s))
    = Some (Store.OSimilarity
              (CollaborativeRecommender.item_similarity_df
                 (HybridRecommender.collab_recommender v))) ->
  nth_error h (Store.Collaborative.books_with_rating (Store.Hybrid.collab_recommender s))
    = Some (Store.OTable collab_table) ->
  CollaborativeRecommender.books_with_rating (HybridRecommender.collab_recommender v)
    = Store.table_rows collab_table ->
  nth_error h (Store.Content.content_similarity_df (Store.Hybrid.content_recommender s))
    = Some (Store.OSimilarity
              (ContentRecommender.content_similarity_df
                 (HybridRecommender.content_recommender v))) ->
  nth_error h (Store.Content.books_with_rating (Store.Hybrid.content_recommender s))
    = Some (Store.OTable content_table) ->
  ContentRecommender.books_with_rating (HybridRecommender.content_recommender v)
    = Store.table_rows content_table ->
  match HybridRecommender.recommend I v isbn n cw ctw with
  | Returned df =>
      exists ext,
        Store.Hybrid.recommend I s isbn n cw ctw h
        = (Returned (length (h ++ ext)), (h ++ ext) ++ [Store.OFrame df])
  | Raised e =>
      exists ext, Store.Hybrid.recommend I s isbn n cw ctw h = (Raised e, h ++ ext)
  end.
Proof.
  intros Hcs Hcb Ecb Hks Hkb Ekb.
  unfold Store.Hybrid.recommend, HybridRecommender.recommend.
  unfold Store.Collaborative.recommend, CollaborativeRecommender.recommend.
  unfold Store.Content.recommend, ContentRecommender.recommend.
  rewrite Ecb, Ekb.
  pose proof (stored_recommend_similar I h _ _ _ _ isbn (n * 2) Hcs Hcb) as H1.
  destruct (recommend_similar I _ (Store.table_rows collab_table) isbn (n * 2))
    as [c|e]; cbn [bind].
  2: { destruct H1 as [e1 H1]. rewrite (bindM_Raised _ _ _ _ _ H1). now exists e1. }
  destruct H1 as [e1 H1]. rewrite (bindM_Returned _ _ _ _ _ H1).
  set (h1 := (h ++ e1) ++ [Store.OFrame c]).
  assert (Hext1 : h1 = h ++ (e1 ++ [Store.OFrame c]))
    by (unfold h1; now rewrite <- app_assoc).
  assert (Hks1 : nth_error h1 (Store.Content.content_similarity_df
                                 (Store.Hybrid.content_recommender s))
                 = Some (Store.OSimilarity
                           (ContentRecommender.content_similarity_df
                              (HybridRecommender.content_recommender v))))
    by (rewrite Hext1; now apply nth_error_old).
  assert (Hkb1 : nth_error h1 (Store.Content.books_with_rating
                                 (Store.Hybrid.content_recommender s))
                 = Some (Store.OTable content_table))
    by (rewrite Hext1; now apply nth_error_old).
  pose proof (stored_recommend_similar I h1 _ _ _ _ isbn (n * 2) Hks1 Hkb1) as H2.
  destruct (recommend_similar I _ (Store.table_rows content_table) isbn (n * 2))
    as [t|e]; cbn [bind].
  2: { destruct H2 as [e2 H2]. rewrite (bindM_Raised _ _ _ _ _ H2).
       rewrite Hext1, <- app_assoc. now eexists. }
  destruct H2 as [e2 H2]. rewrite (bindM_Returned _ _ _ _ _ H2).
  set (h2 := (h1 ++ e2) ++ [Store.OFrame t]).
  assert (Hext2 : h2 = h ++ (e1 ++ [Store.OFrame c] ++ e2 ++ [Store.OFrame t])).
  { unfold h2. rewrite Hext1. now rewrite <- !app_assoc. }
  assert (Hc2 : nth_error h2 (length (h ++ e1)) = Some (Store.OFrame c)).
  { unfold h2. apply nth_error_old. apply nth_error_old. apply nth_error_last. }
  assert (Ht2 : nth_error h2 (length (h1 ++ e2)) = Some (Store.OFrame t))
    by apply nth_error_last.
  rewrite (bindM_Returned _ _ _ _ _ (read_frame_at _ _ _ Hc2)).
  rewrite (bindM_Returned _ _ _ _ _ (read_frame_at _ _ _ Ht2)).
  destruct (empty c).
  { unfold Store.alloc. rewrite Hext2. now eexists. }
  destruct (empty t).
  { unfold Store.alloc. rewrite Hext2. now eexists. }
  assert (Hcb2 : nth_error h2 (Store.Collaborative.books_with_rating
                                 (Store.Hybrid.collab_recommender s))
                 = Some (Store.OTable collab_table))
    by (rewrite Hext2; now apply nth_error_old).
  destruct (HybridRecommender.hybrid_scores I c t cw ctw) as [scores_of|e];
    cbn [bind].
  2: { unfold Store.bindM, Store.lift. rewrite Hext2. now eexists. }
  rewrite bindM_lift.
  rewrite (bindM_Returned _ _ _ _ _ (select_rows_at h2 _ _ _ Hcb2)).
  set (selected :=
         {| Store.extra_columns := Store.extra_columns collab_table;
            Store.table_rows :=
              filter (fun b => isin_keys (ISBN b)
                        (map fst (firstn n (sorted_desc snd scores_of))))
                     (Store.table_rows collab_table) |}).
  rewrite (bindM_Returned _ _ _ _ _ (copy_last h2 (Store.OTable selected))).
  set (h3 := h2 ++ [Store.OTable selected]).
  rewrite (bindM_Returned _ _ _ _ _
             (read_table_at _ _ _ (nth_error_last h3 (Store.OTable selected)))).
  cbn [Store.table_rows selected].
  assert (Hext3 : h3 = h ++ (e1 ++ [Store.OFrame c] ++ e2 ++ [Store.OFrame t]
                                ++ [Store.OTable selected])).
  { unfold h3. rewrite Hext2. now rewrite <- !app_assoc. }
  destruct (traverse _ _) as [scores|e]; cbn [bind].
  2: { unfold Store.bindM, Store.lift. rewrite Hext3, <- app_assoc. now eexists. }
  rewrite bindM_lift.
  pose proof (stored_setitem_sort_project I h3 selected "Hybrid-Score" scores
                hybrid_columns hybrid_row) as H3.
  cbn [Store.table_rows selected] in H3.
  destruct (setitem_values _ scores) as [scored|e]; cbn [bind].
  - destruct H3 as [e3 H3]. rewrite H3.
    exists ((e1 ++ [Store.OFrame c] ++ e2 ++ [Store.OFrame t]
             ++ [Store.OTable selected]) ++ e3).
    rewrite (app_assoc h), <- Hext3. reflexivity.
  - destruct H3 as [e3 H3]. rewrite H3.
    exists ((e1 ++ [Store.OFrame c] ++ e2 ++ [Store.OFrame t]
             ++ [Store.OTable selected]) ++ e3).
    rewrite (app_assoc h), <- Hext3. reflexivity.
Qed.

(** The constructors in the store build what [_build_model] builds from
    the values. *)
Lemma stored_collaborative_init (I : Implementation) (h : Store.heap)
    (filtered_ratings books_with_rating : Store.loc) (log : list Rating)
    (books : list Book) :
  nth_error h filtered_ratings = Some (Store.ORatings log) ->
  match CollaborativeRecommender._build_model I log books with
  | Returned v =>
      Store.Collaborative.__init__ I filtered_ratings books_with_rating h
      = (Returned
           {| Store.Collaborative.filtered_ratings := filtered_ratings;
              Store.Collaborative.books_with_rating := books_with_rating;
              Store.Collaborative.user_item_matrix := length h;
              Store.Collaborative.item_similarity_df := S (length h) |},
         h ++ [Store.OPivot (CollaborativeRecommender.user_item_matrix v);
               Store.OSimilarity (CollaborativeRecommender.item_similarity_df v)])
  | Raised e =>
      Store.Collaborative.__init__ I filtered_ratings books_with_rating h
      = (Raised e, h ++ [Store.OPivot (CollaborativeRecommender.pivot_table log)])
  end.
Proof.
  intros Hlog.
  unfold Store.Collaborative.__init__, Store.Collaborative._build_model.
  unfold CollaborativeRecommender._build_model.
  unfold Store.bindM. rewrite (read_ratings_at _ _ _ Hlog).
  unfold Store.lift, Store.alloc, Store.ret.
  destruct (cosine_similarity I _) as [m|e]; cbn [bind].
  - cbn [fst snd CollaborativeRecommender.user_item_matrix
         CollaborativeRecommender.item_similarity_df].
    rewrite length_app, Nat.add_1_r, <- app_assoc. reflexivity.
  - reflexivity.
Qed.

Lemma stored_content_init (I : Implementation) (h : Store.heap)
    (books_with_rating : Store.loc) (t : Store.Table) :
  nth_error h books_with_rating = Some (Store.OTable t) ->
  match ContentRecommender._build_model I (Store.table_rows t) with
  | Returned v =>
      Store.Content.__init__ I books_with_rating h
      = (Returned
           {| Store.Content.books_with_rating := books_with_rating;
              Store.Content.tfidf_matrix := length h;
              Store.Content.content_similarity_df := S (length h) |},
         Store.update books_with_rating (Store.OTable (Store.Content.with_Content t)) h
         ++ [Store.OMatrix (ContentRecommender.tfidf_matrix v);
             Store.OSimilarity (ContentRecommender.content_similarity_df v)])
      /\ ContentRecommender.books_with_rating v
         = Store.table_rows (Store.Content.with_Content t)
  | Raised e =>
      exists ext,
        Store.Content.__init__ I books_with_rating h
        = (Raised e,
           Store.update books_with_rating
             (Store.OTable (Store.Content.with_Content t)) h ++ ext)
  end.
Proof.
  intros E.
  assert (Hl : books_with_rating < length h) by (apply nth_error_Some; congruence).
  set (h1 := Store.update books_with_rating
               (Store.OTable (Store.Content.with_Content t)) h).
  assert (E1 : Store.Content.setitem_Content books_with_rating h = (Returned tt, h1)).
  { unfold Store.Content.setitem_Content.
    now rewrite (bindM_Returned _ _ _ _ _ (read_table_at _ _ _ E)). }
  assert (E2 : Store.read_table books_with_rating h1
               = (Returned (Store.Content.with_Content t), h1)).
  { apply read_table_at. unfold h1. now apply update_same. }
  assert (Hlen : length h1 = length h) by apply update_length.
  unfold Store.Content.__init__, Store.Content._build_model, Store.bindM.
  rewrite E1, E2. unfold Store.lift, Store.alloc, Store.ret.
  unfold ContentRecommender._build_model.
  cbn [Store.table_rows Store.Content.with_Content].
  destruct (tfidf_fit_transform I _) as [m|e]; cbn [bind].
  - destruct (cosine_similarity I m) as [m'|e]; cbn [bind].
    + cbn [fst snd ContentRecommender.tfidf_matrix
           ContentRecommender.content_similarity_df
           ContentRecommender.books_with_rating].
      split; [|reflexivity].
      rewrite length_app, Hlen, Nat.add_1_r, <- app_assoc. reflexivity.
    + now exists [Store.OMatrix m].
  - exists []. now rewrite app_nil_r.
Qed.

(** * The claims *)

(** C1 (fails).  On the example catalog, whose rows are in the order A, B, C,
    the query for seed A with [n = 2] returns the row of B with the score of
    the most similar book and the row of C with the score of the second:
    the content engine shows B with 9/10 and C with 1/10 where the matrix
    has 1/10 for B and 9/10 for C, and the collaborative engine shows B with
    4/5 and C with 3/5 where the matrix has 3/5 for B and 4/5 for C.  The
    scores are assigned by position to the catalog-ordered rows. *)
Theorem scores_follow_catalog_order :
  forall I : Implementation,
    Lawful I ->
    (ContentRecommender.recommend I example_content "A" 2
     = Returned
         {| columns := similarity_columns;
            rows := [mkRow (Some "B") (Some "Beta") (Some "Author") (Some 9%Q)
                           (Some (9 # 10)%Q) None None (Some "Press");
                     mkRow (Some "C") (Some "Gamma") (Some "Author") (Some (25 # 10)%Q)
                           (Some (1 # 10)%Q) None None (Some "Press")] |}
     /\ similarity example_content_similarity "B" "A" = Some (1 # 10)%Q
     /\ similarity example_content_similarity "C" "A" = Some (9 # 10)%Q)
    /\
    (CollaborativeRecommender.recommend I example_collaborative "A" 2
     = Returned
         {| columns := similarity_columns;
            rows := [mkRow (Some "B") (Some "Beta") (Some "Author") (Some 9%Q)
                           (Some (4 # 5)%Q) None None (Some "Press");
                     mkRow (Some "C") (Some "Gamma") (Some "Author") (Some (25 # 10)%Q)
                           (Some (3 # 5)%Q) None None (Some "Press")] |}
     /\ similarity example_item_similarity "B" "A" = Some (3 # 5)%Q
     /\ similarity example_item_similarity "C" "A" = Some (4 # 5)%Q).
Proof.
  intros I L. split; (split; [|split; reflexivity]).
  - apply (example_content_top2 I).
  - apply (example_collaborative_top2 I).
Qed.

Lemma scores_follow_catalog_order_witness :
  exists df,
    ContentRecommender.recommend reference example_content "A" 2 = Returned df
    /\ map r_ISBN (rows df) = [Some "B"; Some "C"]
    /\ map r_Similarity_Score (rows df) = [Some (9 # 10)%Q; Some (1 # 10)%Q]
    /\ similarity example_content_similarity "B" "A" = Some (1 # 10)%Q.
Proof.
  destruct (scores_follow_catalog_order reference reference_lawful) as [[H _] _].
  eexists. split; [exact H|]. repeat split.
Defined.

(** C2 (fails).  With book A absent from the collaborative index, the fused
    query for seed A and [n = 1] returns the first row of the content
    engine's list of two, which is B with score 9/10, whereas the content
    engine's own answer for [n = 1] is C with score 9/10. *)
Theorem fallback_differs_from_content_top_n :
  forall (I : Implementation) (collab_weight content_weight : Q),
    Lawful I ->
    CollaborativeRecommender.recommend I example_collaborative_without_A "A" (1 * 2)
    = Returned empty_DataFrame
    /\ HybridRecommender.recommend I example_hybrid_without_A "A" 1
         collab_weight content_weight
       = Returned
           {| columns := similarity_columns;
              rows := [mkRow (Some "B") (Some "Beta") (Some "Author") (Some 9%Q)
                             (Some (9 # 10)%Q) None None (Some "Press")] |}
    /\ ContentRecommender.recommend I example_content "A" 1
       = Returned
           {| columns := similarity_columns;
              rows := [mkRow (Some "C") (Some "Gamma") (Some "Author")
                             (Some (25 # 10)%Q) (Some (9 # 10)%Q) None None
                             (Some "Press")] |}.
Proof.
  intros I cw ctw L. split; [reflexivity|]. split.
  - rewrite (hybrid_recommend_collab_empty I example_hybrid_without_A "A" 1 cw ctw
               empty_DataFrame _ eq_refl (example_content_top2 I) eq_refl).
    reflexivity.
  - apply (example_content_top1 I).
Qed.

Lemma fallback_differs_from_content_top_n_witness :
  exists fused own,
    HybridRecommender.recommend reference example_hybrid_without_A "A" 1
      COLLAB_WEIGHT CONTENT_WEIGHT = Returned fused
    /\ ContentRecommender.recommend reference example_content "A" 1 = Returned own
    /\ map r_ISBN (rows fused) = [Some "B"]
    /\ map r_ISBN (rows own) = [Some "C"].
Proof.
  destruct (fallback_differs_from_content_top_n reference COLLAB_WEIGHT CONTENT_WEIGHT
              reference_lawful) as [_ [Hf Ho]].
  eexists. eexists. split; [exact Hf|]. split; [exact Ho|]. split; reflexivity.
Defined.

(** C3.  When both engines return non-empty candidate lists, the score the
    fusion computes for a candidate ISBN of their union is
    [collab_weight] times the Similarity-Score the collaborative list shows
    for it (0 if that list does not show it) plus [content_weight] times the
    one the content list shows (0 if absent): this is the entry for every
    candidate ISBN of every dictionary [hybrid_scores] that the loop builds,
    and the Hybrid-Score of every row of every frame that
    [HybridRecommender.recommend] returns.  The loop builds the dictionary,
    and [recommend] returns a frame, whenever every row of the two lists
    carries an ISBN (a row without ISBN makes the lookup of its missing
    value raise [IndexError], and then no score is computed). *)
Theorem hybrid_score_is_weighted_sum :
  forall (I : Implementation) (s : HybridRecommender.self) (isbn : string)
         (n : nat) (collab_weight content_weight : Q)
         (collab_recs content_recs : DataFrame),
    Lawful I ->
    CollaborativeRecommender.recommend I (HybridRecommender.collab_recommender s)
      isbn (n * 2) = Returned collab_recs ->
    ContentRecommender.recommend I (HybridRecommender.content_recommender s)
      isbn (n * 2) = Returned content_recs ->
    empty collab_recs = false ->
    empty content_recs = false ->
    (forall hybrid_scores : list (option string * Q),
        HybridRecommender.hybrid_scores I collab_recs content_recs
          collab_weight content_weight = Returned hybrid_scores ->
        forall (i : string) (c t : Q),
          In (Some i) (candidates collab_recs content_recs) ->
          candidate_score collab_recs i c ->
          candidate_score content_recs i t ->
          dict_get hybrid_scores i
          = Returned (collab_weight * c + content_weight * t)%Q)
    /\
    (forall df : DataFrame,
        HybridRecommender.recommend I s isbn n collab_weight content_weight
        = Returned df ->
        Forall (fun r =>
           exists i, r_ISBN r = Some i
             /\ In (Some i) (candidates collab_recs content_recs)
             /\ forall c t : Q,
                  candidate_score collab_recs i c ->
                  candidate_score content_recs i t ->
                  r_Hybrid_Score r = Some (collab_weight * c + content_weight * t)%Q)
         (rows df))
    /\
    (Forall (fun r => r_ISBN r <> None) (rows collab_recs) ->
     Forall (fun r => r_ISBN r <> None) (rows content_recs) ->
     (exists hybrid_scores,
        HybridRecommender.hybrid_scores I collab_recs content_recs
          collab_weight content_weight = Returned hybrid_scores)
     /\ exists df,
          HybridRecommender.recommend I s isbn n collab_weight content_weight
          = Returned df).
Proof.
  intros I s isbn n cw ctw cr tr L Hc Ht Ec Et.
  destruct (hybrid_scores_run I cr tr cw ctw) as [Hrun Hraise].
  split; [|split].
  - intros hs Hhs i c t Hi Hcs Hts.
    destruct (in_dec option_string_dec None (candidates cr tr)) as [Hn|Hn].
    { rewrite (Hraise Hn) in Hhs. discriminate. }
    rewrite (Hrun Hn) in Hhs. injection Hhs as <-.
    rewrite (dict_get_weighted_scores _ _ _ _ _ _ Hi).
    unfold weighted_score.
    now rewrite (candidate_score_lookup _ _ _ Hcs), (candidate_score_lookup _ _ _ Hts).
  - intros df Hdf.
    destruct (in_dec option_string_dec None (candidates cr tr)) as [Hn|Hn].
    { rewrite (hybrid_recommend_merge_raises _ _ _ _ _ _ _ _ Hc Ht Ec Et Hn) in Hdf.
      discriminate. }
    rewrite (hybrid_recommend_merge _ _ _ _ _ _ _ _ Hc Ht Ec Et Hn) in Hdf.
    injection Hdf as <-. simpl. apply Forall_forall. intros r Hr.
    apply in_map_iff in Hr. destruct Hr as [[o q] [<- Hbq]].
    eapply Permutation_in in Hbq; [|apply sort_values_desc_perm].
    apply in_combine_map in Hbq. destruct Hbq as [b [-> [Hb ->]]].
    apply filter_In in Hb. destruct Hb as [_ Hb].
    apply isin_keys_In in Hb. apply (top_isbns_candidates I) in Hb.
    exists (ISBN b). split; [reflexivity|]. split; [exact Hb|].
    intros c t Hcs Hts. simpl.
    unfold weighted_score.
    now rewrite (candidate_score_lookup _ _ _ Hcs), (candidate_score_lookup _ _ _ Hts).
  - intros Hcr Htr.
    assert (Hn : ~ In None (candidates cr tr)).
    { unfold candidates. intros Hin. apply in_app_or in Hin.
      rewrite Forall_forall in Hcr, Htr.
      destruct Hin as [Hin|Hin]; apply in_map_iff in Hin;
        destruct Hin as [r [E Hr]]; [now apply (Hcr r)|now apply (Htr r)]. }
    split.
    + eexists. apply (Hrun Hn).
    + eexists. apply (hybrid_recommend_merge _ _ _ _ _ _ _ _ Hc Ht Ec Et Hn).
Qed.

Lemma hybrid_score_is_weighted_sum_witness :
  exists collab_recs content_recs hybrid_scores,
    CollaborativeRecommender.recommend reference example_collaborative "A" (1 * 2)
      = Returned collab_recs
    /\ ContentRecommender.recommend reference example_content "A" (1 * 2)
      = Returned content_recs
    /\ candidate_score collab_recs "B" (4 # 5)%Q
    /\ candidate_score content_recs "B" (9 # 10)%Q
    /\ HybridRecommender.hybrid_scores reference collab_recs content_recs
         (1 # 2)%Q (1 # 2)%Q = Returned hybrid_scores
    /\ dict_get hybrid_scores "B"
       = Returned ((1 # 2) * (4 # 5) + (1 # 2) * (9 # 10))%Q.
Proof.
  eexists. eexists. eexists.
  assert (Hc : forall X Y : Prop, X -> (X -> Y) -> X /\ Y) by tauto.
  apply Hc; [vm_compute; reflexivity|intros Hcr].
  apply Hc; [vm_compute; reflexivity|intros Htr].
  apply Hc; [left; exists []; eexists; eexists; simpl;
             split; [reflexivity|]; split; [intros r' []|split; reflexivity]|intros Hcs].
  apply Hc; [left; exists []; eexists; eexists; simpl;
             split; [reflexivity|]; split; [intros r' []|split; reflexivity]|intros Hts].
  apply Hc; [vm_compute; reflexivity|intros Hhs].
  refine (proj1 (hybrid_score_is_weighted_sum reference example_hybrid "A" 1
                   (1 # 2)%Q (1 # 2)%Q _ _ reference_lawful Hcr Htr eq_refl eq_refl)
                _ Hhs "B" _ _ _ Hcs Hts).
  simpl. auto.
Defined.

(** C4.  Whatever frame [CollaborativeRecommender.recommend],
    [ContentRecommender.recommend] or [HybridRecommender.recommend] returns
    for a seed ISBN, none of its rows has the seed as its ISBN. *)
Theorem seed_never_recommended :
  forall (I : Implementation) (c : CollaborativeRecommender.self)
         (t : ContentRecommender.self) (h : HybridRecommender.self)
         (isbn : string) (n : nat) (collab_weight content_weight : Q)
         (df : DataFrame),
    Lawful I ->
    CollaborativeRecommender.recommend I c isbn n = Returned df
    \/ ContentRecommender.recommend I t isbn n = Returned df
    \/ HybridRecommender.recommend I h isbn n collab_weight content_weight = Returned df ->
    Forall (fun r => r_ISBN r <> Some isbn) (rows df).
Proof.
  intros I c t h isbn n cw ctw df L H. apply Forall_forall. intros r Hr.
  destruct H as [H|[H|H]].
  - destruct (recommend_similar_rows _ _ _ _ _ _ H r Hr) as [_ [Hn|[b [_ [Hb [Hne _]]]]]].
    + rewrite Hn. discriminate.
    + rewrite Hb. congruence.
  - destruct (recommend_similar_rows _ _ _ _ _ _ H r Hr) as [_ [Hn|[b [_ [Hb [Hne _]]]]]].
    + rewrite Hn. discriminate.
    + rewrite Hb. congruence.
  - now apply (hybrid_recommend_rows _ _ _ _ _ _ _ H).
Qed.

Lemma seed_never_recommended_witness :
  exists df,
    HybridRecommender.recommend reference example_hybrid "A" 2 (1 # 2)%Q (1 # 2)%Q
      = Returned df
    /\ length (rows df) = 2
    /\ Forall (fun r => r_ISBN r <> Some "A") (rows df).
Proof.
  eexists. split; [vm_compute; reflexivity|]. split; [reflexivity|].
  apply (seed_never_recommended reference example_collaborative example_content
           example_hybrid "A" 2 (1 # 2)%Q (1 # 2)%Q).
  - exact reference_lawful.
  - right. right. vm_compute. reflexivity.
Defined.

(** C5.  An ISBN that is absent from the index of the collaborative
    similarity matrix (respectively of the content similarity matrix) makes
    [CollaborativeRecommender.recommend] (respectively
    [ContentRecommender.recommend]) return the empty frame, for every [n];
    nothing is raised. *)
Theorem absent_isbn_returns_empty_frame :
  forall (I : Implementation) (c : CollaborativeRecommender.self)
         (t : ContentRecommender.self) (isbn : string) (n : nat),
    (~ In isbn (sim_index (CollaborativeRecommender.item_similarity_df c)) ->
     CollaborativeRecommender.recommend I c isbn n = Returned empty_DataFrame)
    /\
    (~ In isbn (sim_index (ContentRecommender.content_similarity_df t)) ->
     ContentRecommender.recommend I t isbn n = Returned empty_DataFrame).
Proof.
  intros I c t isbn n. split; intros H; now apply recommend_similar_absent.
Qed.

Lemma absent_isbn_returns_empty_frame_witness :
  CollaborativeRecommender.recommend reference example_collaborative_without_A "A" 5
    = Returned empty_DataFrame
  /\ ContentRecommender.recommend reference example_content "0000000000" 5
    = Returned empty_DataFrame.
Proof.
  destruct (absent_isbn_returns_empty_frame reference
              example_collaborative_without_A example_content "A" 5) as [Hc _].
  destruct (absent_isbn_returns_empty_frame reference
              example_collaborative example_content "0000000000" 5) as [_ Ht].
  split.
  - apply Hc. simpl. intros [E|[E|[]]]; discriminate.
  - apply Ht. simpl. intros [E|[E|[E|[]]]]; discriminate.
Defined.

(** C6.  A method string other than the four known ones makes
    [recommend_by_isbn] raise [ValueError], for every ISBN and [n]; no
    method is substituted and no frame is returned. *)
Theorem unknown_method_raises :
  forall (I : Implementation) (s : BookRecommendationSystem.self)
         (isbn : string) (n : nat) (method : string),
    method <> "popularity" -> method <> "collaborative" ->
    method <> "content" -> method <> "hybrid" ->
    BookRecommendationSystem.recommend_by_isbn I s isbn n method
    = Raised (ValueError ("Unknown method: " ++ method)).
Proof.
  intros I s isbn n method Hp Hc Ht Hh.
  unfold BookRecommendationSystem.recommend_by_isbn.
  apply String.eqb_neq in Hp, Hc, Ht, Hh.
  now rewrite Hp, Hc, Ht, Hh.
Qed.

Lemma unknown_method_raises_witness :
  BookRecommendationSystem.recommend_by_isbn reference example_system "A" 5 "Hybrid"
  = Raised (ValueError "Unknown method: Hybrid").
Proof.
  apply (unknown_method_raises reference example_system "A" 5 "Hybrid");
    discriminate.
Defined.

(** C7.  In the frame [PopularityRecommender.recommend] returns, for every
    [n] and [min_ratings], each row's (Average-Rating, Rating-Count) is
    lexicographically at least the next row's; every row shows a
    Rating-Count, the number of ratings of its book, that is at least
    [min_ratings]; and when every book of the catalog has fewer ratings than
    [min_ratings] the frame has no rows (the call returns; there is no
    error). *)
Theorem popularity_ranking_ordered :
  forall (s : PopularityRecommender.self) (n : nat) (min_ratings : Z),
    let df := PopularityRecommender.recommend s n min_ratings in
    Sorted row_popularity_ge (rows df)
    /\ Forall (fun r =>
         exists i c,
           r_ISBN r = Some i /\ r_Rating_Count r = Some c
           /\ c = number_of_ratings (PopularityRecommender.book_rating_merged s) i
           /\ (min_ratings <= c)%Z)
       (rows df)
    /\ (Forall (fun b =>
          (number_of_ratings (PopularityRecommender.book_rating_merged s) (ISBN b)
           < min_ratings)%Z)
          (PopularityRecommender.books_with_rating s) ->
        df = {| columns := popularity_columns; rows := [] |}).
Proof.
  intros s n min_ratings.
  unfold PopularityRecommender.recommend, head. simpl.
  set (merged := PopularityRecommender.merge_on_ISBN
                   (PopularityRecommender.books_with_rating s)
                   (PopularityRecommender.rating_counts
                      (PopularityRecommender.book_rating_merged s))).
  set (kept := filter (fun r => Z.leb min_ratings (snd r)) merged).
  assert (Hkept : forall b c, In (b, c) kept ->
            In b (PopularityRecommender.books_with_rating s) /\
            c = number_of_ratings (PopularityRecommender.book_rating_merged s) (ISBN b) /\
            (min_ratings <= c)%Z).
  { intros b c H. apply filter_In in H. destruct H as [H Hc].
    apply merge_on_ISBN_In in H. destruct H as [Hb H].
    apply rating_counts_In in H. apply Z.leb_le in Hc. auto. }
  split; [|split].
  - apply StronglySorted_Sorted. rewrite firstn_map.
    apply (StronglySorted_map
             (fun x y => popularity_ge (Average_Rating (fst x)) (snd x)
                                       (Average_Rating (fst y)) (snd y))).
    + intros x y H. exists (Average_Rating (fst x)), (snd x),
        (Average_Rating (fst y)), (snd y). simpl. auto.
    + apply StronglySorted_firstn. apply stable_sort_sorted.
      * apply sorts_after_true.
      * apply sorts_after_false.
      * intros x y z. apply popularity_ge_trans.
  - apply Forall_forall. intros r Hr.
    apply firstn_incl in Hr. apply in_map_iff in Hr.
    destruct Hr as [[b c] [<- Hbc]].
    apply stable_sort_In in Hbc. apply Hkept in Hbc.
    exists (ISBN b), c. simpl. tauto.
  - intros Hnone. f_equal.
    replace kept with (@nil (Book * Z)); [now destruct n|].
    symmetry. destruct kept as [|[b c] rest] eqn:E; [reflexivity|].
    exfalso. destruct (Hkept b c (or_introl eq_refl)) as [Hb [Hc Hmin]].
    rewrite Forall_forall in Hnone. specialize (Hnone b Hb). lia.
Qed.

Lemma popularity_ranking_ordered_witness :
  PopularityRecommender.recommend
    (PopularityRecommender.mkSelf example_books example_ratings) 2 DEFAULT_MIN_RATINGS
  = {| columns := popularity_columns; rows := [] |}.
Proof.
  apply (popularity_ranking_ordered
           (PopularityRecommender.mkSelf example_books example_ratings)
           2 DEFAULT_MIN_RATINGS).
  repeat constructor.
Defined.

(** C8.  For a seed in an engine's index, the frame returned by
    [recommend] has at most [n] rows, and exactly [n] when the index holds
    at least [n] items other than the seed; this for the collaborative and
    for the content engine, the index being a set of ISBNs each of which has
    exactly one row in the engine's catalog. *)
Theorem recommend_returns_n_rows :
  forall (I : Implementation) (c : CollaborativeRecommender.self)
         (t : ContentRecommender.self) (isbn : string) (n : nat),
    Lawful I ->
    (NoDup (sim_index (CollaborativeRecommender.item_similarity_df c)) ->
     In isbn (sim_index (CollaborativeRecommender.item_similarity_df c)) ->
     one_row_per_ISBN (CollaborativeRecommender.books_with_rating c)
                      (sim_index (CollaborativeRecommender.item_similarity_df c)) ->
     exists df,
       CollaborativeRecommender.recommend I c isbn n = Returned df
       /\ length (rows df) <= n
       /\ (n <= length (others (sim_index (CollaborativeRecommender.item_similarity_df c)) isbn)
           -> length (rows df) = n))
    /\
    (NoDup (sim_index (ContentRecommender.content_similarity_df t)) ->
     In isbn (sim_index (ContentRecommender.content_similarity_df t)) ->
     one_row_per_ISBN (ContentRecommender.books_with_rating t)
                      (sim_index (ContentRecommender.content_similarity_df t)) ->
     exists df,
       ContentRecommender.recommend I t isbn n = Returned df
       /\ length (rows df) <= n
       /\ (n <= length (others (sim_index (ContentRecommender.content_similarity_df t)) isbn)
           -> length (rows df) = n)).
Proof.
  intros I c t isbn n L. split; intros Hnd Hin Hone.
  - destruct (recommend_similar_length I _ _ isbn n Hnd Hin Hone) as [df [Hdf Hlen]].
    exists df. split; [exact Hdf|]. split; lia.
  - destruct (recommend_similar_length I _ _ isbn n Hnd Hin Hone) as [df [Hdf Hlen]].
    exists df. split; [exact Hdf|]. split; lia.
Qed.

Lemma example_index_NoDup : NoDup ["A"; "B"; "C"].
Proof.
  repeat constructor; simpl; intuition discriminate.
Qed.

Lemma example_one_row_per_ISBN : one_row_per_ISBN example_books ["A"; "B"; "C"].
Proof.
  intros i [<-|[<-|[<-|[]]]]; reflexivity.
Qed.

Lemma recommend_returns_n_rows_witness :
  (exists df,
     CollaborativeRecommender.recommend reference example_collaborative "A" 2 = Returned df
     /\ length (rows df) <= 2 /\ length (rows df) = 2)
  /\
  (exists df,
     ContentRecommender.recommend reference example_content "B" 1 = Returned df
     /\ length (rows df) <= 1 /\ length (rows df) = 1).
Proof.
  split.
  - destruct (proj1 (recommend_returns_n_rows reference example_collaborative
                       example_content "A" 2 reference_lawful)
                example_index_NoDup (or_introl eq_refl) example_one_row_per_ISBN)
      as [df [Hdf [Hle Heq]]].
    exists df. split; [exact Hdf|]. split; [exact Hle|].
    apply Heq. simpl. lia.
  - destruct (proj2 (recommend_returns_n_rows reference example_collaborative
                       example_content "B" 1 reference_lawful)
                example_index_NoDup (or_intror (or_introl eq_refl))
                example_one_row_per_ISBN)
      as [df [Hdf [Hle Heq]]].
    exists df. split; [exact Hdf|]. split; [exact Hle|].
    apply Heq. simpl. lia.
Defined.

(** C9.  For a user with no row in the filtered rating log,
    [recommend_for_user] returns, whatever the method, the frame that
    [get_popular_books] returns for the same [n] and the default minimum
    number of ratings. *)
Theorem unknown_user_gets_popular_books :
  forall (I : Implementation) (s : BookRecommendationSystem.self)
         (user_id : Z) (n : nat) (method : string),
    Forall (fun r => rt_User_ID r <> user_id)
           (BookRecommendationSystem.filtered_ratings s) ->
    BookRecommendationSystem.recommend_for_user I s user_id n method
    = Returned (BookRecommendationSystem.get_popular_books s n DEFAULT_MIN_RATINGS).
Proof.
  intros I s user_id n method H.
  unfold BookRecommendationSystem.recommend_for_user.
  replace (filter (fun r => Z.eqb (rt_User_ID r) user_id)
                  (BookRecommendationSystem.filtered_ratings s)) with (@nil Rating).
  - reflexivity.
  - symmetry. induction H as [|r l Hr _ IH]; simpl; [reflexivity|].
    apply Z.eqb_neq in Hr. now rewrite Hr.
Qed.

Lemma unknown_user_gets_popular_books_witness :
  BookRecommendationSystem.recommend_for_user reference example_system 7%Z 5 "content"
  = Returned (BookRecommendationSystem.get_popular_books example_system 5 DEFAULT_MIN_RATINGS).
Proof.
  apply (unknown_user_gets_popular_books reference example_system 7%Z 5 "content").
  repeat constructor; discriminate.
Defined.

(** C10.  Constructing the content engine changes the catalog table it is
    given, where it is: afterwards the table has a [Content] column, whose
    cells are the texts derived from author, publisher and title, while its
    rows and all the columns it had are as before, and so is every other
    object of the store.  The engines that [initialize] builds all refer to
    that one table, which they therefore see with the new column.  No
    [recommend] call of the popularity, collaborative, content or hybrid
    engine changes any object that is in the store when it starts: not the
    catalog, not the user-item matrix, not a similarity matrix. *)
Theorem content_engine_adds_column_queries_change_nothing :
  forall (I : Implementation) (h : Store.heap)
         (books_with_rating book_rating_merged : Store.loc) (t : Store.Table),
    nth_error h books_with_rating = Some (Store.OTable t) ->
    (let h' := snd (Store.Content.__init__ I books_with_rating h) in
     (exists t',
        nth_error h' books_with_rating = Some (Store.OTable t')
        /\ In "Content" (Store.extra_columns t')
        /\ incl (Store.extra_columns t) (Store.extra_columns t')
        /\ Forall2 (fun b b' => same_catalog_columns b b'
                      /\ Content b' = Some (ContentRecommender.content_text b))
                   (Store.table_rows t) (Store.table_rows t'))
     /\ forall l, l < length h -> l <> books_with_rating ->
                  nth_error h' l = nth_error h l)
    /\
    (forall (min_book_ratings min_user_ratings : Z) (sys : Store.System.self)
            (h' : Store.heap),
        Store.System.initialize I (Some (books_with_rating, book_rating_merged))
          min_book_ratings min_user_ratings h = (Returned sys, h') ->
        Store.Popularity.books_with_rating (Store.System.popularity_recommender sys)
          = books_with_rating
        /\ Store.Collaborative.books_with_rating
             (Store.System.collaborative_recommender sys) = books_with_rating
        /\ Store.Content.books_with_rating (Store.System.content_recommender sys)
           = books_with_rating
        /\ Store.Collaborative.books_with_rating
             (Store.Hybrid.collab_recommender (Store.System.hybrid_recommender sys))
           = books_with_rating
        /\ exists t',
             nth_error h' books_with_rating = Some (Store.OTable t')
             /\ In "Content" (Store.extra_columns t')
             /\ Forall2 (fun b b' => same_catalog_columns b b'
                           /\ Content b' = Some (ContentRecommender.content_text b))
                        (Store.table_rows t) (Store.table_rows t'))
    /\
    (forall (h0 : Store.heap) (p : Store.Popularity.self)
            (c : Store.Collaborative.self) (k : Store.Content.self)
            (y : Store.Hybrid.self) (isbn : string) (n : nat) (min_ratings : Z)
            (collab_weight content_weight : Q) (l : Store.loc),
        l < length h0 ->
        nth_error (snd (Store.Popularity.recommend p n min_ratings h0)) l
          = nth_error h0 l
        /\ nth_error (snd (Store.Collaborative.recommend I c isbn n h0)) l
           = nth_error h0 l
        /\ nth_error (snd (Store.Content.recommend I k isbn n h0)) l
           = nth_error h0 l
        /\ nth_error (snd (Store.Hybrid.recommend I y isbn n
                             collab_weight content_weight h0)) l
           = nth_error h0 l).
Proof.
  intros I h lb lm t Ht. split; [|split].
  - destruct (content_init_store I h lb t Ht) as [r [ext [Hrun _]]].
    assert (Hlb : lb < length h) by (apply nth_error_Some; congruence).
    rewrite Hrun. simpl. split.
    + exists (Store.Content.with_Content t).
      destruct (with_Content_has_column t) as [Hin Hincl].
      split; [apply nth_error_old; now apply update_same|].
      split; [exact Hin|]. split; [exact Hincl|apply with_Content_rows].
    + intros l Hl Hne. rewrite nth_error_app1 by (rewrite update_length; lia).
      now apply update_other.
  - intros mb mu sys h' Hinit.
    destruct (initialize_store I h h' lb lm mb mu t sys Ht Hinit)
      as [[Hp [Hc [Hk [Hy _]]]] [Hobj _]].
    repeat (split; [assumption|]).
    exists (Store.Content.with_Content t).
    split; [exact Hobj|].
    split; [exact (proj1 (with_Content_has_column t))|apply with_Content_rows].
  - intros h0 p c k y isbn n min_ratings cw ctw l Hl. repeat split.
    + now apply (keeps_objects _ _ _ (keeps_popularity_recommend _ p n min_ratings)).
    + now apply (keeps_objects _ _ _
                   (keeps_recommend_similar I _ _ _ isbn n)).
    + now apply (keeps_objects _ _ _
                   (keeps_recommend_similar I _ _ _ isbn n)).
    + now apply (keeps_objects _ _ _ (keeps_hybrid_recommend I _ y isbn n cw ctw)).
Qed.

Lemma content_engine_adds_column_queries_change_nothing_witness :
  exists t',
    nth_error (snd (Store.Content.__init__ reference 0 example_store)) 0
      = Some (Store.OTable t')
    /\ In "Content" (Store.extra_columns t')
    /\ nth_error (snd (Store.Content.__init__ reference 0 example_store)) 1
       = nth_error example_store 1.
Proof.
  destruct (content_engine_adds_column_queries_change_nothing reference
              example_store 0 1
              {| Store.extra_columns := []; Store.table_rows := example_books |}
              eq_refl)
    as [[[t' [Hobj [Hcol _]]] Hothers] _].
  exists t'. split; [exact Hobj|]. split; [exact Hcol|].
  apply Hothers; [simpl; lia|discriminate].
Defined.

(** * Further properties of the recommenders *)

(** ** The similarity query: order of the rows, [n = 0], failures *)

Lemma recommend_similar_sorted (I : Implementation) {L : Lawful I}
    (sim : SimilarityFrame) (books : list Book) (isbn : string) (n : nat)
    (df : DataFrame) :
  recommend_similar I sim books isbn n = Returned df ->
  StronglySorted similarity_score_ge (rows df).
Proof.
  intros H. apply recommend_similar_inv in H.
  destruct H as [[_ ->]|[_ [col [scored [_ [_ ->]]]]]]; simpl; [constructor|].
  apply (StronglySorted_map (descending snd)).
  - intros x y Hxy. exists (snd x), (snd y). simpl. auto.
  - apply sort_values_desc_sorted.
Qed.


(** X1.  The frame that [CollaborativeRecommender.recommend] or
    [ContentRecommender.recommend] returns lists its rows in descending
    order of the Similarity-Score they show: every row shows a score, and
    no row shows a larger score than a row before it. *)
Theorem similarity_rows_descending :
  forall (I : Implementation) (c : CollaborativeRecommender.self)
         (t : ContentRecommender.self) (isbn : string) (n : nat) (df : DataFrame),
    Lawful I ->
    CollaborativeRecommender.recommend I c isbn n = Returned df
    \/ ContentRecommender.recommend I t isbn n = Returned df ->
    StronglySorted similarity_score_ge (rows df).
Proof.
  intros I c t isbn n df L [H|H]; exact (recommend_similar_sorted I _ _ _ _ _ H).
Qed.

Lemma similarity_rows_descending_witness :
  exists df,
    CollaborativeRecommender.recommend reference example_collaborative "A" 2
      = Returned df
    /\ map r_Similarity_Score (rows df) = [Some (4 # 5)%Q; Some (3 # 5)%Q]
    /\ StronglySorted similarity_score_ge (rows df).
Proof.
  eexists. split; [vm_compute; reflexivity|]. split; [reflexivity|].
  apply (similarity_rows_descending reference example_collaborative example_content
           "A" 2).
  - exact reference_lawful.
  - left. vm_compute. reflexivity.
Defined.



Lemma getitem_column_In (m : SimilarityFrame) (isbn : string) (col : Series) :
  getitem_column m isbn = Returned col -> In isbn (sim_index m).
Proof.
  unfold getitem_column, locate. intros H.
  pose proof (locate_from_length 0 isbn (sim_index m)) as Hlen.
  apply (count_occ_In string_dec).
  destruct (locate_from 0 isbn (sim_index m)) as [|j [|j' js]];
    try discriminate. simpl in Hlen. lia.
Qed.

(** The query once the column of the seed has been selected. *)
Lemma recommend_similar_run (I : Implementation) (sim : SimilarityFrame)
    (books : list Book) (isbn : string) (n : nat) (col : Series) :
  getitem_column sim isbn = Returned col ->
  recommend_similar I sim books isbn n
  = (scored <-
       setitem_values
         (filter (fun b => isin (ISBN b) (top_similar_isbns I col isbn n)) books)
         (map snd (getitem_labels (similar_books I col isbn)
                                  (top_similar_isbns I col isbn n))) ;;
     Returned {| columns := similarity_columns;
                 rows := map similarity_row (sort_values_desc I snd scored) |}).
Proof.
  intros Hcol. unfold recommend_similar.
  rewrite (proj2 (isin_In _ _) (getitem_column_In _ _ _ Hcol)). simpl.
  rewrite Hcol. reflexivity.
Qed.

Lemma sort_values_desc_nil (I : Implementation) {L : Lawful I} {A : Type}
    (key : A -> Q) :
  sort_values_desc I key [] = [].
Proof.
  apply Permutation_nil. symmetry. apply sort_values_desc_perm.
Qed.

Lemma recommend_similar_zero (I : Implementation) {L : Lawful I}
    (sim : SimilarityFrame) (books : list Book) (isbn : string) :
  NoDup (sim_index sim) -> In isbn (sim_index sim) ->
  recommend_similar I sim books isbn 0
  = Returned {| columns := similarity_columns; rows := [] |}.
Proof.
  intros Hnd Hin.
  destruct (locate_unique isbn (sim_index sim) Hnd Hin) as [j Hj].
  assert (Hcol : getitem_column sim isbn = Returned (column sim j))
    by (unfold getitem_column; now rewrite Hj).
  rewrite (recommend_similar_run I _ _ _ _ _ Hcol).
  unfold top_similar_isbns. simpl.
  rewrite filter_none by reflexivity. simpl.
  now rewrite (sort_values_desc_nil I).
Qed.

(** X3.  Asked for [n = 0] recommendations for a seed of its index, an
    engine returns a frame with the six result columns and no rows (it is
    [empty], but it is not the column-less [pd.DataFrame()] of an unknown
    seed); the fusion, whose two candidate lists are then both of this
    kind, passes on the content engine's: six columns, Similarity-Score
    among them, and no rows. *)
Theorem zero_recommendations_requested :
  forall (I : Implementation) (s : HybridRecommender.self) (isbn : string)
         (collab_weight content_weight : Q),
    Lawful I ->
    let c := HybridRecommender.collab_recommender s in
    let t := HybridRecommender.content_recommender s in
    NoDup (sim_index (CollaborativeRecommender.item_similarity_df c)) ->
    In isbn (sim_index (CollaborativeRecommender.item_similarity_df c)) ->
    NoDup (sim_index (ContentRecommender.content_similarity_df t)) ->
    In isbn (sim_index (ContentRecommender.content_similarity_df t)) ->
    CollaborativeRecommender.recommend I c isbn 0
    = Returned {| columns := similarity_columns; rows := [] |}
    /\ ContentRecommender.recommend I t isbn 0
       = Returned {| columns := similarity_columns; rows := [] |}
    /\ HybridRecommender.recommend I s isbn 0 collab_weight content_weight
       = Returned {| columns := similarity_columns; rows := [] |}.
Proof.
  intros I s isbn cw ctw L c t Hc1 Hc2 Ht1 Ht2.
  pose proof (recommend_similar_zero I _
                (CollaborativeRecommender.books_with_rating c) isbn Hc1 Hc2) as Hc.
  pose proof (recommend_similar_zero I _
                (ContentRecommender.books_with_rating t) isbn Ht1 Ht2) as Ht.
  split; [exact Hc|]. split; [exact Ht|].
  now rewrite (hybrid_recommend_collab_empty I s isbn 0 cw ctw _ _ Hc Ht eq_refl).
Qed.

Lemma zero_recommendations_requested_witness :
  HybridRecommender.recommend reference example_hybrid "A" 0 (1 # 2)%Q (1 # 2)%Q
  = Returned {| columns := similarity_columns; rows := [] |}.
Proof.
  apply (zero_recommendations_requested reference example_hybrid "A"
           (1 # 2)%Q (1 # 2)%Q reference_lawful);
    try exact example_index_NoDup; simpl; auto.
Defined.

Lemma map_ISBN_setitem_Content (books : list Book) :
  map ISBN (ContentRecommender.setitem_Content books) = map ISBN books.
Proof.
  unfold ContentRecommender.setitem_Content. rewrite map_map. reflexivity.
Qed.

(** X4.  A content engine built over a catalog in which an ISBN occurs on
    two rows or more cannot answer for that ISBN: the similarity matrix
    then has several columns of that label, selecting them gives a table
    instead of a Series, and [recommend] raises [TypeError], for every
    [n]. *)
Theorem duplicated_isbn_raises_TypeError :
  forall (I : Implementation) (books_with_rating : list Book)
         (t : ContentRecommender.self) (isbn : string) (n : nat),
    ContentRecommender._build_model I books_with_rating = Returned t ->
    2 <= count_occ string_dec (map ISBN books_with_rating) isbn ->
    exists msg, ContentRecommender.recommend I t isbn n = Raised (TypeError msg).
Proof.
  intros I books t isbn n Hb Hdup.
  unfold ContentRecommender._build_model in Hb.
  destruct (tfidf_fit_transform I _) as [m|e]; [|discriminate]. simpl in Hb.
  destruct (cosine_similarity I _) as [m'|e]; [|discriminate]. simpl in Hb.
  injection Hb as <-.
  unfold ContentRecommender.recommend, recommend_similar. simpl.
  rewrite map_ISBN_setitem_Content.
  assert (Hin : In isbn (map ISBN books))
    by (apply (count_occ_In string_dec); lia).
  rewrite (proj2 (isin_In _ _) Hin). simpl.
  unfold getitem_column, locate. simpl.
  pose proof (locate_from_length 0 isbn (map ISBN books)) as Hlen.
  destruct (locate_from 0 isbn (map ISBN books)) as [|j [|j' js]];
    simpl in Hlen; try lia.
  simpl. eexists. reflexivity.
Qed.

Lemma duplicated_isbn_raises_TypeError_witness :
  exists t msg,
    ContentRecommender._build_model reference
      [example_book "A" "Alpha" 7%Q; example_book "B" "Beta" 9%Q;
       example_book "A" "Alpha, second printing" 7%Q] = Returned t
    /\ ContentRecommender.recommend reference t "A" 5 = Raised (TypeError msg).
Proof.
  eexists.
  destruct (duplicated_isbn_raises_TypeError reference
              [example_book "A" "Alpha" 7%Q; example_book "B" "Beta" 9%Q;
               example_book "A" "Alpha, second printing" 7%Q]
              _ "A" 5 eq_refl) as [msg H].
  - simpl. lia.
  - exists msg. split; [reflexivity|exact H].
Defined.

Lemma similarity_scores_length (I : Implementation) {L : Lawful I}
    (sim : SimilarityFrame) (isbn : string) (n : nat) (col : Series) :
  NoDup (sim_index sim) ->
  getitem_column sim isbn = Returned col ->
  length (map snd (getitem_labels (similar_books I col isbn)
                                  (top_similar_isbns I col isbn n)))
  = length (top_similar_isbns I col isbn n).
Proof.
  intros Hnd Hcol.
  assert (Hnd' : NoDup (map fst (similar_books I col isbn))).
  { apply (similar_books_NoDup I).
    now rewrite (getitem_column_labels _ _ _ Hcol). }
  unfold top_similar_isbns.
  rewrite (getitem_labels_prefix _ n Hnd'). now rewrite !length_map.
Qed.

(** X5.  When the query returns and when it fails.  For a seed of a
    duplicate-free index, let [top] be the ISBNs of the [n] most similar
    other items and [recommendations] the catalog rows whose ISBN is among
    them.  If the catalog has exactly as many such rows as there are ISBNs
    in [top], or none at all, [recommend] returns a frame with one row per
    ISBN of [top]; in every other case (an ISBN of [top] with no catalog
    row beside one that has, or with two) the assignment of the score
    column fails and [recommend] raises [ValueError].  This is the body
    shared by [CollaborativeRecommender.recommend] and
    [ContentRecommender.recommend]. *)
Theorem similarity_query_returns_or_raises :
  forall (I : Implementation) (similarity_df : SimilarityFrame)
         (books_with_rating : list Book) (isbn : string) (n : nat) (col : Series),
    Lawful I ->
    NoDup (sim_index similarity_df) ->
    getitem_column similarity_df isbn = Returned col ->
    let top := top_similar_isbns I col isbn n in
    let recommendations := filter (fun b => isin (ISBN b) top) books_with_rating in
    (recommendations = [] \/ length recommendations = length top ->
     exists df,
       recommend_similar I similarity_df books_with_rating isbn n = Returned df
       /\ length (rows df) = length top)
    /\ (recommendations <> [] -> length recommendations <> length top ->
        exists msg,
          recommend_similar I similarity_df books_with_rating isbn n
          = Raised (ValueError msg)).
Proof.
  intros I sim books isbn n col L Hnd Hcol top recs.
  pose proof (similarity_scores_length I sim isbn n col Hnd Hcol) as Hlen.
  fold top in Hlen.
  rewrite (recommend_similar_run I _ _ _ _ _ Hcol). fold top. fold recs.
  set (values := map snd (getitem_labels (similar_books I col isbn) top)) in *.
  split.
  - intros Hok.
    assert (Hset : exists scored,
               setitem_values recs values = Returned scored).
    { unfold setitem_values. destruct Hok as [->|Hok].
      - destruct values as [|v vs]; [|eexists; reflexivity].
        simpl. eexists. reflexivity.
      - assert (E : (length values =? length recs) = true)
          by (apply Nat.eqb_eq; lia).
        rewrite E. destruct recs, values; eexists; reflexivity. }
    destruct Hset as [scored Hset]. rewrite Hset. simpl.
    eexists. split; [reflexivity|]. simpl.
    rewrite length_map, (Permutation_length (sort_values_desc_perm _ snd _)).
    rewrite (setitem_values_length _ _ _ Hset). exact Hlen.
  - intros Hne Hdiff. unfold setitem_values.
    assert (E : (length values =? length recs) = false)
      by (apply Nat.eqb_neq; lia).
    rewrite E. destruct recs as [|b bs]; [contradiction|].
    simpl. eexists. reflexivity.
Qed.

Lemma similarity_query_returns_or_raises_witness :
  exists msg,
    recommend_similar reference example_item_similarity
      (example_book "B" "Beta, second printing" 9%Q :: example_books) "A" 2
    = Raised (ValueError msg).
Proof.
  refine (proj2 (similarity_query_returns_or_raises reference
                   example_item_similarity
                   (example_book "B" "Beta, second printing" 9%Q :: example_books)
                   "A" 2 _ reference_lawful example_index_NoDup eq_refl) _ _).
  - discriminate.
  - simpl. lia.
Defined.

(** Selecting rows of a table with one row per key leaves one row per
    key. *)
Lemma selected_rows_distinct {A B : Type} (key : A -> B) (keep : A -> bool)
    (table : list A) :
  NoDup (map key table) -> NoDup (map key (filter keep table)).
Proof.
  intros Hnd. induction table as [|b table IH]; [constructor|].
  apply NoDup_cons_iff in Hnd. destruct Hnd as [Hb Hnd]. simpl.
  destruct (keep b); [|now apply IH].
  simpl. apply NoDup_cons; [|now apply IH].
  contradict Hb. apply in_map_iff in Hb. destruct Hb as [b' [E Hb']].
  apply filter_In in Hb'. rewrite <- E. apply in_map. tauto.
Qed.

Lemma isin_keys_filter_length (books : list Book) (keys : list (option string)) :
  NoDup (map ISBN books) ->
  length (filter (fun b => isin_keys (ISBN b) keys) books) <= length keys.
Proof.
  intros Hnd.
  set (recs := filter (fun b => isin_keys (ISBN b) keys) books).
  rewrite <- (length_map (fun b => Some (ISBN b)) recs).
  apply NoDup_incl_length.
  - rewrite <- (map_map ISBN Some).
    apply Finite.Injective_map_NoDup; [intros x y E; congruence|].
    now apply selected_rows_distinct.
  - intros k Hk. apply in_map_iff in Hk. destruct Hk as [b [<- Hb]].
    apply filter_In in Hb. now apply isin_keys_In.
Qed.

(** X6.  Over a catalog with one row per ISBN, the frame that
    [HybridRecommender.recommend] returns never has more than [n] rows,
    whichever of its three exits produced it. *)
Theorem hybrid_returns_at_most_n_rows :
  forall (I : Implementation) (s : HybridRecommender.self) (isbn : string)
         (n : nat) (collab_weight content_weight : Q) (df : DataFrame),
    Lawful I ->
    NoDup (map ISBN (CollaborativeRecommender.books_with_rating
                       (HybridRecommender.collab_recommender s))) ->
    HybridRecommender.recommend I s isbn n collab_weight content_weight = Returned df ->
    length (rows df) <= n.
Proof.
  intros I s isbn n cw ctw df L Hnd H.
  destruct (hybrid_recommend_inv _ _ _ _ _ _ _ H) as [cr [tr [Hc Ht]]].
  destruct (empty cr) eqn:Ec.
  - rewrite (hybrid_recommend_collab_empty I s isbn n cw ctw cr tr Hc Ht Ec) in H.
    injection H as <-. simpl. rewrite length_firstn. lia.
  - destruct (empty tr) eqn:Et.
    + rewrite (hybrid_recommend_content_empty I s isbn n cw ctw cr tr Hc Ht Ec Et) in H.
      injection H as <-. simpl. rewrite length_firstn. lia.
    + destruct (in_dec option_string_dec None (candidates cr tr)) as [Hn|Hn].
      { rewrite (hybrid_recommend_merge_raises I s isbn n cw ctw cr tr
                   Hc Ht Ec Et Hn) in H.
        discriminate. }
      rewrite (hybrid_recommend_merge I s isbn n cw ctw cr tr Hc Ht Ec Et Hn) in H.
      injection H as <-. simpl.
      rewrite length_map, (Permutation_length (sort_values_desc_perm _ snd _)).
      rewrite length_combine, !length_map, Nat.min_id.
      etransitivity; [apply isin_keys_filter_length; exact Hnd|].
      unfold top_isbns. rewrite length_map, length_firstn. lia.
Qed.

Lemma hybrid_returns_at_most_n_rows_witness :
  exists df,
    HybridRecommender.recommend reference example_hybrid "A" 1 (1 # 2)%Q (1 # 2)%Q
      = Returned df
    /\ length (rows df) <= 1.
Proof.
  eexists. split; [vm_compute; reflexivity|].
  apply (hybrid_returns_at_most_n_rows reference example_hybrid "A" 1
           (1 # 2)%Q (1 # 2)%Q _ reference_lawful).
  - simpl. repeat constructor; simpl; intuition discriminate.
  - vm_compute. reflexivity.
Defined.

(** X7.  A seed that neither engine has in its index makes
    [HybridRecommender.recommend] return the column-less empty frame
    [pd.DataFrame()], for every [n] and all weights; nothing is raised. *)
Theorem hybrid_unknown_seed_returns_empty_frame :
  forall (I : Implementation) (s : HybridRecommender.self) (isbn : string)
         (n : nat) (collab_weight content_weight : Q),
    ~ In isbn (sim_index (CollaborativeRecommender.item_similarity_df
                            (HybridRecommender.collab_recommender s))) ->
    ~ In isbn (sim_index (ContentRecommender.content_similarity_df
                            (HybridRecommender.content_recommender s))) ->
    HybridRecommender.recommend I s isbn n collab_weight content_weight
    = Returned empty_DataFrame.
Proof.
  intros I s isbn n cw ctw Hc Ht.
  rewrite (hybrid_recommend_collab_empty I s isbn n cw ctw
             empty_DataFrame empty_DataFrame).
  - unfold head, empty_DataFrame. simpl. now rewrite firstn_nil.
  - now apply recommend_similar_absent.
  - now apply recommend_similar_absent.
  - reflexivity.
Qed.

Lemma hybrid_unknown_seed_returns_empty_frame_witness :
  HybridRecommender.recommend reference example_hybrid "0000000000" 5
    COLLAB_WEIGHT CONTENT_WEIGHT
  = Returned empty_DataFrame.
Proof.
  apply (hybrid_unknown_seed_returns_empty_frame reference example_hybrid
           "0000000000" 5 COLLAB_WEIGHT CONTENT_WEIGHT);
    simpl; intros [E|[E|[E|[]]]]; discriminate.
Defined.

(** ** The popularity ranking: which books it lists *)

Lemma count_filter_ISBN (log : list Rating) (k : string) :
  Z.of_nat (length (filter (fun r => String.eqb (rt_ISBN r) k) log))
  = number_of_ratings log k.
Proof.
  unfold number_of_ratings. f_equal.
  induction log as [|r rs IH]; simpl; [reflexivity|].
  destruct (String.eqb_spec (rt_ISBN r) k) as [E|E];
    destruct (string_dec (rt_ISBN r) k); simpl; congruence.
Qed.

Lemma filter_key_map {B : Type} (f : string -> B) (i : string) (keys : list string) :
  NoDup keys ->
  filter (fun kc => String.eqb (fst kc) i) (map (fun k => (k, f k)) keys)
  = if in_dec string_dec i keys then [(i, f i)] else [].
Proof.
  induction 1 as [|k keys Hk Hnd IH]; simpl; [reflexivity|].
  rewrite IH. destruct (String.eqb_spec k i) as [E|Hne].
  - subst k. destruct (string_dec i i) as [E|C]; [|contradiction].
    destruct (in_dec string_dec i keys); [contradiction|reflexivity].
  - destruct (string_dec k i) as [C|C]; [contradiction|].
    destruct (in_dec string_dec i keys); reflexivity.
Qed.

Lemma rating_counts_filter (log : list Rating) (i : string) :
  filter (fun kc => String.eqb (fst kc) i) (PopularityRecommender.rating_counts log)
  = if Z.leb 1 (number_of_ratings log i) then [(i, number_of_ratings log i)] else [].
Proof.
  unfold PopularityRecommender.rating_counts.
  set (keys := sorted_asc String.leb (nodup string_dec (map rt_ISBN log))).
  assert (Hnd : NoDup keys).
  { unfold keys, sorted_asc. eapply Permutation_NoDup.
    - symmetry. apply stable_sort_perm.
    - apply NoDup_nodup. }
  assert (Hin : In i keys <-> In i (map rt_ISBN log)).
  { unfold keys, sorted_asc. rewrite stable_sort_In. apply nodup_In. }
  rewrite (filter_key_map _ i keys Hnd). rewrite count_filter_ISBN.
  unfold number_of_ratings.
  destruct (in_dec string_dec i keys) as [Hi|Hi].
  - apply Hin in Hi. apply (count_occ_In string_dec) in Hi.
    destruct (Z.leb_spec 1 (Z.of_nat (count_occ string_dec (map rt_ISBN log) i)));
      [reflexivity|lia].
  - assert (H0 : count_occ string_dec (map rt_ISBN log) i = 0).
    { apply count_occ_not_In. now rewrite <- Hin. }
    rewrite H0. reflexivity.
Qed.

Lemma merge_rating_counts (books : list Book) (log : list Rating) :
  PopularityRecommender.merge_on_ISBN books (PopularityRecommender.rating_counts log)
  = map (fun b => (b, number_of_ratings log (ISBN b)))
        (filter (fun b => Z.leb 1 (number_of_ratings log (ISBN b))) books).
Proof.
  unfold PopularityRecommender.merge_on_ISBN.
  induction books as [|b books IH]; simpl; [reflexivity|].
  rewrite IH, rating_counts_filter.
  destruct (Z.leb 1 (number_of_ratings log (ISBN b))); reflexivity.
Qed.

Lemma filter_filter {A : Type} (p q : A -> bool) (l : list A) :
  filter q (filter p l) = filter (fun x => p x && q x) l.
Proof.
  induction l as [|a l IH]; simpl; [reflexivity|].
  destruct (p a); simpl; [destruct (q a); now rewrite IH|exact IH].
Qed.

Lemma filter_map_comm {A B : Type} (f : A -> B) (p : B -> bool) (l : list A) :
  filter p (map f l) = map f (filter (fun x => p (f x)) l).
Proof.
  induction l as [|a l IH]; simpl; [reflexivity|].
  destruct (p (f a)); simpl; now rewrite IH.
Qed.

(** The ranking, as a function of the catalog rows it ranks. *)
Lemma popularity_recommend_ranked (s : PopularityRecommender.self) (n : nat)
    (min_ratings : Z) :
  PopularityRecommender.recommend s n min_ratings
  = head n
      {| columns := popularity_columns;
         rows :=
           map popularity_row
             (stable_sort PopularityRecommender.sorts_after
                (map (fun b =>
                        (b, number_of_ratings
                              (PopularityRecommender.book_rating_merged s) (ISBN b)))
                     (filter (ranked (PopularityRecommender.book_rating_merged s)
                                     min_ratings)
                             (PopularityRecommender.books_with_rating s)))) |}.
Proof.
  unfold PopularityRecommender.recommend.
  rewrite merge_rating_counts, filter_map_comm, filter_filter. reflexivity.
Qed.

(** X8.  How many books the popularity ranking lists: [n], or all the
    catalog rows it ranks if these are fewer.  It ranks a catalog row when
    its book has at least [min_ratings] rows in the rating log and at least
    one: a book without ratings is not listed even when [min_ratings] is 0
    or negative. *)
Theorem popularity_number_of_rows :
  forall (s : PopularityRecommender.self) (n : nat) (min_ratings : Z),
    length (rows (PopularityRecommender.recommend s n min_ratings))
    = Nat.min n
        (length (filter (ranked (PopularityRecommender.book_rating_merged s)
                                min_ratings)
                        (PopularityRecommender.books_with_rating s))).
Proof.
  intros s n m. rewrite popularity_recommend_ranked. simpl.
  now rewrite length_firstn, length_map, stable_sort_length, length_map.
Qed.

(** X9.  What the popularity ranking lists.  Every row of the result is the
    row of a catalog book that has at least [min_ratings] ratings and at
    least one, with that book's title, author, average rating and publisher
    and its number of ratings; and when [n] is at least the number of such
    catalog rows, every one of them is listed. *)
Theorem popularity_lists_the_ranked_books :
  forall (s : PopularityRecommender.self) (n : nat) (min_ratings : Z),
    let log := PopularityRecommender.book_rating_merged s in
    let catalog := PopularityRecommender.books_with_rating s in
    let df := PopularityRecommender.recommend s n min_ratings in
    (forall r, In r (rows df) ->
       exists b, In b catalog /\ ranked log min_ratings b = true
                 /\ r = popularity_row (b, number_of_ratings log (ISBN b)))
    /\ (length (filter (ranked log min_ratings) catalog) <= n ->
        forall b, In b catalog -> ranked log min_ratings b = true ->
                  In (popularity_row (b, number_of_ratings log (ISBN b))) (rows df)).
Proof.
  intros s n m log catalog df. unfold df. rewrite popularity_recommend_ranked.
  fold log. fold catalog. simpl. split.
  - intros r Hr. apply firstn_incl in Hr. apply in_map_iff in Hr.
    destruct Hr as [[b c] [<- Hbc]]. apply stable_sort_In in Hbc.
    apply in_map_iff in Hbc. destruct Hbc as [b' [E Hb]]. injection E as -> <-.
    apply filter_In in Hb. exists b. tauto.
  - intros Hn b Hb Hr. rewrite firstn_all2.
    + apply in_map. apply stable_sort_In. apply in_map_iff. exists b.
      split; [reflexivity|]. apply filter_In. auto.
    + now rewrite length_map, stable_sort_length, length_map.
Qed.

Lemma popularity_lists_the_ranked_books_witness :
  In (popularity_row (example_book "C" "Gamma" (25 # 10)%Q, 2%Z))
     (rows (PopularityRecommender.recommend
              (PopularityRecommender.mkSelf example_books example_ratings) 2 2%Z)).
Proof.
  apply (proj2 (popularity_lists_the_ranked_books
                  (PopularityRecommender.mkSelf example_books example_ratings)
                  2 2%Z)
               ltac:(simpl; lia) (example_book "C" "Gamma" (25 # 10)%Q)).
  - simpl. auto.
  - reflexivity.
Defined.

(** ** Recommendations for a user *)

Lemma drop_duplicates_from_In (seen : list (option string)) (l : list Row) (r : Row) :
  In r (drop_duplicates_from seen l) -> In r l /\ ~ In (r_ISBN r) seen.
Proof.
  revert seen. induction l as [|x l IH]; intros seen; simpl; [tauto|].
  destruct (existsb (key_eqb (r_ISBN x)) seen) eqn:E.
  - intros H. apply IH in H. tauto.
  - intros [<-|H].
    + split; [now left|]. intros C. apply existsb_key_eqb in C. congruence.
    + apply IH in H. simpl in H. tauto.
Qed.

Lemma drop_duplicates_from_NoDup (seen : list (option string)) (l : list Row) :
  NoDup (map r_ISBN (drop_duplicates_from seen l)).
Proof.
  revert seen. induction l as [|x l IH]; intros seen; simpl; [constructor|].
  destruct (existsb (key_eqb (r_ISBN x)) seen); [apply IH|].
  simpl. constructor; [|apply IH].
  intros C. apply in_map_iff in C. destruct C as [r [E Hr]].
  apply drop_duplicates_from_In in Hr. destruct Hr as [_ Hr].
  apply Hr. left. now symmetry.
Qed.

(** What [recommend_for_user] returns for a user who has ratings, under a
    method other than ['popularity']. *)
Lemma recommend_for_user_inv (I : Implementation) (s : BookRecommendationSystem.self)
    (user_id : Z) (n : nat) (method : string) (df : DataFrame) :
  ratings_of (BookRecommendationSystem.filtered_ratings s) user_id <> [] ->
  method <> "popularity" ->
  BookRecommendationSystem.recommend_for_user I s user_id n method = Returned df ->
  df = empty_DataFrame
  \/ exists frames,
       df = head n (drop_duplicates
              {| columns := columns (concat frames);
                 rows :=
                   filter (fun r =>
                             negb (cell_isin (r_ISBN r)
                                     (map rt_ISBN
                                        (ratings_of
                                           (BookRecommendationSystem.filtered_ratings s)
                                           user_id))))
                          (rows (concat frames)) |}).
Proof.
  intros Hne Hm. unfold BookRecommendationSystem.recommend_for_user.
  fold (ratings_of (BookRecommendationSystem.filtered_ratings s) user_id).
  destruct (ratings_of (BookRecommendationSystem.filtered_ratings s) user_id)
    as [|r0 rs] eqn:E; [contradiction|].
  cbn [map]. apply String.eqb_neq in Hm. rewrite Hm.
  destruct (BookRecommendationSystem.all_recommendations I s n method _)
    as [frames|e]; [|discriminate].
  simpl. destruct frames as [|f fs]; intros H; injection H as <-.
  - now left.
  - right. exists (f :: fs). reflexivity.
Qed.

Lemma popularity_length_le (s : PopularityRecommender.self) (n : nat) (m : Z) :
  length (rows (PopularityRecommender.recommend s n m)) <= n.
Proof.
  unfold PopularityRecommender.recommend, head. simpl.
  rewrite length_firstn. lia.
Qed.

(** X10.  Whatever the user, the method and the state of the engines, a
    frame returned by [recommend_for_user] has at most [n] rows: the
    popularity ranking is cut to [n], and so is the combination of the
    lists obtained for the user's best-rated books. *)
Theorem recommend_for_user_at_most_n_rows :
  forall (I : Implementation) (s : BookRecommendationSystem.self)
         (user_id : Z) (n : nat) (method : string) (df : DataFrame),
    BookRecommendationSystem.recommend_for_user I s user_id n method = Returned df ->
    length (rows df) <= n.
Proof.
  intros I s user_id n method df H.
  destruct (ratings_of (BookRecommendationSystem.filtered_ratings s) user_id)
    as [|r0 rs] eqn:E.
  - unfold BookRecommendationSystem.recommend_for_user in H.
    fold (ratings_of (BookRecommendationSystem.filtered_ratings s) user_id) in H.
    rewrite E in H. simpl in H. injection H as <-. apply popularity_length_le.
  - destruct (String.eqb_spec method "popularity") as [->|Hm].
    + unfold BookRecommendationSystem.recommend_for_user in H.
      fold (ratings_of (BookRecommendationSystem.filtered_ratings s) user_id) in H.
      rewrite E in H. simpl in H. injection H as <-. apply popularity_length_le.
    + apply recommend_for_user_inv in H; [|rewrite E; discriminate|exact Hm].
      destruct H as [->|[frames ->]]; simpl; [lia|].
      rewrite length_firstn. lia.
Qed.

Lemma recommend_for_user_at_most_n_rows_witness :
  exists df,
    BookRecommendationSystem.recommend_for_user reference example_system 1%Z 1 "hybrid"
      = Returned df
    /\ length (rows df) <= 1.
Proof.
  eexists. split; [vm_compute; reflexivity|].
  apply (recommend_for_user_at_most_n_rows reference example_system 1%Z 1 "hybrid").
  vm_compute. reflexivity.
Defined.

(** X11.  Under a method other than ['popularity'], [recommend_for_user]
    never recommends to a user a book that this user has rated (in the
    filtered rating log): no row of the result carries the ISBN of one of
    the user's ratings. *)
Theorem recommend_for_user_omits_rated_books :
  forall (I : Implementation) (s : BookRecommendationSystem.self)
         (user_id : Z) (n : nat) (method : string) (df : DataFrame) (r : Rating),
    method <> "popularity" ->
    In r (BookRecommendationSystem.filtered_ratings s) ->
    rt_User_ID r = user_id ->
    BookRecommendationSystem.recommend_for_user I s user_id n method = Returned df ->
    Forall (fun row => r_ISBN row <> Some (rt_ISBN r)) (rows df).
Proof.
  intros I s user_id n method df r Hm Hr Hu H.
  assert (Hin : In r (ratings_of (BookRecommendationSystem.filtered_ratings s) user_id)).
  { apply filter_In. split; [exact Hr|]. now apply Z.eqb_eq. }
  apply recommend_for_user_inv in H; [| |exact Hm].
  - apply Forall_forall. intros row Hrow.
    destruct H as [->|[frames ->]]; [contradiction|].
    simpl in Hrow. apply firstn_incl in Hrow.
    apply drop_duplicates_from_In in Hrow. destruct Hrow as [Hrow _].
    apply filter_In in Hrow. destruct Hrow as [_ Hrow].
    apply negb_true_iff in Hrow. intros C. rewrite C in Hrow. simpl in Hrow.
    apply isin_false in Hrow. apply Hrow. now apply in_map.
  - intros C. rewrite C in Hin. contradiction.
Qed.

Lemma recommend_for_user_omits_rated_books_witness :
  exists df,
    BookRecommendationSystem.recommend_for_user reference example_system 1%Z 2 "content"
      = Returned df
    /\ map r_ISBN (rows df) = [Some "C"]
    /\ Forall (fun row => r_ISBN row <> Some "A") (rows df).
Proof.
  eexists. split; [vm_compute; reflexivity|]. split; [reflexivity|].
  apply (recommend_for_user_omits_rated_books reference example_system 1%Z 2
           "content" _ (mkRating 1%Z "A" 8%Z)).
  - discriminate.
  - simpl. auto.
  - reflexivity.
  - vm_compute. reflexivity.
Defined.

(** X12.  Under a method other than ['popularity'], the frame returned for
    a user who has ratings lists no ISBN twice, although the lists combined
    in it, one per seed book, can overlap. *)
Theorem recommend_for_user_lists_no_isbn_twice :
  forall (I : Implementation) (s : BookRecommendationSystem.self)
         (user_id : Z) (n : nat) (method : string) (df : DataFrame),
    method <> "popularity" ->
    ratings_of (BookRecommendationSystem.filtered_ratings s) user_id <> [] ->
    BookRecommendationSystem.recommend_for_user I s user_id n method = Returned df ->
    NoDup (map r_ISBN (rows df)).
Proof.
  intros I s user_id n method df Hm Hne H.
  apply recommend_for_user_inv in H; [|exact Hne|exact Hm].
  destruct H as [->|[frames ->]]; simpl; [constructor|].
  rewrite <- firstn_map. apply firstn_NoDup. apply drop_duplicates_from_NoDup.
Qed.

Lemma recommend_for_user_lists_no_isbn_twice_witness :
  exists df,
    BookRecommendationSystem.recommend_for_user reference example_system 2%Z 3 "hybrid"
      = Returned df
    /\ map r_ISBN (rows df) = [Some "B"]
    /\ NoDup (map r_ISBN (rows df)).
Proof.
  eexists. split; [vm_compute; reflexivity|]. split; [reflexivity|].
  apply (recommend_for_user_lists_no_isbn_twice reference example_system 2%Z 3
           "hybrid").
  - discriminate.
  - discriminate.
  - vm_compute. reflexivity.
Defined.

Lemma all_recommendations_default (I : Implementation)
    (s : BookRecommendationSystem.self) (n : nat) (method : string)
    (top_user_books : list string) :
  method <> "collaborative" -> method <> "content" ->
  BookRecommendationSystem.all_recommendations I s n method top_user_books
  = BookRecommendationSystem.all_recommendations I s n "hybrid" top_user_books.
Proof.
  intros Hc Ht. apply String.eqb_neq in Hc, Ht.
  induction top_user_books as [|isbn rest IH]; simpl; [reflexivity|].
  now rewrite Hc, Ht, IH.
Qed.

(** X13.  [recommend_for_user] does not check its [method] argument: a
    method string that is none of ['popularity'], ['collaborative'] and
    ['content'] is served as ['hybrid'], with the same result; unlike
    [recommend_by_isbn], it raises no [ValueError] for an unknown method. *)
Theorem recommend_for_user_defaults_to_hybrid :
  forall (I : Implementation) (s : BookRecommendationSystem.self)
         (user_id : Z) (n : nat) (method : string),
    method <> "popularity" -> method <> "collaborative" -> method <> "content" ->
    BookRecommendationSystem.recommend_for_user I s user_id n method
    = BookRecommendationSystem.recommend_for_user I s user_id n "hybrid".
Proof.
  intros I s user_id n method Hp Hc Ht.
  unfold BookRecommendationSystem.recommend_for_user.
  rewrite (all_recommendations_default I s n method _ Hc Ht).
  apply String.eqb_neq in Hp. rewrite Hp. reflexivity.
Qed.

Lemma recommend_for_user_defaults_to_hybrid_witness :
  BookRecommendationSystem.recommend_for_user reference example_system 1%Z 2 "Hybrid"
  = BookRecommendationSystem.recommend_for_user reference example_system 1%Z 2 "hybrid"
  /\ BookRecommendationSystem.recommend_by_isbn reference example_system "A" 2 "Hybrid"
     = Raised (ValueError "Unknown method: Hybrid").
Proof.
  split; [|reflexivity].
  apply (recommend_for_user_defaults_to_hybrid reference example_system 1%Z 2 "Hybrid");
    discriminate.
Defined.

(** ** The user-item matrix and the filtered rating log *)

(** X14.  The user-item matrix built from a rating log has one row per
    distinct ISBN of the log and one column per distinct user of the log,
    neither axis repeating a label, and it is rectangular: as many rows of
    values as ISBNs, each with one value per user. *)
Theorem user_item_matrix_shape :
  forall log : list Rating,
    let m := CollaborativeRecommender.pivot_table log in
    NoDup (uim_index m)
    /\ NoDup (uim_columns m)
    /\ (forall i, In i (uim_index m) <-> exists r, In r log /\ rt_ISBN r = i)
    /\ (forall u, In u (uim_columns m) <-> exists r, In r log /\ rt_User_ID r = u)
    /\ length (uim_values m) = length (uim_index m)
    /\ Forall (fun row => length row = length (uim_columns m)) (uim_values m).
Proof.
  intros log. simpl. unfold sorted_asc. repeat split.
  - eapply Permutation_NoDup; [symmetry; apply stable_sort_perm|apply NoDup_nodup].
  - eapply Permutation_NoDup; [symmetry; apply stable_sort_perm|apply NoDup_nodup].
  - intros H. apply stable_sort_In, nodup_In, in_map_iff in H.
    destruct H as [r [E Hr]]. exists r. auto.
  - intros [r [Hr E]]. apply stable_sort_In, nodup_In, in_map_iff. exists r. auto.
  - intros H. apply stable_sort_In, nodup_In, in_map_iff in H.
    destruct H as [r [E Hr]]. exists r. auto.
  - intros [r [Hr E]]. apply stable_sort_In, nodup_In, in_map_iff. exists r. auto.
  - apply length_map.
  - apply Forall_forall. intros row Hrow. apply in_map_iff in Hrow.
    destruct Hrow as [i [<- _]]. apply length_map.
Qed.

Lemma Qsum_bounds (lo hi : Q) (l : list Q) :
  (forall q, In q l -> (lo <= q)%Q /\ (q <= hi)%Q) ->
  (lo * inject_Z (Z.of_nat (length l)) <= Qsum l)%Q
  /\ (Qsum l <= hi * inject_Z (Z.of_nat (length l)))%Q.
Proof.
  induction l as [|q l IH]; intros H.
  - simpl. split; rewrite Qmult_0_r; apply Qle_refl.
  - destruct (IH (fun x Hx => H x (or_intror Hx))) as [IH1 IH2].
    destruct (H q (or_introl eq_refl)) as [H1 H2].
    cbn [length Qsum fold_right]. fold (Qsum l).
    rewrite Nat2Z.inj_succ, <- Z.add_1_r, inject_Z_plus.
    rewrite !Qmult_plus_distr_r, !Qmult_1_r. split.
    + rewrite (Qplus_comm q). now apply Qplus_le_compat.
    + rewrite (Qplus_comm q). now apply Qplus_le_compat.
Qed.




Lemma filter_all {A : Type} (p : A -> bool) (l : list A) :
  (forall x, In x l -> p x = true) -> filter p l = l.
Proof.
  induction l as [|a l IH]; simpl; intros H; [reflexivity|].
  rewrite (H a (or_introl eq_refl)). f_equal. apply IH. auto.
Qed.

Lemma filter_length_pos {A : Type} (p : A -> bool) (l : list A) (x : A) :
  In x l -> p x = true -> 1 <= length (filter p l).
Proof.
  intros Hx Hp.
  assert (H : In x (filter p l)) by (apply filter_In; auto).
  destruct (filter p l); [contradiction|simpl; lia].
Qed.

(** X16.  With both thresholds at 1 or below, [get_filtered_ratings] keeps
    the whole rating log: every row's book and user have at least that one
    row. *)
Theorem get_filtered_ratings_keeps_all_at_threshold_1 :
  forall (book_rating_merged : list Rating) (min_book_ratings min_user_ratings : Z),
    (min_book_ratings <= 1)%Z -> (min_user_ratings <= 1)%Z ->
    get_filtered_ratings book_rating_merged min_book_ratings min_user_ratings
    = book_rating_merged.
Proof.
  intros log mb mu Hb Hu. unfold get_filtered_ratings.
  apply filter_all. intros r Hr. apply andb_true_iff. split; apply Z.leb_le.
  - pose proof (filter_length_pos (fun x => String.eqb (rt_ISBN x) (rt_ISBN r))
                  log r Hr (String.eqb_refl _)). lia.
  - pose proof (filter_length_pos (fun x => Z.eqb (rt_User_ID x) (rt_User_ID r))
                  log r Hr (Z.eqb_refl _)). lia.
Qed.

Lemma get_filtered_ratings_keeps_all_at_threshold_1_witness :
  get_filtered_ratings example_ratings 1%Z 0%Z = example_ratings.
Proof.
  apply (get_filtered_ratings_keeps_all_at_threshold_1 example_ratings 1%Z 0%Z); lia.
Defined.

(** X17.  Which books the collaborative engine knows.  Built from the log
    that [get_filtered_ratings] keeps, the engine has in its index exactly
    the ISBNs with at least [min_book_ratings] rows in the full log that
    were rated by some user with at least [min_user_ratings] rows in the
    full log.  In particular a book with fewer ratings than
    [min_book_ratings] gets the empty frame from
    [CollaborativeRecommender.recommend], for every [n]. *)
Theorem collaborative_index_is_the_filtered_books :
  forall (I : Implementation) (book_rating_merged : list Rating)
         (min_book_ratings min_user_ratings : Z) (books_with_rating : list Book)
         (c : CollaborativeRecommender.self) (isbn : string) (n : nat),
    CollaborativeRecommender._build_model I
      (get_filtered_ratings book_rating_merged min_book_ratings min_user_ratings)
      books_with_rating = Returned c ->
    (forall i,
       In i (sim_index (CollaborativeRecommender.item_similarity_df c)) <->
       exists r,
         In r book_rating_merged /\ rt_ISBN r = i
         /\ (min_book_ratings <= number_of_ratings book_rating_merged i)%Z
         /\ (min_user_ratings
             <= Z.of_nat (length (ratings_of book_rating_merged (rt_User_ID r))))%Z)
    /\ ((number_of_ratings book_rating_merged isbn < min_book_ratings)%Z ->
        CollaborativeRecommender.recommend I c isbn n = Returned empty_DataFrame).
Proof.
  intros I log mb mu books c isbn n Hb.
  unfold CollaborativeRecommender._build_model in Hb.
  destruct (cosine_similarity I _) as [m|e]; [|discriminate].
  simpl in Hb. injection Hb as <-.
  assert (Hidx : forall i,
            In i (sorted_asc String.leb
                    (nodup string_dec (map rt_ISBN (get_filtered_ratings log mb mu))))
            <-> exists r,
                  In r log /\ rt_ISBN r = i
                  /\ (mb <= number_of_ratings log i)%Z
                  /\ (mu <= Z.of_nat (length (ratings_of log (rt_User_ID r))))%Z).
  { intros i. unfold sorted_asc. rewrite stable_sort_In, nodup_In, in_map_iff.
    unfold get_filtered_ratings, ratings_of. split.
    - intros [r [E Hr]]. apply filter_In in Hr. destruct Hr as [Hr Hp].
      apply andb_true_iff in Hp. destruct Hp as [H1 H2].
      apply Z.leb_le in H1, H2. rewrite count_filter_ISBN, E in H1.
      exists r. auto.
    - intros [r [Hr [E [H1 H2]]]]. exists r. split; [exact E|].
      apply filter_In. split; [exact Hr|].
      apply andb_true_iff. rewrite count_filter_ISBN, E.
      split; now apply Z.leb_le. }
  split; [exact Hidx|].
  intros Hfew. apply recommend_similar_absent. simpl.
  intros Hin. apply Hidx in Hin. destruct Hin as [r [_ [_ [H1 _]]]]. lia.
Qed.

Lemma collaborative_index_is_the_filtered_books_witness :
  exists c,
    CollaborativeRecommender._build_model reference
      (get_filtered_ratings example_ratings 2%Z 1%Z) example_books = Returned c
    /\ sim_index (CollaborativeRecommender.item_similarity_df c) = ["A"; "C"]
    /\ CollaborativeRecommender.recommend reference c "B" 5 = Returned empty_DataFrame.
Proof.
  eexists. split; [reflexivity|]. split; [reflexivity|].
  apply (proj2 (collaborative_index_is_the_filtered_books reference example_ratings
                  2%Z 1%Z example_books _ "B" 5 eq_refl)).
  vm_compute. reflexivity.
Defined.

(** ** The content engine and the catalog table *)

Lemma setitem_Content_idempotent (books : list Book) :
  ContentRecommender.setitem_Content (ContentRecommender.setitem_Content books)
  = ContentRecommender.setitem_Content books.
Proof.
  unfold ContentRecommender.setitem_Content. rewrite map_map.
  apply map_ext. reflexivity.
Qed.

Lemma with_Content_idempotent (t : Store.Table) :
  Store.Content.with_Content (Store.Content.with_Content t)
  = Store.Content.with_Content t.
Proof.
  unfold Store.Content.with_Content. simpl.
  rewrite setitem_Content_idempotent. f_equal.
  destruct (isin "Content" (Store.extra_columns t)) eqn:E; [now rewrite E|].
  assert (H : isin "Content" (Store.extra_columns t ++ ["Content"]) = true).
  { apply isin_In, in_or_app. right. now left. }
  now rewrite H.
Qed.

(** X18.  The content engine changes the catalog table only the first time
    it is built over it: a second [ContentRecommender] constructed on the
    same table (on the store the first construction left) adds no second
    [Content] column and leaves every object of that store as it is, the
    catalog table included. *)
Theorem content_engine_built_again_changes_nothing :
  forall (I : Implementation) (h : Store.heap) (books_with_rating : Store.loc)
         (t : Store.Table),
    nth_error h books_with_rating = Some (Store.OTable t) ->
    let h1 := snd (Store.Content.__init__ I books_with_rating h) in
    let h2 := snd (Store.Content.__init__ I books_with_rating h1) in
    nth_error h1 books_with_rating
    = Some (Store.OTable (Store.Content.with_Content t))
    /\ forall l, l < length h1 -> nth_error h2 l = nth_error h1 l.
Proof.
  intros I h lb t Ht.
  assert (Hlb : lb < length h) by (apply nth_error_Some; congruence).
  destruct (content_init_store I h lb t Ht) as [r1 [ext1 [Hrun1 _]]].
  simpl. rewrite Hrun1. simpl.
  set (h1 := Store.update lb (Store.OTable (Store.Content.with_Content t)) h ++ ext1).
  assert (H1 : nth_error h1 lb = Some (Store.OTable (Store.Content.with_Content t))).
  { unfold h1. apply nth_error_old. now apply update_same. }
  split; [exact H1|].
  destruct (content_init_store I h1 lb _ H1) as [r2 [ext2 [Hrun2 _]]].
  rewrite Hrun2. simpl. rewrite with_Content_idempotent.
  intros l Hl. rewrite nth_error_app1 by (rewrite update_length; exact Hl).
  destruct (Nat.eq_dec l lb) as [->|Hne].
  - rewrite H1. apply update_same. apply nth_error_Some. congruence.
  - now apply update_other.
Qed.

Lemma content_engine_built_again_changes_nothing_witness :
  nth_error
    (snd (Store.Content.__init__ reference 0
            (snd (Store.Content.__init__ reference 0 example_store)))) 0
  = nth_error (snd (Store.Content.__init__ reference 0 example_store)) 0.
Proof.
  apply (proj2 (content_engine_built_again_changes_nothing reference example_store 0
                  {| Store.extra_columns := []; Store.table_rows := example_books |}
                  eq_refl)).
  vm_compute. lia.
Defined.

(** ** Recommendations by title *)

(** X19.  When no catalog title matches the search, [recommend_by_title]
    returns the column-less empty frame, for every [n] and every method
    string: the method is not looked at, so even an unknown method raises
    nothing here.  Rows without a title never match. *)
Theorem title_without_match_returns_empty_frame :
  forall (I : Implementation) (s : BookRecommendationSystem.self)
         (search : string -> bool) (n : nat) (method : string),
    Forall (fun b => forall t, Book_Title b = Some t -> search t = false)
           (BookRecommendationSystem.books_with_rating s) ->
    recommend_by_title I s search n method = Returned empty_DataFrame.
Proof.
  intros I s search n method H. unfold recommend_by_title.
  rewrite filter_none; [reflexivity|].
  rewrite Forall_forall in H. intros b Hb. specialize (H b Hb).
  unfold str_contains. destruct (Book_Title b); auto.
Qed.

Lemma title_without_match_returns_empty_frame_witness :
  recommend_by_title reference example_system (String.eqb "Delta") 5 "no such method"
  = Returned empty_DataFrame.
Proof.
  apply (title_without_match_returns_empty_frame reference example_system
           (String.eqb "Delta") 5 "no such method").
  repeat constructor; simpl; intros t E; injection E as <-; reflexivity.
Defined.

(** X20.  When some title matches, [recommend_by_title] answers as
    [recommend_by_isbn] does for the first matching row of the catalog, in
    catalog order: later matches play no role, and the method is checked
    only now (an unknown one raises [ValueError]). *)
Theorem title_resolves_to_first_matching_book :
  forall (I : Implementation) (s : BookRecommendationSystem.self)
         (search : string -> bool) (n : nat) (method : string)
         (before after : list Book) (b : Book) (title : string),
    BookRecommendationSystem.books_with_rating s = before ++ b :: after ->
    Forall (fun b' => forall t, Book_Title b' = Some t -> search t = false) before ->
    Book_Title b = Some title ->
    search title = true ->
    recommend_by_title I s search n method
    = BookRecommendationSystem.recommend_by_isbn I s (ISBN b) n method.
Proof.
  intros I s search n method before after b title Hcat Hbefore Ht Hs.
  unfold recommend_by_title. rewrite Hcat, filter_app.
  rewrite (filter_none _ before).
  - simpl. unfold str_contains at 1. rewrite Ht, Hs. reflexivity.
  - rewrite Forall_forall in Hbefore. intros b' Hb'. specialize (Hbefore b' Hb').
    unfold str_contains. destruct (Book_Title b'); auto.
Qed.

Lemma title_resolves_to_first_matching_book_witness :
  recommend_by_title reference example_system
    (fun t => String.eqb t "Beta" || String.eqb t "Gamma") 1 "content"
  = BookRecommendationSystem.recommend_by_isbn reference example_system "B" 1 "content"
  /\ recommend_by_title reference example_system
       (fun t => String.eqb t "Beta" || String.eqb t "Gamma") 1 "Content"
     = Raised (ValueError "Unknown method: Content").
Proof.
  split.
  - apply (title_resolves_to_first_matching_book reference example_system
             (fun t => String.eqb t "Beta" || String.eqb t "Gamma") 1 "content"
             [example_book "A" "Alpha" (75 # 10)%Q]
             [example_book "C" "Gamma" (25 # 10)%Q]
             (example_book "B" "Beta" 9%Q) "Beta"); try reflexivity.
    repeat constructor. simpl. intros t E. injection E as <-. reflexivity.
  - reflexivity.
Defined.

(** ** The data loader *)

Lemma preprocess_books_cons (parse : string -> option Q)
    (b : BookRecord YearCell) (books : list (BookRecord YearCell)) :
  DataLoader.preprocess_books parse (b :: books)
  = (if notna (bk_Book_Author b) && notna (bk_Publisher b) && notna (bk_Image_URL_L b)
     then match to_numeric parse (bk_Year_Of_Publication b) with
          | Some y => if valid_year y then [with_year b y] else []
          | None => []
          end
     else [])
    ++ DataLoader.preprocess_books parse books.
Proof.
  unfold DataLoader.preprocess_books. simpl.
  destruct (notna (bk_Book_Author b) && notna (bk_Publisher b)
            && notna (bk_Image_URL_L b)); [|reflexivity].
  simpl. destruct (to_numeric parse (bk_Year_Of_Publication b)) as [y|];
    [|reflexivity].
  destruct (valid_year y); reflexivity.
Qed.

Lemma preprocess_books_In (parse : string -> option Q)
    (books : list (BookRecord YearCell)) (b : BookRecord Q) :
  In b (DataLoader.preprocess_books parse books) <->
  exists raw,
    In raw books /\
    notna (bk_Book_Author raw) && notna (bk_Publisher raw)
    && notna (bk_Image_URL_L raw) = true /\
    to_numeric parse (bk_Year_Of_Publication raw) = Some (bk_Year_Of_Publication b) /\
    valid_year (bk_Year_Of_Publication b) = true /\
    b = with_year raw (bk_Year_Of_Publication b).
Proof.
  induction books as [|x books IH].
  - simpl. split; [tauto|]. intros [raw [[] _]].
  - rewrite preprocess_books_cons, in_app_iff, IH. split.
    + intros [H|[raw [Hraw H]]]; [|exists raw; simpl; tauto].
      destruct (notna (bk_Book_Author x) && notna (bk_Publisher x)
                && notna (bk_Image_URL_L x)) eqn:E1; [|contradiction].
      destruct (to_numeric parse (bk_Year_Of_Publication x)) as [y|] eqn:E2;
        [|contradiction].
      destruct (valid_year y) eqn:E3; [|contradiction].
      destruct H as [<-|[]]. exists x. simpl. rewrite E1, E2, E3. auto.
    + intros [raw [[->|Hraw] [E1 [E2 [E3 E4]]]]].
      * left. rewrite E1, E2, E3. left. now symmetry.
      * right. exists raw. auto.
Qed.

Lemma preprocess_books_ISBN_NoDup (parse : string -> option Q)
    (books : list (BookRecord YearCell)) :
  NoDup (map bk_ISBN books) ->
  NoDup (map bk_ISBN (DataLoader.preprocess_books parse books)).
Proof.
  induction books as [|x books IH]; intros Hnd; [constructor|].
  simpl in Hnd. apply NoDup_cons_iff in Hnd. destruct Hnd as [Hx Hnd].
  rewrite preprocess_books_cons.
  assert (Hrest : ~ In (bk_ISBN x)
                    (map bk_ISBN (DataLoader.preprocess_books parse books))).
  { intros C. apply in_map_iff in C. destruct C as [b [E Hb]].
    apply preprocess_books_In in Hb. destruct Hb as [raw [Hraw [_ [_ [_ E4]]]]].
    rewrite E4 in E. simpl in E. apply Hx. apply in_map_iff. exists raw. auto. }
  destruct (notna (bk_Book_Author x) && notna (bk_Publisher x)
            && notna (bk_Image_URL_L x)); [|now apply IH].
  destruct (to_numeric parse (bk_Year_Of_Publication x)) as [y|]; [|now apply IH].
  destruct (valid_year y); [|now apply IH].
  simpl. constructor; [exact Hrest|now apply IH].
Qed.

Lemma preprocess_ratings_In (ratings : list Rating) (books : list (BookRecord Q))
    (r : Rating) :
  In r (DataLoader.preprocess_ratings ratings books) <->
  In r ratings /\ In (rt_ISBN r) (map bk_ISBN books).
Proof.
  unfold DataLoader.preprocess_ratings. rewrite in_flat_map. split.
  - intros [r' [Hr' H]]. apply in_map_iff in H. destruct H as [b [<- Hb]].
    apply filter_In in Hb. destruct Hb as [Hb E]. apply String.eqb_eq in E.
    split; [exact Hr'|]. rewrite E. now apply in_map.
  - intros [Hr H]. apply in_map_iff in H. destruct H as [b [E Hb]].
    exists r. split; [exact Hr|]. apply in_map_iff. exists b.
    split; [reflexivity|]. apply filter_In. split; [exact Hb|].
    apply String.eqb_eq. now symmetry.
Qed.

Lemma drop_duplicate_keys_NoDup (seen : list string) (l : list (string * Q)) :
  NoDup (map fst l) -> (forall k, In k (map fst l) -> ~ In k seen) ->
  drop_duplicate_keys_from seen l = l.
Proof.
  revert seen. induction l as [|kv l IH]; intros seen Hnd Hseen; [reflexivity|].
  simpl in *. apply NoDup_cons_iff in Hnd. destruct Hnd as [Hk Hnd].
  rewrite (proj2 (isin_false (fst kv) seen) (Hseen _ (or_introl eq_refl))).
  f_equal. apply IH; [exact Hnd|].
  intros k Hin [<-|C]; [contradiction|]. now apply (Hseen k (or_intror Hin)).
Qed.

(** The catalog, row by row: the books that have a rating, each with its
    rounded mean rating. *)
Lemma create_books_with_rating_rows (books : list (BookRecord Q))
    (log : list Rating) :
  DataLoader.create_books_with_rating books log
  = map (fun b =>
           mkBook (bk_ISBN b) (bk_Book_Title b) (bk_Book_Author b)
                  (round_1 (mean (ratings_for log (bk_ISBN b))))
                  (bk_Year_Of_Publication b) (bk_Publisher b)
                  (bk_Image_URL_S b) (bk_Image_URL_M b) (bk_Image_URL_L b) None)
        (filter (fun b => isin (bk_ISBN b) (map rt_ISBN log)) books).
Proof.
  unfold DataLoader.create_books_with_rating.
  set (keys := sorted_asc String.leb (nodup string_dec (map rt_ISBN log))).
  assert (Hnd : NoDup keys).
  { unfold keys, sorted_asc. eapply Permutation_NoDup.
    - symmetry. apply stable_sort_perm.
    - apply NoDup_nodup. }
  assert (Hin : forall i, In i keys <-> In i (map rt_ISBN log)).
  { intros i. unfold keys, sorted_asc. rewrite stable_sort_In. apply nodup_In. }
  rewrite drop_duplicate_keys_NoDup.
  - induction books as [|b books IH]; [reflexivity|].
    cbn [flat_map filter]. rewrite IH.
    rewrite (filter_key_map _ (bk_ISBN b) keys Hnd).
    destruct (in_dec string_dec (bk_ISBN b) keys) as [Hk|Hk].
    + rewrite (proj2 (isin_In _ _) (proj1 (Hin _) Hk)). reflexivity.
    + assert (E : isin (bk_ISBN b) (map rt_ISBN log) = false).
      { apply isin_false. now rewrite <- Hin. }
      rewrite E. reflexivity.
  - rewrite map_map. simpl. now rewrite map_id.
  - intros k _ [].
Qed.

Lemma notna_Some {A : Type} (c : option A) : notna c = true -> c <> None.
Proof. destruct c; [discriminate|discriminate]. Qed.

Lemma valid_year_range (y : Q) :
  valid_year y = true -> (1900 <= y)%Q /\ (y <= 2025)%Q.
Proof.
  unfold valid_year. intros H.
  apply andb_true_iff in H. destruct H as [H _].
  apply andb_true_iff in H. destruct H as [H1 H2].
  split; now apply Qle_bool_iff.
Qed.

(** What [process_all] leaves in the loader. *)
Lemma loaded_tables (parse : string -> option Q)
    (raw_books : list (BookRecord YearCell)) (users : list User)
    (ratings : list Rating) (d : DataLoader.self) :
  DataLoader.process_all parse (Some (raw_books, users, ratings)) = Some d ->
  Forall (fun b =>
            Book_Author b <> None /\ Publisher b <> None /\ Image_URL_L b <> None
            /\ (1900 <= Year_Of_Publication b)%Q /\ (Year_Of_Publication b <= 2025)%Q
            /\ Content b = None
            /\ (1 <= number_of_ratings (DataLoader.book_rating_merged d) (ISBN b))%Z
            /\ Average_Rating b
               = round_1 (mean (ratings_for (DataLoader.book_rating_merged d) (ISBN b))))
         (DataLoader.books_with_rating d)
  /\ Forall (fun r =>
               In r ratings
               /\ In (rt_ISBN r) (map ISBN (DataLoader.books_with_rating d)))
            (DataLoader.book_rating_merged d)
  /\ (NoDup (map bk_ISBN raw_books) ->
      NoDup (map ISBN (DataLoader.books_with_rating d))).
Proof.
  intros H. simpl in H. injection H as <-. simpl.
  set (books := DataLoader.preprocess_books parse raw_books).
  set (log := DataLoader.preprocess_ratings ratings books).
  rewrite create_books_with_rating_rows. split; [|split].
  - apply Forall_forall. intros b Hb. apply in_map_iff in Hb.
    destruct Hb as [bk [<- Hbk]]. apply filter_In in Hbk.
    destruct Hbk as [Hbk Hrated]. simpl.
    apply preprocess_books_In in Hbk.
    destruct Hbk as [raw [_ [Hna [_ [Hy E]]]]].
    apply andb_true_iff in Hna. destruct Hna as [Hna H3].
    apply andb_true_iff in Hna. destruct Hna as [H1 H2].
    apply valid_year_range in Hy. rewrite E. simpl.
    repeat split; try (now apply notna_Some); try tauto.
    apply isin_In in Hrated. rewrite E in Hrated. simpl in Hrated.
    apply (count_occ_In string_dec) in Hrated. unfold number_of_ratings. lia.
  - apply Forall_forall. intros r Hr.
    pose proof Hr as Hr'. apply preprocess_ratings_In in Hr'.
    destruct Hr' as [Hin Hisbn]. split; [exact Hin|].
    rewrite map_map. simpl. apply in_map_iff in Hisbn.
    destruct Hisbn as [bk [E Hbk]]. apply in_map_iff. exists bk.
    split; [exact E|]. apply filter_In. split; [exact Hbk|].
    apply isin_In. rewrite E. now apply in_map.
  - intros Hnd. rewrite map_map. simpl.
    apply (selected_rows_distinct bk_ISBN).
    now apply preprocess_books_ISBN_NoDup.
Qed.

(** X21.  What [process_all] guarantees of the two tables the recommenders
    are built from.  Every catalog row has an author, a publisher and a
    large image URL, a year of publication between 1900 and 2025, no
    [Content] cell yet, at least one rating in the merged log, and as
    Average-Rating the mean of these ratings rounded to one decimal; every
    row of the merged log is a row of the rating table whose book has a
    catalog row; and the catalog has one row per ISBN when the books file
    has. *)
Theorem process_all_establishes_the_catalog :
  forall (parse : string -> option Q) (raw_books : list (BookRecord YearCell))
         (users : list User) (ratings : list Rating) (d : DataLoader.self),
    DataLoader.process_all parse (Some (raw_books, users, ratings)) = Some d ->
    Forall (fun b =>
              Book_Author b <> None /\ Publisher b <> None /\ Image_URL_L b <> None
              /\ (1900 <= Year_Of_Publication b)%Q
              /\ (Year_Of_Publication b <= 2025)%Q
              /\ Content b = None
              /\ (1 <= number_of_ratings (DataLoader.book_rating_merged d) (ISBN b))%Z
              /\ Average_Rating b
                 = round_1 (mean (ratings_for (DataLoader.book_rating_merged d)
                                              (ISBN b))))
           (DataLoader.books_with_rating d)
    /\ Forall (fun r =>
                 In r ratings
                 /\ In (rt_ISBN r) (map ISBN (DataLoader.books_with_rating d)))
              (DataLoader.book_rating_merged d)
    /\ (NoDup (map bk_ISBN raw_books) ->
        NoDup (map ISBN (DataLoader.books_with_rating d))).
Proof.
  intros parse raw_books users ratings d H.
  exact (loaded_tables parse raw_books users ratings d H).
Qed.

Lemma process_all_establishes_the_catalog_witness :
  exists d,
    DataLoader.process_all example_parse
      (Some (example_raw_books, example_users, example_rating_table)) = Some d
    /\ map ISBN (DataLoader.books_with_rating d) = ["A"; "B"; "C"]
    /\ map Average_Rating (DataLoader.books_with_rating d)
       = [(75 # 10)%Q; (90 # 10)%Q; (25 # 10)%Q]
    /\ DataLoader.book_rating_merged d = example_ratings
    /\ NoDup (map ISBN (DataLoader.books_with_rating d)).
Proof.
  eexists. split; [reflexivity|]. split; [reflexivity|].
  split; [vm_compute; reflexivity|]. split; [reflexivity|].
  apply (proj2 (proj2 (process_all_establishes_the_catalog example_parse
                         example_raw_books example_users example_rating_table
                         _ eq_refl))).
  simpl. repeat constructor; simpl; intuition discriminate.
Defined.

(** X22.  Over the tables that [process_all] leaves, the popularity ranking
    with [min_ratings] at 1 or below lists the whole catalog, up to [n]
    rows: every catalog book has a rating, so the inner join with the
    rating counts and the threshold drop nothing. *)
Theorem popularity_ranks_the_whole_loaded_catalog :
  forall (parse : string -> option Q) (raw_books : list (BookRecord YearCell))
         (users : list User) (ratings : list Rating) (d : DataLoader.self)
         (n : nat) (min_ratings : Z),
    DataLoader.process_all parse (Some (raw_books, users, ratings)) = Some d ->
    (min_ratings <= 1)%Z ->
    length (rows (PopularityRecommender.recommend
                    (PopularityRecommender.mkSelf (DataLoader.books_with_rating d)
                                                  (DataLoader.book_rating_merged d))
                    n min_ratings))
    = Nat.min n (length (DataLoader.books_with_rating d)).
Proof.
  intros parse raw_books users ratings d n m H Hm.
  destruct (loaded_tables parse raw_books users ratings d H) as [Hcat _].
  rewrite popularity_recommend_ranked. simpl.
  rewrite length_firstn, length_map, stable_sort_length, length_map.
  rewrite filter_all; [reflexivity|].
  rewrite Forall_forall in Hcat. intros b Hb.
  destruct (Hcat b Hb) as [_ [_ [_ [_ [_ [_ [Hr _]]]]]]].
  unfold ranked. apply andb_true_iff. split; apply Z.leb_le; lia.
Qed.

Lemma popularity_ranks_the_whole_loaded_catalog_witness :
  exists d,
    DataLoader.process_all example_parse
      (Some (example_raw_books, example_users, example_rating_table)) = Some d
    /\ length (rows (PopularityRecommender.recommend
                       (PopularityRecommender.mkSelf (DataLoader.books_with_rating d)
                                                     (DataLoader.book_rating_merged d))
                       10 0%Z))
       = Nat.min 10 (length (DataLoader.books_with_rating d)).
Proof.
  eexists. split; [reflexivity|].
  apply (popularity_ranks_the_whole_loaded_catalog example_parse example_raw_books
           example_users example_rating_table _ 10 0%Z eq_refl).
  lia.
Defined.

Lemma unique_row (books : list Book) (i : string) :
  NoDup (map ISBN books) -> In i (map ISBN books) ->
  length (filter (fun b => String.eqb (ISBN b) i) books) = 1.
Proof.
  induction books as [|b books IH]; simpl; intros Hnd Hin; [contradiction|].
  apply NoDup_cons_iff in Hnd. destruct Hnd as [Hb Hnd].
  destruct (String.eqb_spec (ISBN b) i) as [E|E].
  - simpl. f_equal. rewrite filter_none; [reflexivity|].
    intros b' Hb'. apply String.eqb_neq. intros C. apply Hb.
    rewrite E, <- C. now apply in_map.
  - destruct Hin as [C|Hin]; [contradiction|]. now apply IH.
Qed.

(** X23.  Over the tables that [process_all] leaves, from a books file
    with one row per ISBN, the collaborative engine answers every seed of
    its index: [recommend] raises nothing and returns exactly [n] rows, or
    one row for every other book of the index if these are fewer than
    [n].  Every book of the index has its one catalog row, since the
    filtered log is part of the merged log and the catalog holds every
    book rated there. *)
Theorem collaborative_engine_answers_on_loaded_data :
  forall (I : Implementation) (parse : string -> option Q)
         (raw_books : list (BookRecord YearCell)) (users : list User)
         (ratings : list Rating) (d : DataLoader.self)
         (min_book_ratings min_user_ratings : Z)
         (c : CollaborativeRecommender.self) (isbn : string) (n : nat),
    Lawful I ->
    DataLoader.process_all parse (Some (raw_books, users, ratings)) = Some d ->
    NoDup (map bk_ISBN raw_books) ->
    CollaborativeRecommender._build_model I
      (get_filtered_ratings (DataLoader.book_rating_merged d)
                            min_book_ratings min_user_ratings)
      (DataLoader.books_with_rating d) = Returned c ->
    In isbn (sim_index (CollaborativeRecommender.item_similarity_df c)) ->
    exists df,
      CollaborativeRecommender.recommend I c isbn n = Returned df
      /\ length (rows df)
         = Nat.min n
             (length (sim_index (CollaborativeRecommender.item_similarity_df c)) - 1).
Proof.
  intros I parse raw_books users ratings d mb mu c isbn n L Hd Hraw Hc Hin.
  destruct (loaded_tables parse raw_books users ratings d Hd) as [_ [Hlog Hnd]].
  specialize (Hnd Hraw).
  pose proof (collaborative_index_NoDup I _ _ c Hc) as Hidx.
  assert (Hone : one_row_per_ISBN (CollaborativeRecommender.books_with_rating c)
                   (sim_index (CollaborativeRecommender.item_similarity_df c))).
  { unfold CollaborativeRecommender._build_model in Hc.
    destruct (cosine_similarity I _) as [m|e]; [|discriminate].
    simpl in Hc. injection Hc as <-. simpl.
    intros i Hi. apply unique_row; [exact Hnd|].
    unfold sorted_asc in Hi. apply stable_sort_In, nodup_In, in_map_iff in Hi.
    destruct Hi as [r [<- Hr]]. unfold get_filtered_ratings in Hr.
    apply filter_In in Hr. destruct Hr as [Hr _].
    rewrite Forall_forall in Hlog. now apply Hlog. }
  destruct (recommend_similar_length I _ _ isbn n Hidx Hin Hone) as [df [Hdf Hlen]].
  exists df. split; [exact Hdf|]. rewrite Hlen. unfold others.
  now rewrite remove_label_length.
Qed.

Lemma collaborative_engine_answers_on_loaded_data_witness :
  exists d c df,
    DataLoader.process_all example_parse
      (Some (example_raw_books, example_users, example_rating_table)) = Some d
    /\ CollaborativeRecommender._build_model reference
         (get_filtered_ratings (DataLoader.book_rating_merged d) 1%Z 1%Z)
         (DataLoader.books_with_rating d) = Returned c
    /\ CollaborativeRecommender.recommend reference c "A" 5 = Returned df
    /\ length (rows df) = 2.
Proof.
  unshelve refine (let H := collaborative_engine_answers_on_loaded_data reference example_parse
                      example_raw_books example_users example_rating_table _ 1%Z 1%Z
                      _ "A" 5 reference_lawful eq_refl _ eq_refl _ in _).
  - simpl. repeat constructor; simpl; intuition discriminate.
  - simpl. auto.
  - destruct H as [df [Hdf Hlen]].
    eexists. eexists. exists df. split; [reflexivity|]. split; [reflexivity|].
    split; [exact Hdf|exact Hlen].
Defined.

(** ** Rounding the average rating *)

Local Open Scope Q_scope.

Lemma rint_cases (q : Q) :
  (rint q = Qfloor q /\ (q - inject_Z (Qfloor q) <= 1 # 2)%Q)
  \/ (rint q = (Qfloor q + 1)%Z /\ (1 # 2 <= q - inject_Z (Qfloor q))%Q).
Proof.
  unfold rint.
  destruct (Qcompare_spec (q - inject_Z (Qfloor q)) (1 # 2)) as [E|E|E].
  - destruct (Z.even (Qfloor q)).
    + left. split; [reflexivity|]. rewrite E. apply Qle_refl.
    + right. split; [reflexivity|]. rewrite E. apply Qle_refl.
  - left. split; [reflexivity|]. now apply Qlt_le_weak.
  - right. split; [reflexivity|]. now apply Qlt_le_weak.
Qed.

Lemma rint_error (q : Q) :
  inject_Z (rint q) - q <= 1 # 2 /\ q - inject_Z (rint q) <= 1 # 2.
Proof.
  pose proof (Qfloor_le q) as H1. pose proof (Qlt_floor q) as H2.
  rewrite inject_Z_plus in H2. change (inject_Z 1) with 1 in H2.
  destruct (rint_cases q) as [[-> H]|[-> H]].
  - split; lra.
  - rewrite inject_Z_plus. change (inject_Z 1) with 1. split; lra.
Qed.

Lemma rint_ge_Z (q : Q) (a : Z) : inject_Z a <= q -> (a <= rint q)%Z.
Proof.
  intros H. apply Qfloor_resp_le in H. rewrite Qfloor_Z in H.
  destruct (rint_cases q) as [[-> _]|[-> _]]; lia.
Qed.

Lemma rint_le_Z (q : Q) (a : Z) : q <= inject_Z a -> (rint q <= a)%Z.
Proof.
  intros H. pose proof (Qfloor_le q) as H1.
  destruct (rint_cases q) as [[-> _]|[-> Hh]].
  - rewrite Zle_Qle. lra.
  - assert (Hlt : inject_Z (Qfloor q) < inject_Z a) by lra.
    rewrite <- Zlt_Qlt in Hlt. lia.
Qed.

Lemma round_1_error (q : Q) :
  round_1 q - q <= 1 # 20 /\ q - round_1 q <= 1 # 20.
Proof.
  unfold round_1. destruct (rint_error (q * 10)) as [H1 H2].
  set (z := inject_Z (rint (q * 10))) in *.
  unfold Qdiv. change (/ 10) with (1 # 10). split; lra.
Qed.

Lemma round_1_range (q : Q) (lo hi : Z) :
  inject_Z lo <= q -> q <= inject_Z hi ->
  inject_Z lo <= round_1 q /\ round_1 q <= inject_Z hi.
Proof.
  intros Hlo Hhi. unfold round_1.
  assert (H1 : (lo * 10 <= rint (q * 10))%Z).
  { apply rint_ge_Z. rewrite inject_Z_mult. change (inject_Z 10) with 10. lra. }
  assert (H2 : (rint (q * 10) <= hi * 10)%Z).
  { apply rint_le_Z. rewrite inject_Z_mult. change (inject_Z 10) with 10. lra. }
  rewrite Zle_Qle, inject_Z_mult in H1, H2. change (inject_Z 10) with 10 in *.
  set (z := inject_Z (rint (q * 10))) in *.
  unfold Qdiv. change (/ 10) with (1 # 10). split; lra.
Qed.

Local Close Scope Q_scope.

Lemma mean_bounds (l : list Z) (lo hi : Z) :
  l <> [] ->
  (forall z, In z l -> (lo <= z)%Z /\ (z <= hi)%Z) ->
  (inject_Z lo <= mean l)%Q /\ (mean l <= inject_Z hi)%Q.
Proof.
  intros Hne Hall. unfold mean.
  assert (Hpos : (0 < inject_Z (Z.of_nat (length l)))%Q).
  { change 0%Q with (inject_Z 0). rewrite <- Zlt_Qlt.
    destruct l; [contradiction|simpl; lia]. }
  destruct (Qsum_bounds (inject_Z lo) (inject_Z hi) (map inject_Z l)) as [B1 B2].
  { intros q Hq. apply in_map_iff in Hq. destruct Hq as [z [<- Hz]].
    destruct (Hall z Hz). rewrite <- !Zle_Qle. auto. }
  rewrite length_map in B1, B2. split.
  - now apply Qle_shift_div_l.
  - now apply Qle_shift_div_r.
Qed.

(** X24.  The Average-Rating that [create_books_with_rating] gives a
    catalog book differs from the exact mean of the book's ratings in the
    merged log by at most 0.05, and it stays on the rating scale: between
    [lo] and [hi] when every rating of the rating table is. *)
Theorem average_rating_near_mean_and_on_scale :
  forall (parse : string -> option Q) (raw_books : list (BookRecord YearCell))
         (users : list User) (ratings : list Rating) (d : DataLoader.self)
         (lo hi : Z),
    DataLoader.process_all parse (Some (raw_books, users, ratings)) = Some d ->
    Forall (fun r => (lo <= rt_Book_Rating r)%Z /\ (rt_Book_Rating r <= hi)%Z) ratings ->
    Forall (fun b =>
              let exact :=
                mean (ratings_for (DataLoader.book_rating_merged d) (ISBN b)) in
              (Average_Rating b - exact <= 1 # 20)%Q
              /\ (exact - Average_Rating b <= 1 # 20)%Q
              /\ (inject_Z lo <= Average_Rating b)%Q
              /\ (Average_Rating b <= inject_Z hi)%Q)
           (DataLoader.books_with_rating d).
Proof.
  intros parse raw_books users ratings d lo hi Hd Hscale.
  destruct (loaded_tables parse raw_books users ratings d Hd) as [Hcat [Hlog _]].
  rewrite Forall_forall in Hcat, Hlog, Hscale.
  apply Forall_forall. intros b Hb.
  destruct (Hcat b Hb) as [_ [_ [_ [_ [_ [_ [Hrated ->]]]]]]]. cbv zeta.
  set (l := ratings_for (DataLoader.book_rating_merged d) (ISBN b)).
  destruct (round_1_error (mean l)) as [E1 E2].
  destruct (mean_bounds l lo hi) as [M1 M2].
  - unfold l, ratings_for. rewrite <- count_filter_ISBN in Hrated.
    destruct (filter _ _); [simpl in Hrated; lia|discriminate].
  - intros z Hz. unfold l, ratings_for in Hz. apply in_map_iff in Hz.
    destruct Hz as [r [<- Hr]]. apply filter_In in Hr. destruct Hr as [Hr _].
    apply Hscale. now apply Hlog.
  - destruct (round_1_range (mean l) lo hi M1 M2). tauto.
Qed.

Lemma average_rating_near_mean_and_on_scale_witness :
  exists d,
    DataLoader.process_all example_parse
      (Some (example_raw_books, example_users, example_rating_table)) = Some d
    /\ Forall (fun b => (inject_Z 0 <= Average_Rating b)%Q
                        /\ (Average_Rating b <= inject_Z 10)%Q)
              (DataLoader.books_with_rating d).
Proof.
  eexists. split; [reflexivity|].
  pose proof (average_rating_near_mean_and_on_scale example_parse example_raw_books
                example_users example_rating_table _ 0%Z 10%Z eq_refl) as H.
  eapply Forall_impl; [|apply H].
  - intros b Hb. cbv beta zeta in Hb. cbv beta. tauto.
  - repeat constructor; simpl; lia.
Defined.

(** ** The users table *)

Lemma valid_age_range (a : Q) :
  valid_age a = true <-> (15 <= a)%Q /\ (a <= 100)%Q.
Proof.
  unfold valid_age. rewrite !andb_true_iff, !Qle_bool_iff, negb_true_iff. split.
  - tauto.
  - intros [H1 H2]. repeat split; try assumption.
    destruct (Qeq_bool a 0) eqn:E; [|reflexivity].
    apply Qeq_bool_iff in E. rewrite E in H1.
    apply (proj2 (Qle_bool_iff _ _)) in H1. vm_compute in H1. discriminate H1.
Qed.

(** X25.  [preprocess_users] keeps exactly the users whose age is known
    and lies between 15 and 100, in their order; its third test, that the
    age is not 0, never decides; and applying it to its own result changes
    nothing. *)
Theorem preprocess_users_keeps_ages_15_to_100 :
  forall users : list User,
    DataLoader.preprocess_users users
    = filter (fun u =>
                match us_Age u with
                | Some a => Qle_bool 15 a && Qle_bool a 100
                | None => false
                end)
             users
    /\ (forall u, In u (DataLoader.preprocess_users users) <->
                  In u users
                  /\ exists a, us_Age u = Some a /\ (15 <= a)%Q /\ (a <= 100)%Q)
    /\ DataLoader.preprocess_users (DataLoader.preprocess_users users)
       = DataLoader.preprocess_users users.
Proof.
  intros users.
  assert (Hin : forall l u,
            In u (DataLoader.preprocess_users l) <->
            In u l /\ exists a, us_Age u = Some a /\ (15 <= a)%Q /\ (a <= 100)%Q).
  { intros l u. unfold DataLoader.preprocess_users.
    rewrite !filter_In. destruct (us_Age u) as [a|]; simpl.
    - rewrite valid_age_range. split.
      + intros [[Hu _] Ha]. split; [exact Hu|]. exists a. tauto.
      + intros [Hu [a' [E Ha]]]. injection E as <-. tauto.
    - split; [intros [[_ C] _]; discriminate|].
      intros [_ [a [C _]]]. discriminate. }
  split; [|split].
  - unfold DataLoader.preprocess_users. rewrite filter_filter.
    apply filter_ext. intros u. destruct (us_Age u) as [a|]; [|reflexivity].
    simpl. unfold valid_age.
    destruct (Qle_bool 15 a) eqn:E1; [|reflexivity].
    destruct (Qle_bool a 100); [|reflexivity]. simpl.
    destruct (Qeq_bool a 0) eqn:E; [|reflexivity].
    apply Qeq_bool_iff in E. apply Qle_bool_iff in E1. rewrite E in E1.
    apply (proj2 (Qle_bool_iff _ _)) in E1. vm_compute in E1. discriminate E1.
  - apply Hin.
  - unfold DataLoader.preprocess_users at 1.
    rewrite !filter_all; [reflexivity| |].
    + intros u Hu. apply Hin in Hu. destruct Hu as [_ [a [-> _]]]. reflexivity.
    + intros u Hu. apply filter_In in Hu. destruct Hu as [Hu _].
      apply Hin in Hu. destruct Hu as [_ [a [-> Ha]]].
      now apply valid_age_range.
Qed.

(** ** The books table and the merged rating log *)

(** X26.  [preprocess_books] keeps exactly the rows that have an author, a
    publisher and a large image URL and whose year of publication, read as
    a number, lies between 1900 and 2025; it keeps them with the year as
    that number and every other cell as it was.  A year that is a text
    spelling no number, or missing, drops the row. *)
Theorem preprocess_books_keeps_complete_rows_of_valid_year :
  forall (parse : string -> option Q) (books : list (BookRecord YearCell))
         (b : BookRecord Q),
    In b (DataLoader.preprocess_books parse books) <->
    exists raw y,
      In raw books
      /\ bk_Book_Author raw <> None /\ bk_Publisher raw <> None
      /\ bk_Image_URL_L raw <> None
      /\ to_numeric parse (bk_Year_Of_Publication raw) = Some y
      /\ (1900 <= y)%Q /\ (y <= 2025)%Q
      /\ b = with_year raw y.
Proof.
  intros parse books b. rewrite preprocess_books_In. split.
  - intros [raw [Hraw [Hna [Hy [Hv E]]]]].
    apply andb_true_iff in Hna. destruct Hna as [Hna H3].
    apply andb_true_iff in Hna. destruct Hna as [H1 H2].
    apply valid_year_range in Hv.
    exists raw, (bk_Year_Of_Publication b).
    repeat split; try (now apply notna_Some); tauto.
  - intros [raw [y [Hraw [H1 [H2 [H3 [Hy [Hlo [Hhi ->]]]]]]]]].
    exists raw. simpl. split; [exact Hraw|]. split.
    + destruct (bk_Book_Author raw), (bk_Publisher raw), (bk_Image_URL_L raw);
        try contradiction; reflexivity.
    + split; [exact Hy|]. split; [|reflexivity].
      unfold valid_year. rewrite !andb_true_iff, !Qle_bool_iff, negb_true_iff.
      repeat split; try assumption.
      destruct (Qeq_bool y 0) eqn:E; [|reflexivity].
      apply Qeq_bool_iff in E. rewrite E in Hlo.
      apply (proj2 (Qle_bool_iff _ _)) in Hlo. vm_compute in Hlo. discriminate Hlo.
Qed.

Lemma matching_book_rows (books : list (BookRecord Q)) (i : string) :
  NoDup (map bk_ISBN books) ->
  length (filter (fun b => String.eqb i (bk_ISBN b)) books)
  = if isin i (map bk_ISBN books) then 1 else 0.
Proof.
  induction books as [|b books IH]; simpl; intros Hnd; [reflexivity|].
  apply NoDup_cons_iff in Hnd. destruct Hnd as [Hb Hnd].
  destruct (String.eqb_spec i (bk_ISBN b)) as [E|E]; simpl.
  - rewrite IH by assumption.
    rewrite (proj2 (isin_false i (map bk_ISBN books))); [reflexivity|].
    now rewrite E.
  - now apply IH.
Qed.

(** X27.  Against a books table with one row per ISBN, [preprocess_ratings]
    keeps the ratings of the books of that table and drops the others: the
    merged log is the rating table without the rows of unknown books, in
    the same order, no row repeated. *)
Theorem preprocess_ratings_keeps_ratings_of_known_books :
  forall (ratings : list Rating) (books : list (BookRecord Q)),
    NoDup (map bk_ISBN books) ->
    DataLoader.preprocess_ratings ratings books
    = filter (fun r => isin (rt_ISBN r) (map bk_ISBN books)) ratings.
Proof.
  intros ratings books Hnd. unfold DataLoader.preprocess_ratings.
  induction ratings as [|r ratings IH]; simpl; [reflexivity|].
  rewrite IH. pose proof (matching_book_rows books (rt_ISBN r) Hnd) as Hlen.
  destruct (isin (rt_ISBN r) (map bk_ISBN books)).
  - destruct (filter _ books) as [|b [|b' bs]]; simpl in Hlen; try lia.
    reflexivity.
  - destruct (filter _ books); [reflexivity|discriminate].
Qed.

Lemma preprocess_ratings_keeps_ratings_of_known_books_witness :
  DataLoader.preprocess_ratings example_rating_table
    (DataLoader.preprocess_books example_parse example_raw_books)
  = example_ratings.
Proof.
  etransitivity.
  - apply (preprocess_ratings_keeps_ratings_of_known_books example_rating_table
             (DataLoader.preprocess_books example_parse example_raw_books)).
    simpl. repeat constructor; simpl; intuition discriminate.
  - reflexivity.
Defined.

(** ** Where a user's recommendations come from *)

Lemma all_recommendations_In (I : Implementation) (s : BookRecommendationSystem.self)
    (n : nat) (method : string) (top_user_books : list string)
    (frames : list DataFrame) :
  BookRecommendationSystem.all_recommendations I s n method top_user_books
  = Returned frames ->
  forall recs, In recs frames ->
    exists isbn,
      In isbn top_user_books /\
      (if String.eqb method "collaborative" then
         CollaborativeRecommender.recommend I
           (BookRecommendationSystem.collaborative_recommender s) isbn n
       else if String.eqb method "content" then
         ContentRecommender.recommend I
           (BookRecommendationSystem.content_recommender s) isbn n
       else
         HybridRecommender.recommend I
           (BookRecommendationSystem.hybrid_recommender s) isbn n
           COLLAB_WEIGHT CONTENT_WEIGHT)
      = Returned recs.
Proof.
  revert frames. induction top_user_books as [|isbn rest IH]; intros frames H recs Hin.
  - simpl in H. injection H as <-. contradiction.
  - cbn [BookRecommendationSystem.all_recommendations] in H.
    destruct (if String.eqb method "collaborative" then _ else _)
      as [first|e] eqn:Hfirst; [|discriminate].
    simpl in H.
    destruct (BookRecommendationSystem.all_recommendations I s n method rest)
      as [more|e]; [|discriminate].
    simpl in H. injection H as <-.
    assert (Hcases : recs = first \/ In recs more)
      by (destruct (empty first); [now right|destruct Hin; auto]).
    destruct Hcases as [->|Hmore].
    + exists isbn. split; [now left|exact Hfirst].
    + destruct (IH more eq_refl recs Hmore) as [i [Hi Hrec]].
      exists i. split; [now right|exact Hrec].
Qed.

(** X28.  Under a method other than ['popularity'], every row that
    [recommend_for_user] returns for a user was recommended for a book this
    user has rated: it is a row of the frame that the engine of the chosen
    method (the fusion for any method that is neither ['collaborative'] nor
    ['content']) returns for that book and the same [n]. *)
Theorem recommend_for_user_rows_come_from_rated_books :
  forall (I : Implementation) (s : BookRecommendationSystem.self)
         (user_id : Z) (n : nat) (method : string) (df : DataFrame),
    Lawful I ->
    method <> "popularity" ->
    ratings_of (BookRecommendationSystem.filtered_ratings s) user_id <> [] ->
    BookRecommendationSystem.recommend_for_user I s user_id n method = Returned df ->
    Forall (fun row =>
              exists r recs,
                In r (BookRecommendationSystem.filtered_ratings s)
                /\ rt_User_ID r = user_id
                /\ In row (rows recs)
                /\ ((method = "collaborative"
                     /\ CollaborativeRecommender.recommend I
                          (BookRecommendationSystem.collaborative_recommender s)
                          (rt_ISBN r) n = Returned recs)
                    \/ (method = "content"
                        /\ ContentRecommender.recommend I
                             (BookRecommendationSystem.content_recommender s)
                             (rt_ISBN r) n = Returned recs)
                    \/ (method <> "collaborative" /\ method <> "content"
                        /\ HybridRecommender.recommend I
                             (BookRecommendationSystem.hybrid_recommender s)
                             (rt_ISBN r) n COLLAB_WEIGHT CONTENT_WEIGHT
                           = Returned recs)))
           (rows df).
Proof.
  intros I s user_id n method df L Hm Hne H.
  unfold BookRecommendationSystem.recommend_for_user in H.
  fold (ratings_of (BookRecommendationSystem.filtered_ratings s) user_id) in H.
  set (user_ratings := ratings_of (BookRecommendationSystem.filtered_ratings s) user_id)
    in *.
  destruct (map rt_ISBN user_ratings) as [|i0 is0] eqn:Erated.
  { destruct user_ratings; [contradiction|discriminate]. }
  rewrite <- Erated in H. apply String.eqb_neq in Hm. rewrite Hm in H.
  destruct (BookRecommendationSystem.all_recommendations I s n method _)
    as [frames|e] eqn:Hframes; [|discriminate].
  simpl in H.
  assert (Hrows : forall row, In row (rows df) -> In row (flat_map rows frames)).
  { destruct frames as [|f fs]; injection H as <-; [intros row []|].
    intros row Hrow. simpl in Hrow. apply firstn_incl in Hrow.
    apply drop_duplicates_from_In in Hrow. destruct Hrow as [Hrow _].
    apply filter_In in Hrow. tauto. }
  apply Forall_forall. intros row Hrow. apply Hrows in Hrow.
  apply in_flat_map in Hrow. destruct Hrow as [recs [Hrecs Hrow]].
  destruct (all_recommendations_In I s n method _ frames Hframes recs Hrecs)
    as [isbn [Hseed Hcall]].
  apply in_map_iff in Hseed. destruct Hseed as [r [<- Hr]].
  apply firstn_incl in Hr.
  eapply Permutation_in in Hr; [|apply sort_values_desc_perm].
  unfold user_ratings, ratings_of in Hr. apply filter_In in Hr.
  destruct Hr as [Hr Hu]. apply Z.eqb_eq in Hu.
  exists r, recs. split; [exact Hr|]. split; [exact Hu|]. split; [exact Hrow|].
  destruct (String.eqb_spec method "collaborative") as [->|Hc]; [now left|].
  destruct (String.eqb_spec method "content") as [->|Ht]; [right; now left|].
  right. right. auto.
Qed.

Lemma recommend_for_user_rows_come_from_rated_books_witness :
  exists df,
    BookRecommendationSystem.recommend_for_user reference example_system 3%Z 2 "content"
      = Returned df
    /\ map r_ISBN (rows df) = [Some "A"; Some "B"]
    /\ Forall (fun row =>
                 exists r recs,
                   In r example_ratings /\ rt_User_ID r = 3%Z
                   /\ In row (rows recs)
                   /\ ContentRecommender.recommend reference example_content
                        (rt_ISBN r) 2 = Returned recs)
              (rows df).
Proof.
  eexists. split; [vm_compute; reflexivity|]. split; [reflexivity|].
  eapply Forall_impl;
    [|apply (recommend_for_user_rows_come_from_rated_books reference example_system
               3%Z 2 "content" _ reference_lawful);
      [discriminate|discriminate|vm_compute; reflexivity]].
  intros row [r [recs [Hr [Hu [Hrow [[C _]|[[_ H]|[_ [C _]]]]]]]]];
    try discriminate C; try (now contradiction C).
  exists r, recs. auto.
Defined.

(** ** When the engines fail, and when they cannot *)

(** X29.  A content engine built over a catalog with one row per ISBN
    answers for every book of the catalog: [recommend] raises nothing and
    returns exactly [n] rows, or one row for every other catalog book if
    these are fewer than [n]. *)
Theorem content_engine_answers_every_catalog_book :
  forall (I : Implementation) (books_with_rating : list Book)
         (t : ContentRecommender.self) (isbn : string) (n : nat),
    Lawful I ->
    NoDup (map ISBN books_with_rating) ->
    ContentRecommender._build_model I books_with_rating = Returned t ->
    In isbn (map ISBN books_with_rating) ->
    exists df,
      ContentRecommender.recommend I t isbn n = Returned df
      /\ length (rows df) = Nat.min n (length books_with_rating - 1).
Proof.
  intros I books t isbn n L Hnd Hb Hin.
  destruct (content_index_one_row I books t Hb Hnd) as [Hidx Hone].
  assert (E : sim_index (ContentRecommender.content_similarity_df t) = map ISBN books).
  { unfold ContentRecommender._build_model in Hb.
    destruct (tfidf_fit_transform I _) as [m|e]; [|discriminate]. simpl in Hb.
    destruct (cosine_similarity I _) as [m'|e]; [|discriminate]. simpl in Hb.
    injection Hb as <-. simpl. apply map_ISBN_setitem_Content. }
  rewrite <- E in Hin.
  destruct (recommend_similar_length I _ _ isbn n Hidx Hin Hone) as [df [Hdf Hlen]].
  exists df. split; [exact Hdf|]. rewrite Hlen. unfold others.
  rewrite remove_label_length by assumption. now rewrite E, length_map.
Qed.

Lemma content_engine_answers_every_catalog_book_witness :
  exists t df,
    ContentRecommender._build_model reference example_books = Returned t
    /\ ContentRecommender.recommend reference t "B" 5 = Returned df
    /\ length (rows df) = 2.
Proof.
  unshelve refine (let H := content_engine_answers_every_catalog_book reference
                              example_books _ "B" 5 reference_lawful _ eq_refl _ in _).
  - simpl. repeat constructor; simpl; intuition discriminate.
  - simpl. auto.
  - destruct H as [df [Hdf Hlen]].
    eexists. exists df. split; [reflexivity|]. split; [exact Hdf|exact Hlen].
Defined.

(** X30.  When the fusion fails.  If the collaborative engine raises for
    the seed and [2n], so does [HybridRecommender.recommend], with the same
    exception; if it returns and the content engine raises, the fusion
    raises that exception.  If both return and one of the two lists is
    empty, or every row of both carries an ISBN, the fusion returns a
    frame: for candidates that are ISBNs neither the lookup of a score nor
    the assignment of the Hybrid-Score column can fail.  If both return
    non-empty lists and a row of one of them carries no ISBN, the fusion
    raises [IndexError], from the lookup of the missing value's score. *)
Theorem hybrid_raises_or_returns :
  forall (I : Implementation) (s : HybridRecommender.self) (isbn : string)
         (n : nat) (collab_weight content_weight : Q),
    Lawful I ->
    let collab :=
      CollaborativeRecommender.recommend I (HybridRecommender.collab_recommender s)
        isbn (n * 2) in
    let content :=
      ContentRecommender.recommend I (HybridRecommender.content_recommender s)
        isbn (n * 2) in
    let fused := HybridRecommender.recommend I s isbn n collab_weight content_weight in
    (forall e, collab = Raised e -> fused = Raised e)
    /\ (forall collab_recs e,
          collab = Returned collab_recs -> content = Raised e -> fused = Raised e)
    /\ (forall collab_recs content_recs,
          collab = Returned collab_recs -> content = Returned content_recs ->
          (empty collab_recs = true \/ empty content_recs = true
           \/ ~ In None (candidates collab_recs content_recs) ->
           exists df, fused = Returned df)
          /\ (empty collab_recs = false -> empty content_recs = false ->
              In None (candidates collab_recs content_recs) ->
              exists msg, fused = Raised (IndexError msg))).
Proof.
  intros I s isbn n cw ctw L collab content fused. split; [|split].
  - intros e He. unfold fused, HybridRecommender.recommend.
    fold collab. now rewrite He.
  - intros cr e Hc He. unfold fused, HybridRecommender.recommend.
    fold collab. rewrite Hc. simpl. fold content. now rewrite He.
  - intros cr tr Hc Ht. unfold fused. split.
    + intros Hok. destruct (empty cr) eqn:Ec.
      * eexists.
        apply (hybrid_recommend_collab_empty I s isbn n cw ctw cr tr Hc Ht Ec).
      * destruct (empty tr) eqn:Et.
        -- eexists.
           apply (hybrid_recommend_content_empty I s isbn n cw ctw cr tr Hc Ht Ec Et).
        -- destruct Hok as [C|[C|Hn]]; try discriminate.
           eexists.
           apply (hybrid_recommend_merge I s isbn n cw ctw cr tr Hc Ht Ec Et Hn).
    + intros Ec Et Hn. eexists.
      apply (hybrid_recommend_merge_raises I s isbn n cw ctw cr tr Hc Ht Ec Et Hn).
Qed.

Lemma hybrid_raises_or_returns_witness :
  exists msg,
    HybridRecommender.recommend reference
      (HybridRecommender.mkSelf
         (CollaborativeRecommender.mkSelf example_ratings []
            (CollaborativeRecommender.pivot_table example_ratings)
            example_item_similarity)
         example_content)
      "A" 1 COLLAB_WEIGHT CONTENT_WEIGHT
    = Raised (IndexError msg).
Proof.
  refine (proj2 (proj2 (proj2 (hybrid_raises_or_returns reference
                                 (HybridRecommender.mkSelf
                                    (CollaborativeRecommender.mkSelf example_ratings []
                                       (CollaborativeRecommender.pivot_table
                                          example_ratings)
                                       example_item_similarity)
                                    example_content)
                                 "A" 1 COLLAB_WEIGHT CONTENT_WEIGHT reference_lawful))
                       _ _ eq_refl eq_refl)
                eq_refl eq_refl _).
  simpl. auto.
Defined.
